(** * Swap-and-points settlement engine

    A shallow embedding of the settlement engine of the clothing exchange
    backend: the three Mongoose models [User], [Item] and [SwapRequest]
    (schemas, validators and instance methods) and the handlers of
    [routes/swaps.js] that drive them.

    Conventions of the embedding.
    - A JavaScript [Number] holding a points amount is a [Z]; the routes
      only let integers in ([isInt]) and the arithmetic of the ledger is
      [+] and [-], so no rounding is involved below 2^53.
    - The amount in the JSON body of the two points handlers is the value
      the client sent, a number or a string ([Amount]): [isInt] tests the
      text of the value and does not convert it, so a string of digits
      reaches the ledger as a string, where [+=] appends it to the text of
      the number and the schema casts the result back to a number.
    - An [ObjectId] is a [positive]; [a.toString() === b.toString()] on two
      ids is equality of the ids.
    - A field that may be [undefined] is an [option].
    - A collection is a [gmap] from ids to documents. A handler works on
      copies of the stored documents ([findById]) and writes them back with
      [save]; nothing is rolled back when a later step throws, so the
      store is threaded through a state-and-exception monad that keeps the
      store reached at the point of the [throw].
    - A [Date] is a [Z] (milliseconds); [Date.now()] is an argument of the
      handlers that read the clock. *)

From stdpp Require Import gmap strings pretty.
From Stdlib Require Import ZArith Ascii.

Local Open Scope Z_scope.

Abbreviation ObjectId := positive (only parsing).
Abbreviation Date := Z (only parsing).

(** ** JavaScript truthiness of the values that the handlers test *)

Definition truthy (n : Z) : bool := negb (n =? 0).

Definition truthy_opt (n : option Z) : bool :=
  match n with Some v => truthy v | None => false end.

(** [x > 0] where [x] may be [undefined]: the comparison is then false. *)
Definition gt0_opt (n : option Z) : bool :=
  match n with Some v => 0 <? v | None => false end.

Definition maxlength (n : nat) (s : option string) : bool :=
  match s with Some v => (String.length v <=? n)%nat | None => true end.

(** ** Numbers and their text

    [String(n)] of an integer [n] of magnitude below 1e21 is its decimal
    numeral, [pretty n]. The other way round, on a text made of signs and
    decimal digits [Number(text)] is the integer that the text spells,
    with an optional sign in front, [0] for the empty text and [NaN]
    otherwise. *)

(** The value of a decimal digit. *)
Definition digit (c : ascii) : option Z :=
  let n := Z.of_N (N_of_ascii c) in
  if (48 <=? n) && (n <=? 57) then Some (n - 48) else None.

(** The number spelled by the digits of [s], read after [acc]. *)
Fixpoint digits (acc : Z) (s : string) : option Z :=
  match s with
  | EmptyString => Some acc
  | String c s' =>
      match digit c with
      | Some d => digits (10 * acc + d) s'
      | None => None
      end
  end.

(** [[0-9]+] and the number it spells. *)
Definition numeral (s : string) : option Z :=
  match s with
  | EmptyString => None
  | _ => digits 0 s
  end.

(** [/^[-+]?[0-9]+$/], the test of [isInt] (leading zeroes allowed), and
    the number the text spells. *)
Definition intText (s : string) : option Z :=
  match s with
  | EmptyString => None
  | String c s' =>
      if bool_decide (c = "-"%char) then Z.opp <$> numeral s'
      else if bool_decide (c = "+"%char) then numeral s'
      else numeral s
  end.

(** [Number(text)] on a text of signs and digits; [None] is [NaN]. *)
Definition toNumber (s : string) : option Z :=
  match s with
  | EmptyString => Some 0
  | _ => intText s
  end.

(** The cast of a [Number] path of a schema applied to a non-empty text
    of signs and digits: [Number(text)], a cast error when that is
    [NaN]. *)
Definition castNumber (s : string) : option Z := intText s.

(** The message of a cast error (the wording is Mongoose's). *)
Definition quoted (s : string) : string :=
  String "034" (s +:+ String "034" EmptyString).

Definition castError (path value type : string) : string :=
  "Cast to Number failed for value " +:+ quoted value +:+ " (type " +:+ type
  +:+ ") at path " +:+ quoted path.

Definition castFailed (path text : string) (r : option Z) : list string :=
  match r with
  | Some _ => []
  | None => [castError path text "string"]
  end.

(** The amount of a JSON body as the client sent it: a JSON number (an
    integer; [isInt] refuses every other number) or a JSON string. The
    other JSON values (null, booleans, arrays, objects) are not
    modelled. *)
Inductive Amount :=
| Num (n : Z)
| Str (s : string).

(** [`${points}`]. *)
Definition text (a : Amount) : string :=
  match a with
  | Num n => pretty n
  | Str s => s
  end.

(** ** Exceptions and HTTP responses *)

Inductive Exn :=
| Error (msg : string)
| ValidationError (msgs : list string)
| TypeError
| DocumentNotFoundError.

Record Response := {
  code : Z;
  success : bool;
  message : string;
  error : option Exn
}.

Definition fail_with (c : Z) (m : string) : Response :=
  {| code := c; success := false; message := m; error := None |}.

Definition ok_with (c : Z) (m : string) : Response :=
  {| code := c; success := true; message := m; error := None |}.

(** ** Schemas *)

Module userSchema.

Record Stats := {
  itemsListed : Z;
  itemsSwapped : Z;
  swapsCompleted : Z;
  totalPointsEarned : Z;
  totalPointsSpent : Z
}.

Record t := {
  points : Z;
  stats : Stats
}.

Definition set_points (v : Z) (u : t) : t :=
  {| points := v; stats := stats u |}.

Definition set_totalPointsEarned (v : Z) (u : t) : t :=
  {| points := points u;
     stats := {| itemsListed := itemsListed (stats u);
                 itemsSwapped := itemsSwapped (stats u);
                 swapsCompleted := swapsCompleted (stats u);
                 totalPointsEarned := v;
                 totalPointsSpent := totalPointsSpent (stats u) |} |}.

Definition set_totalPointsSpent (v : Z) (u : t) : t :=
  {| points := points u;
     stats := {| itemsListed := itemsListed (stats u);
                 itemsSwapped := itemsSwapped (stats u);
                 swapsCompleted := swapsCompleted (stats u);
                 totalPointsEarned := totalPointsEarned (stats u);
                 totalPointsSpent := v |} |}.

Definition set_swapsCompleted (v : Z) (u : t) : t :=
  {| points := points u;
     stats := {| itemsListed := itemsListed (stats u);
                 itemsSwapped := itemsSwapped (stats u);
                 swapsCompleted := v;
                 totalPointsEarned := totalPointsEarned (stats u);
                 totalPointsSpent := totalPointsSpent (stats u) |} |}.

(** [points: { min: [0, 'Points cannot be negative'] }]. The other
    validated paths of the schema (name, email, ...) are not written by
    the settlement engine and are left out of the record. *)
Definition validate (u : t) : list string :=
  if points u <? 0 then ["Points cannot be negative"%string] else [].

(** The write of [save]: Mongoose sends the paths whose value was
    assigned a new value since the document was loaded, so a path the
    handler did not touch keeps what the store holds, also when another
    copy of the same document was saved in between. *)
Definition pick (loaded cur stored : Z) : Z :=
  if loaded =? cur then stored else cur.

Definition merge (loaded cur stored : t) : t :=
  {| points := pick (points loaded) (points cur) (points stored);
     stats :=
       {| itemsListed := pick (itemsListed (stats loaded)) (itemsListed (stats cur))
                              (itemsListed (stats stored));
          itemsSwapped := pick (itemsSwapped (stats loaded)) (itemsSwapped (stats cur))
                               (itemsSwapped (stats stored));
          swapsCompleted := pick (swapsCompleted (stats loaded)) (swapsCompleted (stats cur))
                                 (swapsCompleted (stats stored));
          totalPointsEarned := pick (totalPointsEarned (stats loaded))
                                    (totalPointsEarned (stats cur))
                                    (totalPointsEarned (stats stored));
          totalPointsSpent := pick (totalPointsSpent (stats loaded))
                                   (totalPointsSpent (stats cur))
                                   (totalPointsSpent (stats stored)) |} |}.

End userSchema.

Module itemSchema.

Inductive Status := pending | available | swapped | removed.

Record t := {
  uploader : ObjectId;
  status : Status;
  points : Z;
  swapRequests : list ObjectId
}.

Definition set_status (v : Status) (i : t) : t :=
  {| uploader := uploader i; status := v; points := points i;
     swapRequests := swapRequests i |}.

Definition push_swapRequest (r : ObjectId) (i : t) : t :=
  {| uploader := uploader i; status := status i; points := points i;
     swapRequests := swapRequests i ++ [r] |}.

(** [points: { min: [1, ...], max: [1000, ...] }]. *)
Definition validate (i : t) : list string :=
  (if points i <? 1 then ["Points must be at least 1"%string] else []) ++
  (if 1000 <? points i then ["Points cannot exceed 1000"%string] else []).

End itemSchema.

Module swapRequestSchema.

Inductive SwapType := direct | points.

Inductive Status := pending | accepted | rejected | completed | cancelled.

Record t := {
  item : ObjectId;
  requester : ObjectId;
  itemOwner : ObjectId;
  swapType : SwapType;
  status : Status;
  offeredItem : option ObjectId;
  offeredPoints : option Z;
  message : option string;
  responseMessage : option string;
  completedAt : option Date;
  cancelledBy : option ObjectId;
  cancelledReason : option string;
  pointsTransferred : bool;
  transferAmount : option Z;
  isRead : bool;
  readAt : option Date;
  createdAt : Date
}.

Definition min0 (msg : string) (n : option Z) : list string :=
  match n with
  | Some v => if v <? 0 then [msg] else []
  | None => []
  end.

Definition max_len (msg : string) (n : nat) (s : option string) : list string :=
  if maxlength n s then [] else [msg].

Definition validate (r : t) : list string :=
  min0 "Offered points cannot be negative" (offeredPoints r) ++
  max_len "Message cannot exceed 500 characters" 500 (message r) ++
  max_len "Response message cannot exceed 500 characters" 500 (responseMessage r) ++
  max_len "Cancellation reason cannot exceed 200 characters" 200 (cancelledReason r) ++
  min0 "Transfer amount cannot be negative" (transferAmount r).

(** [swapRequestSchema.pre('save', ...)]. *)
Definition preSave (r : t) : option Exn :=
  if negb (bool_decide (is_Some (offeredItem r))) &&
     (negb (truthy_opt (offeredPoints r)) ||
      bool_decide (offeredPoints r = Some 0))
  then Some (Error "Either an offered item or points must be provided")
  else if bool_decide (requester r = itemOwner r)
  then Some (Error "Cannot request swap for your own item")
  else None.

Definition sevenDays : Z := 7 * 24 * 60 * 60 * 1000.

(** The virtuals [isExpired] and [canBeCancelled]. *)
Definition isExpired (now : Date) (r : t) : bool :=
  match status r with
  | pending => createdAt r <? now - sevenDays
  | _ => false
  end.

Definition canBeCancelled (now : Date) (r : t) : bool :=
  match status r with
  | pending => negb (isExpired now r)
  | _ => false
  end.

End swapRequestSchema.

#[global] Instance itemStatus_eq_dec : EqDecision itemSchema.Status.
Proof. solve_decision. Defined.

#[global] Instance swapType_eq_dec : EqDecision swapRequestSchema.SwapType.
Proof. solve_decision. Defined.

#[global] Instance swapStatus_eq_dec : EqDecision swapRequestSchema.Status.
Proof. solve_decision. Defined.

(** ** The store and the monad of the handlers *)

Record Db := {
  users : gmap ObjectId userSchema.t;
  items : gmap ObjectId itemSchema.t;
  swaps : gmap ObjectId swapRequestSchema.t
}.

Definition set_users (m : gmap ObjectId userSchema.t) (db : Db) : Db :=
  {| users := m; items := items db; swaps := swaps db |}.

Definition set_items (m : gmap ObjectId itemSchema.t) (db : Db) : Db :=
  {| users := users db; items := m; swaps := swaps db |}.

Definition set_swaps (m : gmap ObjectId swapRequestSchema.t) (db : Db) : Db :=
  {| users := users db; items := items db; swaps := m |}.

Definition M (A : Type) : Type := Db -> Db * (Exn + A).

Definition ret {A} (a : A) : M A := fun db => (db, inr a).

Definition throw {A} (e : Exn) : M A := fun db => (db, inl e).

Definition bind {A B} (m : M A) (k : A -> M B) : M B :=
  fun db =>
    match m db with
    | (db', inr a) => k a db'
    | (db', inl e) => (db', inl e)
    end.

Notation "'let*' x := m 'in' k" := (bind m (fun x => k))
  (at level 10, x binder, m at level 100, k at level 200).

(** A method call or property read on the result of [findById]: a
    [TypeError] when the document was not found ([null]). *)
Definition deref {A} (o : option A) : M A :=
  match o with
  | Some a => ret a
  | None => throw TypeError
  end.

(** [try { ... } catch (error) { res.status(500).json(...) }]. *)
Definition tryCatch (failure : string) (h : M Response) (db : Db) : Db * Response :=
  match h db with
  | (db', inr r) => (db', r)
  | (db', inl e) =>
      (db', {| code := 500; success := false; message := failure; error := Some e |})
  end.

(** [return res.status(c).json(...)]. *)
Definition respond (r : Response) : M Response := ret r.

(** ** The models: instance methods *)

Module User.
Import userSchema.

Definition findById (id : ObjectId) : M (option t) :=
  fun db => (db, inr (users db !! id)).

(** [doc.save()] on a document loaded as [loaded] and now holding
    [cur]: schema validation, then the write of the modified paths. *)
Definition save (this : ObjectId) (loaded cur : t) : M t :=
  fun db =>
    match validate cur with
    | [] =>
        match users db !! this with
        | Some stored =>
            (set_users (<[this := merge loaded cur stored]> (users db)) db, inr cur)
        | None => (db, inl DocumentNotFoundError)
        end
    | msgs => (db, inl (ValidationError msgs))
    end.

Definition addPoints (this : ObjectId) (doc : t) (pts : Z) : M t :=
  let d1 := set_points (points doc + pts) doc in
  let d2 := set_totalPointsEarned (totalPointsEarned (stats d1) + pts) d1 in
  save this doc d2.

Definition spendPoints (this : ObjectId) (doc : t) (pts : Z) : M t :=
  if points doc <? pts then throw (Error "Insufficient points")
  else
    let d1 := set_points (points doc - pts) doc in
    let d2 := set_totalPointsSpent (totalPointsSpent (stats d1) + pts) d1 in
    save this doc d2.

Definition incrementSwapsCompleted (this : ObjectId) (doc : t) : M t :=
  save this doc (set_swapsCompleted (swapsCompleted (stats doc) + 1) doc).

(** [addPoints] called with a string [s] of signs and digits: each [+=]
    appends [s] to the text of the number and the assignment casts the
    text to a number; a failed cast leaves the path as it was and makes
    [save] reject the document. *)
Definition addPoints_text (this : ObjectId) (doc : t) (s : string) : M t :=
  let pointsText := pretty (points doc) +:+ s in
  let earnedText := pretty (totalPointsEarned (stats doc)) +:+ s in
  match castNumber pointsText, castNumber earnedText with
  | Some p, Some e => save this doc (set_totalPointsEarned e (set_points p doc))
  | p, e =>
      throw (ValidationError
               (castFailed "points" pointsText p ++
                castFailed "stats.totalPointsEarned" earnedText e ++
                match p with
                | Some v => validate (set_points v doc)
                | None => []
                end))
  end.

(** [spendPoints] called with a string [s] of signs and digits: [<] and
    [-=] read [s] as a number, [+=] appends it. A comparison with [NaN]
    is false and a difference with [NaN] is [NaN], which the cast of
    [points] refuses. *)
Definition spendPoints_text (this : ObjectId) (doc : t) (s : string) : M t :=
  let spentText := pretty (totalPointsSpent (stats doc)) +:+ s in
  match toNumber s with
  | Some v =>
      if points doc <? v then throw (Error "Insufficient points")
      else
        let d1 := set_points (points doc - v) doc in
        match castNumber spentText with
        | Some sp => save this doc (set_totalPointsSpent sp d1)
        | None =>
            throw (ValidationError
                     (castFailed "stats.totalPointsSpent" spentText None ++ validate d1))
        end
  | None =>
      throw (ValidationError
               ([castError "points" "NaN" "number"] ++
                castFailed "stats.totalPointsSpent" spentText (castNumber spentText)))
  end.

(** The two methods at an argument taken from a JSON body as it is. *)
Definition addPoints_any (this : ObjectId) (doc : t) (a : Amount) : M t :=
  match a with
  | Num n => addPoints this doc n
  | Str s => addPoints_text this doc s
  end.

Definition spendPoints_any (this : ObjectId) (doc : t) (a : Amount) : M t :=
  match a with
  | Num n => spendPoints this doc n
  | Str s => spendPoints_text this doc s
  end.

End User.

Module Item.
Import itemSchema.

Definition findById (id : ObjectId) : M (option t) :=
  fun db => (db, inr (items db !! id)).

(** [doc.save()]: schema validation, then the write, which finds the
    stored copy by its id and fails when there is none. No handler of the
    engine holds two copies of one item at a time, so the write of the
    modified paths is the write of the document. *)
Definition save (this : ObjectId) (cur : t) : M t :=
  fun db =>
    match validate cur with
    | [] =>
        match items db !! this with
        | Some _ => (set_items (<[this := cur]> (items db)) db, inr cur)
        | None => (db, inl DocumentNotFoundError)
        end
    | msgs => (db, inl (ValidationError msgs))
    end.

Definition markAsSwapped (this : ObjectId) (doc : t) : M t :=
  save this (set_status swapped doc).

End Item.

Module SwapRequest.
Import swapRequestSchema.

Definition findById (id : ObjectId) : M (option t) :=
  fun db => (db, inr (swaps db !! id)).

(** Schema validation, then the [pre('save')] hook, then the write. *)
Definition save (this : ObjectId) (cur : t) : M t :=
  fun db =>
    match validate cur with
    | [] =>
        match preSave cur with
        | None => (set_swaps (<[this := cur]> (swaps db)) db, inr cur)
        | Some e => (db, inl e)
        end
    | msgs => (db, inl (ValidationError msgs))
    end.

Definition set_status (v : Status) (r : t) : t :=
  {| item := item r; requester := requester r; itemOwner := itemOwner r;
     swapType := swapType r; status := v; offeredItem := offeredItem r;
     offeredPoints := offeredPoints r; message := message r;
     responseMessage := responseMessage r; completedAt := completedAt r;
     cancelledBy := cancelledBy r; cancelledReason := cancelledReason r;
     pointsTransferred := pointsTransferred r;
     transferAmount := transferAmount r; isRead := isRead r;
     readAt := readAt r; createdAt := createdAt r |}.

Definition set_responseMessage (v : option string) (r : t) : t :=
  {| item := item r; requester := requester r; itemOwner := itemOwner r;
     swapType := swapType r; status := status r; offeredItem := offeredItem r;
     offeredPoints := offeredPoints r; message := message r;
     responseMessage := v; completedAt := completedAt r;
     cancelledBy := cancelledBy r; cancelledReason := cancelledReason r;
     pointsTransferred := pointsTransferred r;
     transferAmount := transferAmount r; isRead := isRead r;
     readAt := readAt r; createdAt := createdAt r |}.

Definition set_completedAt (v : option Date) (r : t) : t :=
  {| item := item r; requester := requester r; itemOwner := itemOwner r;
     swapType := swapType r; status := status r; offeredItem := offeredItem r;
     offeredPoints := offeredPoints r; message := message r;
     responseMessage := responseMessage r; completedAt := v;
     cancelledBy := cancelledBy r; cancelledReason := cancelledReason r;
     pointsTransferred := pointsTransferred r;
     transferAmount := transferAmount r; isRead := isRead r;
     readAt := readAt r; createdAt := createdAt r |}.

Definition set_cancelled (by_ : option ObjectId) (reason : option string) (r : t) : t :=
  {| item := item r; requester := requester r; itemOwner := itemOwner r;
     swapType := swapType r; status := status r; offeredItem := offeredItem r;
     offeredPoints := offeredPoints r; message := message r;
     responseMessage := responseMessage r; completedAt := completedAt r;
     cancelledBy := by_; cancelledReason := reason;
     pointsTransferred := pointsTransferred r;
     transferAmount := transferAmount r; isRead := isRead r;
     readAt := readAt r; createdAt := createdAt r |}.

Definition set_transfer (flag : bool) (amount : option Z) (r : t) : t :=
  {| item := item r; requester := requester r; itemOwner := itemOwner r;
     swapType := swapType r; status := status r; offeredItem := offeredItem r;
     offeredPoints := offeredPoints r; message := message r;
     responseMessage := responseMessage r; completedAt := completedAt r;
     cancelledBy := cancelledBy r; cancelledReason := cancelledReason r;
     pointsTransferred := flag; transferAmount := amount; isRead := isRead r;
     readAt := readAt r; createdAt := createdAt r |}.

(** [swapRequestSchema.methods.accept]. *)
Definition accept (this : ObjectId) (doc : t) (response : option string) : M t :=
  let d1 := set_responseMessage response (set_status accepted doc) in
  let* d2 :=
    match swapType d1, offeredPoints d1 with
    | points, Some offered =>
        if 0 <? offered then
          let* requester := User.findById (requester d1) in
          let* itemOwner := User.findById (itemOwner d1) in
          let* r := deref requester in
          if offered <=? userSchema.points r then
            let* _ := User.spendPoints (swapRequestSchema.requester d1) r offered in
            let* o := deref itemOwner in
            let* _ := User.addPoints (swapRequestSchema.itemOwner d1) o offered in
            ret (set_transfer true (Some offered) d1)
          else throw (Error "Insufficient points for swap")
        else ret d1
    | _, _ => ret d1
    end in
  save this d2.

(** [swapRequestSchema.methods.reject]. *)
Definition reject (this : ObjectId) (doc : t) (response : option string) : M t :=
  save this (set_responseMessage response (set_status rejected doc)).

(** [swapRequestSchema.methods.complete]; [now] is [new Date()]. *)
Definition complete (this : ObjectId) (doc : t) (now : Date) : M t :=
  let d1 := set_completedAt (Some now) (set_status completed doc) in
  let* requester := User.findById (requester d1) in
  let* itemOwner := User.findById (itemOwner d1) in
  let* r := deref requester in
  let* _ := User.incrementSwapsCompleted (swapRequestSchema.requester d1) r in
  let* o := deref itemOwner in
  let* _ := User.incrementSwapsCompleted (swapRequestSchema.itemOwner d1) o in
  let* item := Item.findById (item d1) in
  let* i := deref item in
  let* _ := Item.markAsSwapped (swapRequestSchema.item d1) i in
  let* _ :=
    match offeredItem d1 with
    | Some oid =>
        let* offeredItem := Item.findById oid in
        let* oi := deref offeredItem in
        let* _ := Item.markAsSwapped oid oi in
        ret tt
    | None => ret tt
    end in
  save this d1.

(** [swapRequestSchema.methods.cancel]. *)
Definition cancel (this : ObjectId) (doc : t) (userId : ObjectId)
    (reason : option string) : M t :=
  let d1 := set_cancelled (Some userId) reason (set_status cancelled doc) in
  let* d2 :=
    match pointsTransferred d1, transferAmount d1 with
    | true, Some amount =>
        if 0 <? amount then
          let* requester := User.findById (requester d1) in
          let* itemOwner := User.findById (itemOwner d1) in
          let* r := deref requester in
          let* _ := User.addPoints (swapRequestSchema.requester d1) r amount in
          let* o := deref itemOwner in
          let* _ := User.spendPoints (swapRequestSchema.itemOwner d1) o amount in
          ret (set_transfer false (transferAmount d1) d1)
        else ret d1
    | _, _ => ret d1
    end in
  save this d2.

(** [SwapRequest.findOne({ item, requester, status: 'pending' })]. *)
Definition findOne_pending (itemId requesterId : ObjectId) : M (option (ObjectId * t)) :=
  fun db =>
    (db, inr (List.find
                (fun kv => bool_decide (item kv.2 = itemId) &&
                           bool_decide (requester kv.2 = requesterId) &&
                           bool_decide (status kv.2 = pending))
                (map_to_list (swaps db)))).

(** [SwapRequest.create({...})]: a new document with the defaults of
    the schema under a new id, then [save]. [now] stamps [createdAt]. *)
Definition create (itemId requesterId ownerId : ObjectId) (ty : SwapType)
    (offItem : option ObjectId) (offPoints : option Z) (msg : option string)
    (now : Date) : M (ObjectId * t) :=
  fun db =>
    let id := fresh (dom (swaps db)) in
    let doc :=
      {| item := itemId; requester := requesterId; itemOwner := ownerId;
         swapType := ty; status := pending; offeredItem := offItem;
         offeredPoints := offPoints; message := msg;
         responseMessage := None; completedAt := None;
         cancelledBy := None; cancelledReason := None;
         pointsTransferred := false; transferAmount := None;
         isRead := false; readAt := None; createdAt := now |} in
    match save id doc db with
    | (db', inr d) => (db', inr (id, d))
    | (db', inl e) => (db', inl e)
    end.

Definition set_read (v : option Date) (r : t) : t :=
  {| item := item r; requester := requester r; itemOwner := itemOwner r;
     swapType := swapType r; status := status r; offeredItem := offeredItem r;
     offeredPoints := offeredPoints r; message := message r;
     responseMessage := responseMessage r; completedAt := completedAt r;
     cancelledBy := cancelledBy r; cancelledReason := cancelledReason r;
     pointsTransferred := pointsTransferred r;
     transferAmount := transferAmount r; isRead := true;
     readAt := v; createdAt := createdAt r |}.

(** [swapRequestSchema.methods.markAsRead]; [now] is [new Date()]. *)
Definition markAsRead (this : ObjectId) (doc : t) (now : Date) : M t :=
  save this (set_read (Some now) doc).

End SwapRequest.

(** ** The handlers of [routes/swaps.js]

    The authenticated principal [req.user] is produced by the [protect]
    middleware, which is outside the engine: the handlers take its [_id]
    and, where they read it, its [points]. A body field is the value left
    by the sanitizers of the route ([trim]); the validators of the route
    are checked by the handler as in the source. The final [populate] only
    reads the store and is left out. *)

Module swaps.
Import swapRequestSchema.

Record ReqUser := { _id : ObjectId; points : Z }.

(** The body of a creation. [itemId] and [offeredItemId] are ids and
    [swapType] one of the two types, so the validators [notEmpty] and
    [isIn] of the route hold of every body of this type. *)
Record CreateBody := {
  itemId : ObjectId;
  swapType : SwapType;
  offeredItemId : option ObjectId;
  offeredPoints : option Z;
  message : option string
}.

Definition isInt_min1 (n : option Z) : bool :=
  match n with Some v => 1 <=? v | None => true end.

(** [router.post('/', protect, [...], ...)]. *)
Definition post (user : ReqUser) (body : CreateBody) (now : Date) : Db -> Db * Response :=
  tryCatch "Failed to create swap request" (
    if negb (isInt_min1 (offeredPoints body) && maxlength 500 (message body))
    then respond (fail_with 400 "Validation errors")
    else
    let* item := Item.findById (itemId body) in
    match item with
    | None => respond (fail_with 404 "Item not found")
    | Some item =>
    if negb (bool_decide (itemSchema.status item = itemSchema.available))
    then respond (fail_with 400 "Item is not available for swapping")
    else if bool_decide (itemSchema.uploader item = _id user)
    then respond (fail_with 400 "Cannot request swap for your own item")
    else if bool_decide (swapType body = direct) &&
            negb (bool_decide (is_Some (offeredItemId body)))
    then respond (fail_with 400 "Direct swap requires an offered item")
    else if bool_decide (swapType body = swapRequestSchema.points) &&
            (negb (truthy_opt (offeredPoints body)) ||
             match offeredPoints body with Some v => v <=? 0 | None => false end)
    then respond (fail_with 400 "Points swap requires offered points")
    else if bool_decide (swapType body = swapRequestSchema.points) &&
            match offeredPoints body with Some v => points user <? v | None => false end
    then respond (fail_with 400 "Insufficient points for this swap")
    else
    let* refused :=
      match offeredItemId body with
      | None => ret None
      | Some oid =>
          let* offeredItem := Item.findById oid in
          match offeredItem with
          | None => ret (Some (fail_with 404 "Offered item not found"))
          | Some offeredItem =>
              if negb (bool_decide (itemSchema.uploader offeredItem = _id user))
              then ret (Some (fail_with 403 "You can only offer your own items"))
              else if negb (bool_decide (itemSchema.status offeredItem = itemSchema.available))
              then ret (Some (fail_with 400 "Offered item is not available"))
              else ret None
          end
      end in
    match refused with
    | Some r => respond r
    | None =>
    let* existingRequest := SwapRequest.findOne_pending (itemId body) (_id user) in
    match existingRequest with
    | Some _ =>
        respond (fail_with 400 "You already have a pending swap request for this item")
    | None =>
    let* swapRequest :=
      SwapRequest.create (itemId body) (_id user) (itemSchema.uploader item)
        (swapType body) (offeredItemId body) (offeredPoints body) (message body) now in
    let* _ := Item.save (itemId body) (itemSchema.push_swapRequest swapRequest.1 item) in
    respond (ok_with 201 "Swap request created successfully")
    end end end).

(** [router.put('/:id/accept', protect, [...], ...)]. *)
Definition put_accept (user : ObjectId) (id : ObjectId) (responseMessage : option string)
    : Db -> Db * Response :=
  tryCatch "Failed to accept swap request" (
    if negb (maxlength 500 responseMessage)
    then respond (fail_with 400 "Validation errors")
    else
    let* swapRequest := SwapRequest.findById id in
    match swapRequest with
    | None => respond (fail_with 404 "Swap request not found")
    | Some swapRequest =>
    if negb (bool_decide (itemOwner swapRequest = user))
    then respond (fail_with 403 "Not authorized to accept this swap request")
    else if negb (bool_decide (status swapRequest = pending))
    then respond (fail_with 400 "Swap request is no longer pending")
    else
    let* swapRequest := SwapRequest.accept id swapRequest responseMessage in
    let* item := Item.findById (item swapRequest) in
    let* item := deref item in
    let* item := Item.markAsSwapped (swapRequestSchema.item swapRequest) item in
    let* uploader := User.findById (itemSchema.uploader item) in
    let* _ :=
      match uploader with
      | Some uploader =>
          if truthy (itemSchema.points item)
          then
            let* _ := User.addPoints (itemSchema.uploader item) uploader
                        (itemSchema.points item) in
            ret tt
          else ret tt
      | None => ret tt
      end in
    let* _ :=
      match offeredItem swapRequest with
      | Some oid =>
          let* offeredItem := Item.findById oid in
          let* offeredItem := deref offeredItem in
          let* _ := Item.markAsSwapped oid offeredItem in
          ret tt
      | None => ret tt
      end in
    respond (ok_with 200 "Swap request accepted successfully")
    end).

(** [router.put('/:id/reject', protect, [...], ...)]. *)
Definition put_reject (user : ObjectId) (id : ObjectId) (responseMessage : option string)
    : Db -> Db * Response :=
  tryCatch "Failed to reject swap request" (
    if negb (maxlength 500 responseMessage)
    then respond (fail_with 400 "Validation errors")
    else
    let* swapRequest := SwapRequest.findById id in
    match swapRequest with
    | None => respond (fail_with 404 "Swap request not found")
    | Some swapRequest =>
    if negb (bool_decide (itemOwner swapRequest = user))
    then respond (fail_with 403 "Not authorized to reject this swap request")
    else if negb (bool_decide (status swapRequest = pending))
    then respond (fail_with 400 "Swap request is no longer pending")
    else
    let* _ := SwapRequest.reject id swapRequest responseMessage in
    respond (ok_with 200 "Swap request rejected successfully")
    end).

(** [router.put('/:id/complete', protect, ...)]. *)
Definition put_complete (user : ObjectId) (id : ObjectId) (now : Date)
    : Db -> Db * Response :=
  tryCatch "Failed to complete swap" (
    let* swapRequest := SwapRequest.findById id in
    match swapRequest with
    | None => respond (fail_with 404 "Swap request not found")
    | Some swapRequest =>
    if negb (bool_decide (requester swapRequest = user)) &&
       negb (bool_decide (itemOwner swapRequest = user))
    then respond (fail_with 403 "Not authorized to complete this swap")
    else if negb (bool_decide (status swapRequest = accepted))
    then respond (fail_with 400 "Swap request must be accepted before completion")
    else
    let* _ := SwapRequest.complete id swapRequest now in
    respond (ok_with 200 "Swap completed successfully")
    end).

(** [router.put('/:id/cancel', protect, [...], ...)]. *)
Definition put_cancel (user : ObjectId) (id : ObjectId) (reason : option string)
    (now : Date) : Db -> Db * Response :=
  tryCatch "Failed to cancel swap request" (
    if negb (maxlength 200 reason)
    then respond (fail_with 400 "Validation errors")
    else
    let* swapRequest := SwapRequest.findById id in
    match swapRequest with
    | None => respond (fail_with 404 "Swap request not found")
    | Some swapRequest =>
    if negb (bool_decide (requester swapRequest = user))
    then respond (fail_with 403 "Not authorized to cancel this swap request")
    else if negb (canBeCancelled now swapRequest)
    then respond (fail_with 400 "Swap request cannot be cancelled")
    else
    let* _ := SwapRequest.cancel id swapRequest user reason in
    respond (ok_with 200 "Swap request cancelled successfully")
    end).

(** [router.put('/:id/read', protect, ...)]. *)
Definition put_read (user : ObjectId) (id : ObjectId) (now : Date)
    : Db -> Db * Response :=
  tryCatch "Failed to mark swap request as read" (
    let* swapRequest := SwapRequest.findById id in
    match swapRequest with
    | None => respond (fail_with 404 "Swap request not found")
    | Some swapRequest =>
    if negb (bool_decide (requester swapRequest = user)) &&
       negb (bool_decide (itemOwner swapRequest = user))
    then respond (fail_with 403 "Not authorized to mark this swap request as read")
    else
    let* _ := SwapRequest.markAsRead id swapRequest now in
    respond (ok_with 200 "Swap request marked as read")
    end).

End swaps.

(** ** The points handlers of [routes/users.js]

    Both are behind [protect] and [authorize('admin')]; the handler bodies
    are what is modelled. [points] is the value of the JSON body, passed
    on to the model as it is once [isInt] has accepted its text. *)

Module users.

Record PointsBody := {
  userId : ObjectId;
  points : Amount;
  reason : option string
}.

(** [body('points').isInt({ min: 1 })]: the text of the value must be an
    integer numeral and, read as a number, be 1 or more. The text of a
    number of 1e21 or more is in exponent form, which is not a numeral.
    The value itself is not converted. *)
Definition isInt_min1 (a : Amount) : bool :=
  match a with
  | Num n => (1 <=? n) && (n <? 10 ^ 21)
  | Str s =>
      match intText s with
      | Some v => 1 <=? v
      | None => false
      end
  end.

Definition validBody (body : PointsBody) : bool :=
  isInt_min1 (points body) && maxlength 200 (reason body).

(** [router.post('/points/add', protect, authorize('admin'), [...], ...)]. *)
Definition post_points_add (body : PointsBody) : Db -> Db * Response :=
  tryCatch "Failed to add points" (
    if negb (validBody body)
    then respond (fail_with 400 "Validation errors")
    else
    let* user := User.findById (userId body) in
    match user with
    | None => respond (fail_with 404 "User not found")
    | Some user =>
    let* _ := User.addPoints_any (userId body) user (points body) in
    respond (ok_with 200 ("Added " +:+ text (points body) +:+ " points to user"))
    end).

(** [router.post('/points/deduct', protect, authorize('admin'), [...], ...)]. *)
Definition post_points_deduct (body : PointsBody) : Db -> Db * Response :=
  tryCatch "Failed to deduct points" (
    if negb (validBody body)
    then respond (fail_with 400 "Validation errors")
    else
    let* user := User.findById (userId body) in
    match user with
    | None => respond (fail_with 404 "User not found")
    | Some user =>
    let* _ := User.spendPoints_any (userId body) user (points body) in
    respond (ok_with 200 ("Deducted " +:+ text (points body) +:+ " points from user"))
    end).

End users.

(** ** The item removal of [routes/admin.js] *)

Module admin.

(** [Item.findByIdAndDelete(id)]. *)
Definition findByIdAndDelete (id : ObjectId) : M unit :=
  fun db => (set_items (delete id (items db)) db, inr tt).

(** [router.delete('/items/:id', ...)], behind [protect] and
    [authorize('admin')]. *)
Definition delete_item (id : ObjectId) : Db -> Db * Response :=
  tryCatch "Failed to delete item" (
    let* item := Item.findById id in
    match item with
    | None => respond (fail_with 404 "Item not found")
    | Some _ =>
    let* _ := findByIdAndDelete id in
    respond (ok_with 200 "Item deleted successfully")
    end).

End admin.

(** ** Error kinds

    The handlers answer with an HTTP status and a message; the error kinds
    of the specification name groups of these answers. *)

Inductive ErrorKind :=
| NotFound
| NotAuthorized
| InvalidTransition
| InvalidSwapRequest
| InvalidItemState
| InsufficientFunds
| DuplicateRequest.

#[global] Instance errorKind_eq_dec : EqDecision ErrorKind.
Proof. solve_decision. Defined.

Definition one_of (m : string) (l : list string) : bool :=
  existsb (String.eqb m) l.

(** The kind of a thrown exception, by its message. No [throw] of the
    models carries a message about the state of an item. *)
Definition exnKind (e : Exn) : option ErrorKind :=
  match e with
  | Error m =>
      if one_of m ["Insufficient points"; "Insufficient points for swap"]%string
      then Some InsufficientFunds
      else if one_of m ["Either an offered item or points must be provided";
                        "Cannot request swap for your own item"]%string
      then Some InvalidSwapRequest
      else None
  | _ => None
  end.

(** The kind of a response: of the exception it reports when it is the
    500 of a [catch], else by status and message. *)
Definition errorKind (r : Response) : option ErrorKind :=
  if success r then None
  else
    match error r with
    | Some e => exnKind e
    | None =>
        if code r =? 404 then Some NotFound
        else if one_of (message r)
                  ["Swap request is no longer pending";
                   "Swap request must be accepted before completion";
                   "Swap request cannot be cancelled"]%string
        then Some InvalidTransition
        else if one_of (message r) ["Insufficient points for this swap"]%string
        then Some InsufficientFunds
        else if one_of (message r)
                  ["You already have a pending swap request for this item"]%string
        then Some DuplicateRequest
        else if one_of (message r)
                  ["Validation errors";
                   "Item is not available for swapping";
                   "Cannot request swap for your own item";
                   "Direct swap requires an offered item";
                   "Points swap requires offered points";
                   "You can only offer your own items";
                   "Offered item is not available"]%string
        then Some InvalidSwapRequest
        else if code r =? 403 then Some NotAuthorized
        else None
    end.

(** ** Scenario stores *)

Module Scenario.

Definition user (p : Z) : userSchema.t :=
  {| userSchema.points := p; userSchema.stats := userSchema.Build_Stats 0 0 0 0 0 |}.

Definition X : ObjectId := 1%positive.
Definition Y : ObjectId := 2%positive.
Definition Z3 : ObjectId := 3%positive.
Definition I : ObjectId := 10%positive.
Definition J : ObjectId := 11%positive.
Definition K : ObjectId := 12%positive.
Definition R : ObjectId := 20%positive.
Definition R' : ObjectId := 21%positive.

Definition itemI (st : itemSchema.Status) : itemSchema.t :=
  {| itemSchema.uploader := Y; itemSchema.status := st; itemSchema.points := 20;
     itemSchema.swapRequests := [R] |}.

Definition itemJ : itemSchema.t :=
  {| itemSchema.uploader := X; itemSchema.status := itemSchema.available;
     itemSchema.points := 5; itemSchema.swapRequests := [] |}.

Definition requestFrom (who : ObjectId) (ty : swapRequestSchema.SwapType)
    (st : swapRequestSchema.Status) (offItem : option ObjectId) (offPoints : option Z)
    : swapRequestSchema.t :=
  {| swapRequestSchema.item := I; swapRequestSchema.requester := who;
     swapRequestSchema.itemOwner := Y; swapRequestSchema.swapType := ty;
     swapRequestSchema.status := st; swapRequestSchema.offeredItem := offItem;
     swapRequestSchema.offeredPoints := offPoints;
     swapRequestSchema.message := None; swapRequestSchema.responseMessage := None;
     swapRequestSchema.completedAt := None; swapRequestSchema.cancelledBy := None;
     swapRequestSchema.cancelledReason := None;
     swapRequestSchema.pointsTransferred := false;
     swapRequestSchema.transferAmount := None; swapRequestSchema.isRead := false;
     swapRequestSchema.readAt := None; swapRequestSchema.createdAt := 0 |}.

Definition request := requestFrom X.

Definition itemK : itemSchema.t :=
  {| itemSchema.uploader := Z3; itemSchema.status := itemSchema.available;
     itemSchema.points := 8; itemSchema.swapRequests := [] |}.

(** Two pending direct requests for the one item I: R from X offering J,
    R' from Z3 offering K. *)
Definition twoDb : Db :=
  {| users := {[ X := user 0; Y := user 0; Z3 := user 0 ]};
     items := {[ I := itemI itemSchema.available; J := itemJ; K := itemK ]};
     swaps := {[ R := requestFrom X swapRequestSchema.direct swapRequestSchema.pending
                        (Some J) None;
                 R' := requestFrom Z3 swapRequestSchema.direct swapRequestSchema.pending
                         (Some K) None ]} |}.

(** Scenario A/B: a points swap of 20 on item I (20 points, owner Y),
    the requester X holding [bx] points and Y holding [by_]. *)
Definition pointsDb (bx by_ : Z) : Db :=
  {| users := {[ X := user bx; Y := user by_ ]};
     items := {[ I := itemI itemSchema.available ]};
     swaps := {[ R := request swapRequestSchema.points swapRequestSchema.pending
                        None (Some 20) ]} |}.

(** Scenario C: a direct swap offering item J for item I. *)
Definition directDb (bx by_ : Z) : Db :=
  {| users := {[ X := user bx; Y := user by_ ]};
     items := {[ I := itemI itemSchema.available; J := itemJ ]};
     swaps := {[ R := request swapRequestSchema.direct swapRequestSchema.pending
                        (Some J) None ]} |}.

(** The points swap of scenario A with the request in status [st]. *)
Definition settledDb (st : swapRequestSchema.Status) : Db :=
  set_swaps {[ R := request swapRequestSchema.points st None (Some 20) ]}
    (pointsDb 50 0).


End Scenario.

Definition balance (db : Db) (u : ObjectId) : option Z :=
  userSchema.points <$> users db !! u.

Definition itemStatus (db : Db) (i : ObjectId) : option itemSchema.Status :=
  itemSchema.status <$> items db !! i.

Definition swapStatus (db : Db) (r : ObjectId) : option swapRequestSchema.Status :=
  swapRequestSchema.status <$> swaps db !! r.

(** What the ledger writes: a credit and a debit of [n] points. *)
Definition credited (n : Z) (u : userSchema.t) : userSchema.t :=
  userSchema.set_totalPointsEarned (userSchema.totalPointsEarned (userSchema.stats u) + n)
    (userSchema.set_points (userSchema.points u + n) u).

Definition debited (n : Z) (u : userSchema.t) : userSchema.t :=
  userSchema.set_totalPointsSpent (userSchema.totalPointsSpent (userSchema.stats u) + n)
    (userSchema.set_points (userSchema.points u - n) u).

(** The integers that a [Number] holds exactly: a sum, a difference or a
    numeral whose value is in this range is computed without rounding. *)
Definition safeInteger (n : Z) : Prop :=
  -9007199254740992 < n < 9007199254740992.

(** The number whose numeral is the numeral of [n] followed by the string
    of digits [s], which spells [v]. *)
Definition followedBy (s : string) (v n : Z) : Z :=
  n * 10 ^ Z.of_nat (String.length s) + v.

(** The number that an amount stands for when it is read as a number. *)
Definition amountValue (a : Amount) : option Z :=
  match a with
  | Num n => Some n
  | Str s => intText s
  end.

(** [u'] has the counters of [u] that the ledger does not write. *)
Definition sameActivity (u u' : userSchema.t) : Prop :=
  userSchema.itemsListed (userSchema.stats u')
  = userSchema.itemsListed (userSchema.stats u) /\
  userSchema.itemsSwapped (userSchema.stats u')
  = userSchema.itemsSwapped (userSchema.stats u) /\
  userSchema.swapsCompleted (userSchema.stats u')
  = userSchema.swapsCompleted (userSchema.stats u).

(** The terminal states of a request. *)
Definition terminal (s : swapRequestSchema.Status) : bool :=
  match s with
  | swapRequestSchema.rejected
  | swapRequestSchema.completed
  | swapRequestSchema.cancelled => true
  | _ => false
  end.

(** The answer to an operation that the state of the request does not
    allow: the caller is checked before the state. *)
Definition refusal (permitted : bool) : ErrorKind :=
  if permitted then InvalidTransition else NotAuthorized.

(** An operation was refused: the store is as before and the response is
    a failure, of kind [k] when the input passed the validators. *)
Definition refused (db : Db) (out : Db * Response) (wellFormed : bool) (k : ErrorKind) : Prop :=
  out.1 = db /\ success out.2 = false /\
  (wellFormed = true -> errorKind out.2 = Some k).

(** The request as [accept] leaves it: without and with a transfer. *)
Definition acceptedPlain (response : option string) (r : swapRequestSchema.t)
    : swapRequestSchema.t :=
  SwapRequest.set_responseMessage response
    (SwapRequest.set_status swapRequestSchema.accepted r).

Definition acceptedPaid (response : option string) (p : Z) (r : swapRequestSchema.t)
    : swapRequestSchema.t :=
  SwapRequest.set_transfer true (Some p) (acceptedPlain response r).

(** The request as [cancel] leaves it after reversing a transfer. *)
Definition cancelledRefunded (who : ObjectId) (reason : option string)
    (r : swapRequestSchema.t) : swapRequestSchema.t :=
  SwapRequest.set_transfer false (swapRequestSchema.transferAmount r)
    (SwapRequest.set_cancelled (Some who) reason
       (SwapRequest.set_status swapRequestSchema.cancelled r)).

(** The conditions under which the model's [accept] goes through: a
    direct swap with its offered item, or a points swap whose requester
    can pay. They do not mention the requested item. *)
Definition payable (db : Db) (r : swapRequestSchema.t) : Prop :=
  (swapRequestSchema.swapType r = swapRequestSchema.direct /\
   is_Some (swapRequestSchema.offeredItem r)) \/
  (swapRequestSchema.swapType r = swapRequestSchema.points /\
   exists p ru ou,
     swapRequestSchema.offeredPoints r = Some p /\ 0 < p /\
     users db !! swapRequestSchema.requester r = Some ru /\ p <= userSchema.points ru /\
     users db !! swapRequestSchema.itemOwner r = Some ou /\ 0 <= userSchema.points ou).

(** ** Assertions on the handlers

    [hoare P m Q E]: started in a store satisfying [P], the computation [m]
    either returns a value [a] in a store satisfying [Q a] or throws [e]
    in a store satisfying [E e]. Nothing is rolled back at a [throw], so
    the exceptional postcondition speaks of the store as it is then. *)

Definition hoare {A} (P : Db -> Prop) (m : M A) (Q : A -> Db -> Prop)
    (E : Exn -> Db -> Prop) : Prop :=
  forall db, P db ->
    match m db with
    | (db', inr a) => Q a db'
    | (db', inl e) => E e db'
    end.

(** [leads P T m]: from [P], however [m] ends, the store satisfies [T]. *)
Definition leads {A} (P T : Db -> Prop) (m : M A) : Prop :=
  hoare P m (fun _ => T) (fun _ => T).

Definition keeps {A} (I : Db -> Prop) (m : M A) : Prop := leads I I m.

(** An assertion that speaks of the three collections one by one. *)
Definition componentwise (Iu : gmap ObjectId userSchema.t -> Prop)
    (Ii : gmap ObjectId itemSchema.t -> Prop)
    (Is : gmap ObjectId swapRequestSchema.t -> Prop) (db : Db) : Prop :=
  Iu (users db) /\ Ii (items db) /\ Is (swaps db).

(** What an assertion on one collection must survive to be kept by the
    handlers: the write of a user's modified paths, the write and the
    removal of an item, the write of a request that passed the schema and
    the [pre('save')] hook. *)
Definition closedU (Iu : gmap ObjectId userSchema.t -> Prop) : Prop :=
  forall m this loaded cur stored,
    m !! this = Some stored -> userSchema.validate cur = [] ->
    Iu m -> Iu (<[this := userSchema.merge loaded cur stored]> m).

Definition closedI (Ii : gmap ObjectId itemSchema.t -> Prop) : Prop :=
  forall m this cur, itemSchema.validate cur = [] -> Ii m -> Ii (<[this := cur]> m).

Definition closedD (Ii : gmap ObjectId itemSchema.t -> Prop) : Prop :=
  forall m this, Ii m -> Ii (delete this m).

Definition closedS (Is : gmap ObjectId swapRequestSchema.t -> Prop) : Prop :=
  forall m this cur,
    swapRequestSchema.validate cur = [] -> swapRequestSchema.preSave cur = None ->
    Is m -> Is (<[this := cur]> m).

(** The requests collection is [m0]; users and items are free. *)
Definition swapsAre (m0 : gmap ObjectId swapRequestSchema.t) : Db -> Prop :=
  componentwise (fun _ => True) (fun _ => True) (fun m => m = m0).

(** The requests collection of [db'] is [m0], or [m0] with the one request
    [id] rewritten from [r] to [r'] with [shape r r']. *)
Definition writes (id : ObjectId) (m0 : gmap ObjectId swapRequestSchema.t)
    (shape : swapRequestSchema.t -> swapRequestSchema.t -> Prop) (db' : Db) : Prop :=
  swaps db' = m0 \/
  exists r r', m0 !! id = Some r /\ shape r r' /\ swaps db' = <[id := r']> m0.

(** The fields of a request that say what is exchanged between whom. *)
Definition sameExchange (r r' : swapRequestSchema.t) : Prop :=
  swapRequestSchema.item r' = swapRequestSchema.item r /\
  swapRequestSchema.requester r' = swapRequestSchema.requester r /\
  swapRequestSchema.itemOwner r' = swapRequestSchema.itemOwner r /\
  swapRequestSchema.swapType r' = swapRequestSchema.swapType r /\
  swapRequestSchema.offeredItem r' = swapRequestSchema.offeredItem r /\
  swapRequestSchema.offeredPoints r' = swapRequestSchema.offeredPoints r /\
  swapRequestSchema.createdAt r' = swapRequestSchema.createdAt r.

(** The edges of the life cycle of a request. *)
Inductive edge : swapRequestSchema.Status -> swapRequestSchema.Status -> Prop :=
| edge_accept : edge swapRequestSchema.pending swapRequestSchema.accepted
| edge_reject : edge swapRequestSchema.pending swapRequestSchema.rejected
| edge_cancel : edge swapRequestSchema.pending swapRequestSchema.cancelled
| edge_complete : edge swapRequestSchema.accepted swapRequestSchema.completed.

(** A user after one more completed swap. *)
Definition swapCounted (u : userSchema.t) : userSchema.t :=
  userSchema.set_swapsCompleted (userSchema.swapsCompleted (userSchema.stats u) + 1) u.

(** [u'] is [u] with one more completed swap and nothing else changed. *)
Definition countedOnce (u u' : userSchema.t) : Prop :=
  userSchema.swapsCompleted (userSchema.stats u')
  = userSchema.swapsCompleted (userSchema.stats u) + 1 /\
  userSchema.points u' = userSchema.points u /\
  userSchema.itemsListed (userSchema.stats u')
  = userSchema.itemsListed (userSchema.stats u) /\
  userSchema.itemsSwapped (userSchema.stats u')
  = userSchema.itemsSwapped (userSchema.stats u) /\
  userSchema.totalPointsEarned (userSchema.stats u')
  = userSchema.totalPointsEarned (userSchema.stats u) /\
  userSchema.totalPointsSpent (userSchema.stats u')
  = userSchema.totalPointsSpent (userSchema.stats u).




(** The calls of the modelled API and the run of a sequence of calls. *)
Inductive Call :=
| CreateSwap (user : swaps.ReqUser) (body : swaps.CreateBody) (now : Date)
| AcceptSwap (user id : ObjectId) (response : option string)
| RejectSwap (user id : ObjectId) (response : option string)
| CompleteSwap (user id : ObjectId) (now : Date)
| CancelSwap (user id : ObjectId) (reason : option string) (now : Date)
| ReadSwap (user id : ObjectId) (now : Date)
| AddPoints (body : users.PointsBody)
| DeductPoints (body : users.PointsBody)
| DeleteItem (id : ObjectId).

Definition run (c : Call) : Db -> Db * Response :=
  match c with
  | CreateSwap user body now => swaps.post user body now
  | AcceptSwap user id response => swaps.put_accept user id response
  | RejectSwap user id response => swaps.put_reject user id response
  | CompleteSwap user id now => swaps.put_complete user id now
  | CancelSwap user id reason now => swaps.put_cancel user id reason now
  | ReadSwap user id now => swaps.put_read user id now
  | AddPoints body => users.post_points_add body
  | DeductPoints body => users.post_points_deduct body
  | DeleteItem id => admin.delete_item id
  end.

Fixpoint runAll (cs : list Call) (db : Db) : Db :=
  match cs with
  | [] => db
  | c :: cs => runAll cs (run c db).1
  end.

(** The status that the call [c] may give the stored request [r] of id
    [id]: the target of the one edge the call can take, when [c] addresses
    [id], its caller is the party the edge is reserved to and [r] is at
    the source of the edge. *)
Definition target (c : Call) (id : ObjectId) (r : swapRequestSchema.t)
    : option swapRequestSchema.Status :=
  match c with
  | AcceptSwap user id' _ =>
      if bool_decide (id' = id) && bool_decide (swapRequestSchema.itemOwner r = user) &&
         bool_decide (swapRequestSchema.status r = swapRequestSchema.pending)
      then Some swapRequestSchema.accepted else None
  | RejectSwap user id' _ =>
      if bool_decide (id' = id) && bool_decide (swapRequestSchema.itemOwner r = user) &&
         bool_decide (swapRequestSchema.status r = swapRequestSchema.pending)
      then Some swapRequestSchema.rejected else None
  | CompleteSwap user id' _ =>
      if bool_decide (id' = id) &&
         (bool_decide (swapRequestSchema.requester r = user) ||
          bool_decide (swapRequestSchema.itemOwner r = user)) &&
         bool_decide (swapRequestSchema.status r = swapRequestSchema.accepted)
      then Some swapRequestSchema.completed else None
  | CancelSwap user id' _ now =>
      if bool_decide (id' = id) && bool_decide (swapRequestSchema.requester r = user) &&
         swapRequestSchema.canBeCancelled now r
      then Some swapRequestSchema.cancelled else None
  | _ => None
  end.

(** The calls that move no points whatever the store: all but accept,
    cancel and the two points handlers. *)
Definition movesNoPoints (c : Call) : bool :=
  match c with
  | AcceptSwap _ _ _ | AddPoints _ | DeductPoints _ | CancelSwap _ _ _ _ => false
  | _ => true
  end.

(** Invariants of the store. *)
Definition balancesNonneg (db : Db) : Prop :=
  map_Forall (fun _ u => 0 <= userSchema.points u) (users db).

Definition requestsWellFormed (db : Db) : Prop :=
  map_Forall (fun _ r => swapRequestSchema.validate r = [] /\
                         swapRequestSchema.preSave r = None) (swaps db).

Definition pendingUnpaid (db : Db) : Prop :=
  map_Forall (fun _ r => swapRequestSchema.status r = swapRequestSchema.pending ->
                         swapRequestSchema.pointsTransferred r = false) (swaps db).

(** * Properties *)

(** ** The points ledger *)

Section Ledger.
Import userSchema.

Lemma pick_same a b : pick a b a = b.
Proof. unfold pick. destruct (Z.eqb_spec a b); congruence. Qed.

Lemma merge_same u cur : merge u cur u = cur.
Proof.
  destruct u as [p [a b c d e]], cur as [p' [a' b' c' d' e']].
  unfold merge; cbn. by rewrite !pick_same.
Qed.

Lemma validate_ok u : 0 <= points u -> validate u = [].
Proof. unfold validate. intros H. destruct (Z.ltb_spec (points u) 0); [lia | done]. Qed.

Lemma validate_neg u : points u < 0 -> validate u = ["Points cannot be negative"%string].
Proof. unfold validate. intros H. destruct (Z.ltb_spec (points u) 0); [done | lia]. Qed.

(** Saving a document whose loaded copy is what the store holds. *)
Lemma save_run db this u cur :
  users db !! this = Some u -> 0 <= points cur ->
  User.save this u cur db = (set_users (<[this := cur]> (users db)) db, inr cur).
Proof.
  intros Hu Hp. unfold User.save. rewrite (validate_ok _ Hp), Hu.
  by rewrite merge_same.
Qed.

Lemma save_invalid db this u cur :
  points cur < 0 ->
  User.save this u cur db = (db, inl (ValidationError ["Points cannot be negative"%string])).
Proof. intros Hp. unfold User.save. by rewrite (validate_neg _ Hp). Qed.

Lemma addPoints_run db this u n :
  users db !! this = Some u -> 0 <= points u + n ->
  User.addPoints this u n db
  = (set_users (<[this := credited n u]> (users db)) db, inr (credited n u)).
Proof. intros Hu Hp. unfold User.addPoints. by apply save_run. Qed.

Lemma spendPoints_run db this u n :
  users db !! this = Some u -> n <= points u ->
  User.spendPoints this u n db
  = (set_users (<[this := debited n u]> (users db)) db, inr (debited n u)).
Proof.
  intros Hu Hp. unfold User.spendPoints.
  destruct (Z.ltb_spec (points u) n); [lia |].
  apply save_run; [done | cbn; lia].
Qed.

End Ledger.

(** C7. The debit of the ledger, [spendPoints]: on the stored document of
    a user it throws [Insufficient points] (kind [InsufficientFunds])
    exactly when the balance is below the amount, and then writes nothing;
    otherwise it stores the balance less the amount and
    [totalPointsSpent] plus the amount, the other counters as they were. *)
Theorem spendPoints_debit (db : Db) (this : ObjectId) (u : userSchema.t) (amount : Z) :
  users db !! this = Some u ->
  (userSchema.points u < amount ->
     User.spendPoints this u amount db = (db, inl (Error "Insufficient points")) /\
     exnKind (Error "Insufficient points") = Some InsufficientFunds) /\
  (~ userSchema.points u < amount ->
     exists u',
       User.spendPoints this u amount db
       = (set_users (<[this := u']> (users db)) db, inr u') /\
       userSchema.points u' = userSchema.points u - amount /\
       userSchema.totalPointsSpent (userSchema.stats u')
       = userSchema.totalPointsSpent (userSchema.stats u) + amount /\
       userSchema.totalPointsEarned (userSchema.stats u')
       = userSchema.totalPointsEarned (userSchema.stats u)).
Proof.
  intros Hu. split.
  - intros Hlt. split; [| reflexivity].
    unfold User.spendPoints.
    by destruct (Z.ltb_spec (userSchema.points u) amount); [| lia].
  - intros Hge. exists (debited amount u).
    rewrite (spendPoints_run _ _ _ _ Hu) by lia. done.
Qed.

Lemma spendPoints_debit_witness :
  users (Scenario.pointsDb 50 0) !! Scenario.X = Some (Scenario.user 50) /\
  exists u',
    User.spendPoints Scenario.X (Scenario.user 50) 20 (Scenario.pointsDb 50 0)
    = (set_users (<[Scenario.X := u']> (users (Scenario.pointsDb 50 0)))
         (Scenario.pointsDb 50 0), inr u') /\
    userSchema.points u' = 50 - 20.
Proof.
  split; [reflexivity |].
  destruct (spendPoints_debit (Scenario.pointsDb 50 0) Scenario.X (Scenario.user 50) 20
              eq_refl) as [_ H].
  destruct H as (u' & Hrun & Hp & _); [cbn; lia |].
  exists u'. split; [exact Hrun | exact Hp].
Defined.

(** C10 (as stated it fails). A credit of -5 on a balance of 3 is not
    added: the schema's floor on [points] rejects the [save], the user
    keeps 3 points and [totalPointsEarned] stays 0. *)
Lemma addPoints_overdraw_not_added :
  let db := Scenario.pointsDb 3 0 in
  let out := User.addPoints Scenario.X (Scenario.user 3) (-5) db in
  out.2 = inl (ValidationError ["Points cannot be negative"%string]) /\
  out.1 = db /\
  balance out.1 Scenario.X = Some 3 /\
  balance out.1 Scenario.X <> Some (3 + -5).
Proof. cbv zeta. split_and!; [reflexivity | reflexivity | reflexivity | discriminate]. Qed.

(** C10 (amended). The credit of the ledger, [addPoints], puts no
    condition on the sign of its amount. For every amount, zero and
    negative ones included, that leaves the balance at 0 or more, it
    stores the balance plus the amount and [totalPointsEarned] plus the
    amount and does not touch [totalPointsSpent]; so a negative amount
    lowers the balance without [spendPoints] or its guard. The one gate is
    the schema's floor on the balance that results: below 0 the [save] is
    refused with a validation error and nothing is stored. *)
Theorem addPoints_credit (db : Db) (this : ObjectId) (u : userSchema.t) (amount : Z) :
  users db !! this = Some u ->
  (0 <= userSchema.points u + amount ->
     exists u',
       User.addPoints this u amount db
       = (set_users (<[this := u']> (users db)) db, inr u') /\
       userSchema.points u' = userSchema.points u + amount /\
       userSchema.totalPointsEarned (userSchema.stats u')
       = userSchema.totalPointsEarned (userSchema.stats u) + amount /\
       userSchema.totalPointsSpent (userSchema.stats u')
       = userSchema.totalPointsSpent (userSchema.stats u)) /\
  (userSchema.points u + amount < 0 ->
     User.addPoints this u amount db
     = (db, inl (ValidationError ["Points cannot be negative"%string]))).
Proof.
  intros Hu. split.
  - intros Hp. exists (credited amount u).
    by rewrite (addPoints_run _ _ _ _ Hu Hp).
  - intros Hp. unfold User.addPoints. by apply save_invalid.
Qed.

Lemma addPoints_credit_witness :
  users (Scenario.pointsDb 10 0) !! Scenario.X = Some (Scenario.user 10) /\
  exists u',
    User.addPoints Scenario.X (Scenario.user 10) (-4) (Scenario.pointsDb 10 0)
    = (set_users (<[Scenario.X := u']> (users (Scenario.pointsDb 10 0)))
         (Scenario.pointsDb 10 0), inr u') /\
    userSchema.points u' = 10 + -4 /\
    userSchema.totalPointsSpent (userSchema.stats u') = 0.
Proof.
  split; [reflexivity |].
  destruct (addPoints_credit (Scenario.pointsDb 10 0) Scenario.X (Scenario.user 10) (-4)
              eq_refl) as [H _].
  destruct H as (u' & Hrun & Hp & _ & Hs); [cbn; lia |].
  exists u'. split_and!; [exact Hrun | exact Hp | exact Hs].
Defined.

(** ** The item availability tracker *)

Lemma item_validate_set_status st it :
  itemSchema.validate (itemSchema.set_status st it) = itemSchema.validate it.
Proof. reflexivity. Qed.

Lemma item_validate_nil it :
  itemSchema.validate it = [] <-> 1 <= itemSchema.points it <= 1000.
Proof.
  unfold itemSchema.validate.
  destruct (Z.ltb_spec (itemSchema.points it) 1),
    (Z.ltb_spec 1000 (itemSchema.points it)); split; (done || lia).
Qed.

Lemma markAsSwapped_run db this it stored :
  items db !! this = Some stored ->
  itemSchema.validate it = [] ->
  Item.markAsSwapped this it db
  = (set_items (<[this := itemSchema.set_status itemSchema.swapped it]> (items db)) db,
     inr (itemSchema.set_status itemSchema.swapped it)).
Proof.
  intros Hs Hv. unfold Item.markAsSwapped, Item.save.
  by rewrite item_validate_set_status, Hv, Hs.
Qed.

(** On a document whose stored copy is gone the write fails and the
    store is left as it was. *)
Lemma markAsSwapped_missing db this it :
  items db !! this = None ->
  itemSchema.validate it = [] ->
  Item.markAsSwapped this it db = (db, inl DocumentNotFoundError).
Proof.
  intros Hs Hv. unfold Item.markAsSwapped, Item.save.
  by rewrite item_validate_set_status, Hv, Hs.
Qed.




(** ** Creation *)

(** C8. Creating a swap request on an item of one's own: whatever the
    body and the status of the item, the handler answers 400 without
    success, of kind [InvalidSwapRequest], and leaves the store as it was,
    so no request is created. On a well-formed body for an available item
    the answer is [Cannot request swap for your own item]. The
    [pre('save')] hook of the model, for its part, refuses to store any
    request whose requester is its item owner. *)
Theorem post_own_item_refused (db : Db) (user : swaps.ReqUser) (body : swaps.CreateBody)
    (now : Z) (it : itemSchema.t) :
  items db !! swaps.itemId body = Some it ->
  itemSchema.uploader it = swaps._id user ->
  let out := swaps.post user body now db in
  out.1 = db /\
  success out.2 = false /\
  code out.2 = 400 /\
  errorKind out.2 = Some InvalidSwapRequest /\
  (swaps.isInt_min1 (swaps.offeredPoints body) = true ->
   maxlength 500 (swaps.message body) = true ->
   itemSchema.status it = itemSchema.available ->
   message out.2 = "Cannot request swap for your own item"%string) /\
  (forall this r,
     swapRequestSchema.requester r = swapRequestSchema.itemOwner r ->
     exists e, SwapRequest.save this r db = (db, inl e)).
Proof.
  intros Hit Hup. cbv zeta.
  assert (Hpost :
    swaps.post user body now db
    = (db,
       if negb (swaps.isInt_min1 (swaps.offeredPoints body) &&
                maxlength 500 (swaps.message body))
       then fail_with 400 "Validation errors"
       else if negb (bool_decide (itemSchema.status it = itemSchema.available))
       then fail_with 400 "Item is not available for swapping"
       else fail_with 400 "Cannot request swap for your own item")).
  { unfold swaps.post, tryCatch.
    destruct (negb _); [reflexivity |].
    unfold bind, Item.findById. rewrite Hit. cbn.
    destruct (negb _); [reflexivity |].
    by rewrite bool_decide_eq_true_2. }
  rewrite Hpost. cbn [fst snd].
  split_and!.
  - reflexivity.
  - by repeat destruct (negb _).
  - by repeat destruct (negb _).
  - by repeat destruct (negb _).
  - intros -> -> ->. reflexivity.
  - intros this r Hself. clear Hpost. unfold SwapRequest.save.
    destruct (swapRequestSchema.validate r); [| by eexists].
    unfold swapRequestSchema.preSave.
    destruct (_ && _); [eexists; reflexivity |].
    rewrite bool_decide_eq_true_2 by done. eexists; reflexivity.
Qed.

Lemma post_own_item_refused_witness :
  let db := Scenario.pointsDb 50 0 in
  let user := {| swaps._id := Scenario.Y; swaps.points := 0 |} in
  let body := {| swaps.itemId := Scenario.I;
                 swaps.swapType := swapRequestSchema.points;
                 swaps.offeredItemId := None;
                 swaps.offeredPoints := Some 20;
                 swaps.message := None |} in
  (swaps.post user body 0 db).1 = db /\
  errorKind (swaps.post user body 0 db).2 = Some InvalidSwapRequest /\
  message (swaps.post user body 0 db).2 = "Cannot request swap for your own item"%string.
Proof.
  cbv zeta.
  destruct (post_own_item_refused (Scenario.pointsDb 50 0)
              {| swaps._id := Scenario.Y; swaps.points := 0 |}
              {| swaps.itemId := Scenario.I;
                 swaps.swapType := swapRequestSchema.points;
                 swaps.offeredItemId := None;
                 swaps.offeredPoints := Some 20;
                 swaps.message := None |}
              0 (Scenario.itemI itemSchema.available) eq_refl eq_refl)
    as (Hdb & _ & _ & Hkind & Hmsg & _).
  split_and!; [exact Hdb | exact Hkind | apply Hmsg; reflexivity].
Defined.

(** ** Terminal states *)

(** C6 (as stated it fails). On a rejected request, an accept by a user
    who is not the item owner is answered 403 [NotAuthorized], not
    [InvalidTransition]. *)
Lemma terminal_accept_by_stranger_not_InvalidTransition :
  let db := Scenario.settledDb swapRequestSchema.rejected in
  let out := swaps.put_accept Scenario.Z3 Scenario.R None db in
  swapStatus db Scenario.R = Some swapRequestSchema.rejected /\
  code out.2 = 403 /\
  errorKind out.2 = Some NotAuthorized /\
  errorKind out.2 <> Some InvalidTransition.
Proof. cbv zeta. split_and!; [reflexivity | reflexivity | reflexivity | discriminate]. Qed.

(** C6 (amended). For every stored request whose status is rejected,
    completed or cancelled, each of accept, reject, complete and cancel,
    by any caller and with any input, fails and leaves the whole store,
    hence the status of the request, as it was. On well-formed input the
    failure is [InvalidTransition] when the caller is the party the
    operation is reserved to (the item owner for accept and reject, either
    party for complete, the requester for cancel) and [NotAuthorized]
    when the caller is not. *)
Theorem terminal_request_refused (db : Db) (id : ObjectId) (sr : swapRequestSchema.t)
    (user : ObjectId) (response reason : option string) (now : Z) :
  swaps db !! id = Some sr ->
  terminal (swapRequestSchema.status sr) = true ->
  let owner := bool_decide (swapRequestSchema.itemOwner sr = user) in
  let requester := bool_decide (swapRequestSchema.requester sr = user) in
  refused db (swaps.put_accept user id response db) (maxlength 500 response)
    (refusal owner) /\
  refused db (swaps.put_reject user id response db) (maxlength 500 response)
    (refusal owner) /\
  refused db (swaps.put_complete user id now db) true (refusal (requester || owner)) /\
  refused db (swaps.put_cancel user id reason now db) (maxlength 200 reason)
    (refusal requester).
Proof.
  intros Hsr Hterm. cbv zeta.
  assert (Hnp : bool_decide (swapRequestSchema.status sr = swapRequestSchema.pending) = false)
    by (apply bool_decide_eq_false_2; intros E; by rewrite E in Hterm).
  assert (Hna : bool_decide (swapRequestSchema.status sr = swapRequestSchema.accepted) = false)
    by (apply bool_decide_eq_false_2; intros E; by rewrite E in Hterm).
  assert (Hnc : swapRequestSchema.canBeCancelled now sr = false)
    by (unfold swapRequestSchema.canBeCancelled;
        by destruct (swapRequestSchema.status sr)).
  split_and!; unfold refused.
  - unfold swaps.put_accept, tryCatch.
    destruct (maxlength 500 response); cbn; [| done].
    unfold bind, SwapRequest.findById. rewrite Hsr. cbn.
    destruct (bool_decide (swapRequestSchema.itemOwner sr = user)); cbn; [| done].
    rewrite Hnp. done.
  - unfold swaps.put_reject, tryCatch.
    destruct (maxlength 500 response); cbn; [| done].
    unfold bind, SwapRequest.findById. rewrite Hsr. cbn.
    destruct (bool_decide (swapRequestSchema.itemOwner sr = user)); cbn; [| done].
    rewrite Hnp. done.
  - unfold swaps.put_complete, tryCatch.
    unfold bind, SwapRequest.findById. rewrite Hsr. cbn.
    destruct (bool_decide (swapRequestSchema.requester sr = user)),
      (bool_decide (swapRequestSchema.itemOwner sr = user)); cbn;
      rewrite ?Hna; done.
  - unfold swaps.put_cancel, tryCatch.
    destruct (maxlength 200 reason); cbn; [| done].
    unfold bind, SwapRequest.findById. rewrite Hsr. cbn.
    destruct (bool_decide (swapRequestSchema.requester sr = user)); cbn; [| done].
    rewrite Hnc. done.
Qed.

Lemma terminal_request_refused_witness :
  let db := Scenario.settledDb swapRequestSchema.completed in
  refused db (swaps.put_accept Scenario.Y Scenario.R None db) true InvalidTransition /\
  refused db (swaps.put_cancel Scenario.X Scenario.R None 0 db) true InvalidTransition.
Proof.
  cbv zeta.
  destruct (terminal_request_refused
              (Scenario.settledDb swapRequestSchema.completed)
              Scenario.R
              (Scenario.request swapRequestSchema.points
                 swapRequestSchema.completed None (Some 20))
              Scenario.Y None None 0 eq_refl eq_refl)
    as (Ha & _ & _ & _).
  destruct (terminal_request_refused
              (Scenario.settledDb swapRequestSchema.completed)
              Scenario.R
              (Scenario.request swapRequestSchema.points
                 swapRequestSchema.completed None (Some 20))
              Scenario.X None None 0 eq_refl eq_refl)
    as (_ & _ & _ & Hc).
  split; [exact Ha | exact Hc].
Defined.

(** ** Acceptance *)

Section Acceptance.
Import swapRequestSchema.

Lemma max_len_nil msg n s : max_len msg n s = [] <-> maxlength n s = true.
Proof. unfold max_len. destruct (maxlength n s); naive_solver. Qed.

Lemma min0_nil msg n :
  min0 msg n = [] <-> match n with Some v => 0 <= v | None => True end.
Proof.
  unfold min0. destruct n as [v |]; [| done].
  destruct (Z.ltb_spec v 0); split; (done || lia).
Qed.

Lemma validate_nil r :
  validate r = [] <->
  match offeredPoints r with Some v => 0 <= v | None => True end /\
  maxlength 500 (message r) = true /\
  maxlength 500 (responseMessage r) = true /\
  maxlength 200 (cancelledReason r) = true /\
  match transferAmount r with Some v => 0 <= v | None => True end.
Proof.
  unfold validate. rewrite !app_nil, !max_len_nil, !min0_nil. tauto.
Qed.

Lemma save_run_request db this r :
  validate r = [] -> preSave r = None ->
  SwapRequest.save this r db = (set_swaps (<[this := r]> (swaps db)) db, inr r).
Proof. intros Hv Hp. unfold SwapRequest.save. by rewrite Hv, Hp. Qed.

Lemma preSave_paid response p r :
  offeredPoints r = Some p -> 0 < p -> requester r <> itemOwner r ->
  preSave (acceptedPaid response p r) = None.
Proof.
  intros Hp Hpos Hne. unfold preSave. cbn. rewrite Hp. cbn.
  unfold truthy. destruct (Z.eqb_spec p 0); [lia |]. cbn.
  rewrite (bool_decide_eq_false_2 (Some p = Some 0)) by congruence.
  rewrite andb_false_r. by rewrite bool_decide_eq_false_2.
Qed.

Lemma preSave_plain response r :
  preSave (acceptedPlain response r) = preSave r.
Proof. reflexivity. Qed.

Lemma validate_plain response r :
  validate r = [] -> maxlength 500 response = true ->
  validate (acceptedPlain response r) = [].
Proof. rewrite !validate_nil. cbn. tauto. Qed.

Lemma validate_paid response p r :
  validate r = [] -> maxlength 500 response = true -> 0 < p ->
  validate (acceptedPaid response p r) = [].
Proof. rewrite !validate_nil. cbn. intros (?&?&?&?&?) ? ?. split_and!; auto with lia. Qed.

(** [accept] on a points swap whose requester can pay. *)
Lemma accept_paid_run db this r response p ru ou :
  swapType r = points -> offeredPoints r = Some p -> 0 < p ->
  requester r <> itemOwner r ->
  users db !! requester r = Some ru -> p <= userSchema.points ru ->
  users db !! itemOwner r = Some ou -> 0 <= userSchema.points ou ->
  validate r = [] -> maxlength 500 response = true ->
  SwapRequest.accept this r response db
  = (set_swaps (<[this := acceptedPaid response p r]> (swaps db))
       (set_users (<[itemOwner r := credited p ou]>
                     (<[requester r := debited p ru]> (users db))) db),
     inr (acceptedPaid response p r)).
Proof.
  intros Hty Hoff Hpos Hne Hru Hfunds Hou Hou0 Hv Hresp.
  unfold SwapRequest.accept. cbn zeta. cbn [swapType offeredPoints
    SwapRequest.set_responseMessage SwapRequest.set_status requester itemOwner].
  rewrite Hty, Hoff.
  destruct (Z.ltb_spec 0 p) as [_ |]; [| lia].
  unfold bind at 1. unfold bind at 1. unfold User.findById at 1.
  unfold bind at 1. unfold User.findById at 1. rewrite Hru, Hou.
  unfold bind at 1. cbn [deref ret].
  destruct (Z.leb_spec p (userSchema.points ru)) as [_ |]; [| lia].
  unfold bind at 1. rewrite (spendPoints_run _ _ _ _ Hru Hfunds).
  unfold bind at 1. cbn [deref ret].
  unfold bind at 1. rewrite addPoints_run; cycle 1.
  { cbn. by rewrite lookup_insert_ne. }
  { lia. }
  cbn [ret users set_users].
  rewrite save_run_request.
  - reflexivity.
  - by apply validate_paid.
  - by apply preSave_paid.
Qed.
(** [accept] on a points swap whose requester cannot pay. *)
Lemma accept_unpaid_run db this r response p ru :
  swapType r = points -> offeredPoints r = Some p -> 0 < p ->
  users db !! requester r = Some ru -> userSchema.points ru < p ->
  SwapRequest.accept this r response db
  = (db, inl (Error "Insufficient points for swap")).
Proof.
  intros Hty Hoff Hpos Hru Hfunds.
  unfold SwapRequest.accept. cbn zeta. cbn [swapType offeredPoints
    SwapRequest.set_responseMessage SwapRequest.set_status requester itemOwner].
  rewrite Hty, Hoff.
  destruct (Z.ltb_spec 0 p) as [_ |]; [| lia].
  unfold bind at 1. unfold bind at 1. unfold User.findById at 1.
  unfold bind at 1. unfold User.findById at 1. rewrite Hru.
  unfold bind at 1. cbn [deref ret].
  destruct (Z.leb_spec p (userSchema.points ru)) as [| _]; [lia |].
  reflexivity.
Qed.

(** [accept] when no transfer is due: a direct swap, or no positive
    amount offered. *)
Lemma accept_plain_run db this r response :
  swapType r = direct \/ gt0_opt (offeredPoints r) = false ->
  validate r = [] -> maxlength 500 response = true -> preSave r = None ->
  SwapRequest.accept this r response db
  = (set_swaps (<[this := acceptedPlain response r]> (swaps db)) db,
     inr (acceptedPlain response r)).
Proof.
  intros Hno Hv Hresp Hpre.
  assert (Hsave :
    SwapRequest.save this (acceptedPlain response r) db
    = (set_swaps (<[this := acceptedPlain response r]> (swaps db)) db,
       inr (acceptedPlain response r))).
  { apply save_run_request; [by apply validate_plain | by rewrite preSave_plain]. }
  unfold SwapRequest.accept. cbn zeta. cbn [swapType offeredPoints
    SwapRequest.set_responseMessage SwapRequest.set_status requester itemOwner].
  destruct Hno as [-> | Hgt].
  - unfold bind, ret. exact Hsave.
  - destruct (swapType r); [unfold bind, ret; exact Hsave |].
    destruct (offeredPoints r) as [p |]; [| unfold bind, ret; exact Hsave].
    cbn in Hgt. rewrite Hgt. unfold bind, ret. exact Hsave.
Qed.

(** What the handler does once [accept] has returned: the item is
    marked, its uploader paid the item's points, the offered item
    marked. *)
Lemma put_accept_after db user id response r db1 r1 it up :
  maxlength 500 response = true ->
  swaps db !! id = Some r -> itemOwner r = user -> status r = pending ->
  SwapRequest.accept id r response db = (db1, inr r1) ->
  items db1 !! item r1 = Some it -> itemSchema.validate it = [] ->
  users db1 !! itemSchema.uploader it = Some up -> 0 <= userSchema.points up ->
  (forall j, offeredItem r1 = Some j ->
     exists itj, items db1 !! j = Some itj /\ itemSchema.validate itj = []) ->
  exists db',
    swaps.put_accept user id response db
    = (db', ok_with 200 "Swap request accepted successfully") /\
    users db'
    = <[itemSchema.uploader it := credited (itemSchema.points it) up]> (users db1) /\
    swaps db' = swaps db1 /\
    items db' !! item r1 = Some (itemSchema.set_status itemSchema.swapped it) /\
    (forall j, offeredItem r1 = Some j -> itemStatus db' j = Some itemSchema.swapped) /\
    (forall k, k <> item r1 -> offeredItem r1 <> Some k -> items db' !! k = items db1 !! k).
Proof.
  intros Hresp Hr Hown Hpend Hacc Hit Hitv Hup Hup0 Hoff.
  assert (Hpts : 1 <= itemSchema.points it <= 1000) by (by apply item_validate_nil).
  unfold swaps.put_accept, tryCatch. rewrite Hresp. cbn [negb].
  unfold bind at 1. unfold SwapRequest.findById at 1. rewrite Hr.
  rewrite (bool_decide_eq_true_2 _ Hown), (bool_decide_eq_true_2 _ Hpend). cbn [negb].
  unfold bind at 1. rewrite Hacc.
  unfold bind at 1. unfold Item.findById at 1. rewrite Hit.
  unfold bind at 1. cbn [deref ret].
  unfold bind at 1. rewrite (markAsSwapped_run _ _ _ _ Hit Hitv).
  unfold bind at 1. unfold User.findById at 1.
  cbn [users set_items itemSchema.uploader itemSchema.set_status itemSchema.points].
  rewrite Hup.
  unfold truthy. destruct (Z.eqb_spec (itemSchema.points it) 0) as [| _]; [lia |].
  cbn [negb].
  unfold bind at 1. unfold bind at 1. rewrite addPoints_run; [| exact Hup | lia].
  cbn [ret].
  destruct (offeredItem r1) as [j |] eqn:Hj.
  - destruct (Hoff j eq_refl) as (itj & Hitj & Hitjv).
    unfold bind at 1. unfold bind at 1. unfold bind at 1.
    unfold Item.findById at 1.
    cbn [items set_users set_items].
    destruct (decide (j = item r1)) as [-> | Hne].
    + rewrite lookup_insert_eq. cbn [deref ret].
      unfold bind at 1.
      erewrite markAsSwapped_run; [| cbn; by rewrite lookup_insert_eq | done].
      cbn [ret respond]. eexists. split; [reflexivity |].
      cbn [users items swaps set_users set_items]. split_and!; try done.
      * by rewrite !lookup_insert_eq.
      * intros ? [= <-]. unfold itemStatus. cbn. by rewrite lookup_insert_eq.
      * intros k Hk _. by rewrite !lookup_insert_ne.
    + rewrite lookup_insert_ne by done. rewrite Hitj. cbn [deref ret].
      unfold bind at 1.
      erewrite markAsSwapped_run;
        [| cbn; rewrite lookup_insert_ne by done; exact Hitj | done].
      cbn [ret respond]. eexists. split; [reflexivity |].
      cbn [users items swaps set_users set_items]. split_and!; try done.
      * rewrite lookup_insert_ne by done. by rewrite lookup_insert_eq.
      * intros ? [= <-]. unfold itemStatus. cbn. by rewrite lookup_insert_eq.
      * intros k Hk Hk'. rewrite lookup_insert_ne by congruence.
        by rewrite lookup_insert_ne.
  - unfold bind at 1. cbn [ret respond]. eexists. split; [reflexivity |].
    cbn [users items swaps set_users set_items]. split_and!; try done.
    + by rewrite lookup_insert_eq.
    + intros k Hk _. by rewrite lookup_insert_ne.
Qed.

End Acceptance.

(** C1. Accepting a pending points swap by the item owner, the requester
    holding at least the offered points: the handler succeeds; the
    requester is debited the offered points; the item owner, who is the
    uploader of the item, is credited the offered points and the points of
    the item; the item is stored as swapped; the request is stored as
    accepted with [pointsTransferred] true and [transferAmount] the
    offered points. No other user is touched. *)
Theorem accept_points_swap (db : Db) (id : ObjectId) (r : swapRequestSchema.t)
    (response : option string) (p : Z) (ru ou : userSchema.t) (it : itemSchema.t) :
  swaps db !! id = Some r ->
  swapRequestSchema.status r = swapRequestSchema.pending ->
  swapRequestSchema.swapType r = swapRequestSchema.points ->
  swapRequestSchema.offeredPoints r = Some p -> 0 < p ->
  swapRequestSchema.requester r <> swapRequestSchema.itemOwner r ->
  swapRequestSchema.validate r = [] -> maxlength 500 response = true ->
  users db !! swapRequestSchema.requester r = Some ru -> p <= userSchema.points ru ->
  users db !! swapRequestSchema.itemOwner r = Some ou -> 0 <= userSchema.points ou ->
  items db !! swapRequestSchema.item r = Some it -> itemSchema.validate it = [] ->
  itemSchema.uploader it = swapRequestSchema.itemOwner r ->
  (forall j, swapRequestSchema.offeredItem r = Some j ->
     exists itj, items db !! j = Some itj /\ itemSchema.validate itj = []) ->
  let out := swaps.put_accept (swapRequestSchema.itemOwner r) id response db in
  out.2 = ok_with 200 "Swap request accepted successfully" /\
  balance out.1 (swapRequestSchema.requester r) = Some (userSchema.points ru - p) /\
  balance out.1 (swapRequestSchema.itemOwner r)
  = Some (userSchema.points ou + p + itemSchema.points it) /\
  users out.1 !! swapRequestSchema.requester r = Some (debited p ru) /\
  users out.1 !! swapRequestSchema.itemOwner r
  = Some (credited (itemSchema.points it) (credited p ou)) /\
  (forall u, u <> swapRequestSchema.requester r -> u <> swapRequestSchema.itemOwner r ->
     users out.1 !! u = users db !! u) /\
  itemStatus out.1 (swapRequestSchema.item r) = Some itemSchema.swapped /\
  exists r',
    swaps out.1 !! id = Some r' /\
    swapRequestSchema.status r' = swapRequestSchema.accepted /\
    swapRequestSchema.pointsTransferred r' = true /\
    swapRequestSchema.transferAmount r' = Some p.
Proof.
  intros Hr Hpend Hty Hoff Hpos Hne Hv Hresp Hru Hfunds Hou Hou0 Hit Hitv Hupl Hoi.
  cbv zeta.
  pose proof (accept_paid_run db id r response p ru ou
                Hty Hoff Hpos Hne Hru Hfunds Hou Hou0 Hv Hresp) as Hacc.
  destruct (put_accept_after db (swapRequestSchema.itemOwner r) id response r _ _ it
              (credited p ou) Hresp Hr eq_refl Hpend Hacc)
    as (db' & Hrun & Husers & Hswaps & Hitem & _ & _).
  - exact Hit.
  - exact Hitv.
  - cbn. rewrite Hupl. by rewrite lookup_insert_eq.
  - cbn. lia.
  - exact Hoi.
  - change (swapRequestSchema.item (acceptedPaid response p r))
      with (swapRequestSchema.item r) in Hitem.
    rewrite Hrun. cbn [fst snd]. unfold balance, itemStatus.
    rewrite Husers, Hswaps, Hitem. cbn [users swaps set_users set_swaps].
    rewrite Hupl. rewrite insert_insert_eq.
    rewrite lookup_insert_eq.
    rewrite (lookup_insert_ne _ (swapRequestSchema.itemOwner r)) by done.
    rewrite !lookup_insert_eq. cbn.
    split_and!; try done.
    + intros u Hu1 Hu2. by rewrite !lookup_insert_ne.
    + by eexists.
Qed.

(** Scenario A: balance 50, 20 points offered on an item of 20 points:
    the requester ends at 30 and the owner 40 above where they were. *)
Lemma accept_points_swap_witness :
  let out := swaps.put_accept Scenario.Y Scenario.R None (Scenario.pointsDb 50 7) in
  balance out.1 Scenario.X = Some (50 - 20) /\
  balance out.1 Scenario.Y = Some (7 + 20 + 20) /\
  itemStatus out.1 Scenario.I = Some itemSchema.swapped /\
  swapStatus out.1 Scenario.R = Some swapRequestSchema.accepted.
Proof.
  cbv zeta.
  destruct (accept_points_swap (Scenario.pointsDb 50 7) Scenario.R
              (Scenario.request swapRequestSchema.points swapRequestSchema.pending
                 None (Some 20))
              None 20 (Scenario.user 50) (Scenario.user 7)
              (Scenario.itemI itemSchema.available))
    as (_ & Hx & Hy & _ & _ & _ & Hi & r' & Hr' & Hst & _);
    [reflexivity | reflexivity | reflexivity | reflexivity | lia | discriminate
    | reflexivity | reflexivity | reflexivity | cbn; lia | reflexivity | cbn; lia
    | reflexivity | reflexivity | reflexivity | discriminate |].
  split_and!; [exact Hx | exact Hy | exact Hi |].
  unfold swapStatus.
  etrans; [exact (f_equal (fmap swapRequestSchema.status) Hr') |].
  cbn. by rewrite Hst.
Defined.

(** C2. Accepting a pending points swap whose requester holds less than
    the offered points: [accept] throws before any write, the handler
    answers 500 reporting [Insufficient points for swap] (kind
    [InsufficientFunds]) and the store is what it was: the request still
    pending, every balance and the status of the item unchanged. *)
Theorem accept_insufficient_funds (db : Db) (id : ObjectId) (r : swapRequestSchema.t)
    (response : option string) (p : Z) (ru : userSchema.t) :
  swaps db !! id = Some r ->
  swapRequestSchema.status r = swapRequestSchema.pending ->
  swapRequestSchema.swapType r = swapRequestSchema.points ->
  swapRequestSchema.offeredPoints r = Some p -> 0 < p ->
  maxlength 500 response = true ->
  users db !! swapRequestSchema.requester r = Some ru -> userSchema.points ru < p ->
  let out := swaps.put_accept (swapRequestSchema.itemOwner r) id response db in
  out.1 = db /\
  success out.2 = false /\
  error out.2 = Some (Error "Insufficient points for swap") /\
  errorKind out.2 = Some InsufficientFunds /\
  swapStatus out.1 id = Some swapRequestSchema.pending /\
  (forall u, balance out.1 u = balance db u) /\
  itemStatus out.1 (swapRequestSchema.item r) = itemStatus db (swapRequestSchema.item r).
Proof.
  intros Hr Hpend Hty Hoff Hpos Hresp Hru Hfunds. cbv zeta.
  assert (Hrun :
    swaps.put_accept (swapRequestSchema.itemOwner r) id response db
    = (db, {| code := 500; success := false;
              message := "Failed to accept swap request";
              error := Some (Error "Insufficient points for swap") |})).
  { unfold swaps.put_accept, tryCatch. rewrite Hresp. cbn [negb].
    unfold bind at 1. unfold SwapRequest.findById at 1. rewrite Hr.
    rewrite (bool_decide_eq_true_2 _ (eq_refl (swapRequestSchema.itemOwner r))),
      (bool_decide_eq_true_2 _ Hpend). cbn [negb].
    unfold bind at 1.
    by rewrite (accept_unpaid_run db id r response p ru Hty Hoff Hpos Hru Hfunds). }
  rewrite Hrun. cbn [fst snd]. split_and!; try done.
  unfold swapStatus. by rewrite Hr, <- Hpend.
Qed.

(** Scenario B: the requester is down to 10 points when the owner accepts. *)
Lemma accept_insufficient_funds_witness :
  let db := Scenario.pointsDb 10 7 in
  let out := swaps.put_accept Scenario.Y Scenario.R None db in
  out.1 = db /\ errorKind out.2 = Some InsufficientFunds /\
  swapStatus out.1 Scenario.R = Some swapRequestSchema.pending.
Proof.
  cbv zeta.
  destruct (accept_insufficient_funds (Scenario.pointsDb 10 7) Scenario.R
              (Scenario.request swapRequestSchema.points swapRequestSchema.pending
                 None (Some 20))
              None 20 (Scenario.user 10))
    as (Hdb & _ & _ & Hk & Hs & _);
    [reflexivity | reflexivity | reflexivity | reflexivity | lia | reflexivity
    | reflexivity | cbn; lia |].
  split_and!; [exact Hdb | exact Hk | exact Hs].
Defined.

Lemma preSave_offering r j :
  swapRequestSchema.offeredItem r = Some j ->
  swapRequestSchema.requester r <> swapRequestSchema.itemOwner r ->
  swapRequestSchema.preSave r = None.
Proof.
  intros Hj Hne. unfold swapRequestSchema.preSave. rewrite Hj.
  rewrite (bool_decide_eq_true_2 (is_Some (Some j))) by eauto.
  cbn [negb andb]. by rewrite bool_decide_eq_false_2.
Qed.

(** C3 (as stated it fails). Scenario C with the owner Y at 7 points:
    the accept succeeds and both items are stored as swapped, but Y ends
    at 27 points, the 20 points of item I having been paid to its
    uploader. *)
Lemma accept_direct_swap_pays_owner :
  let db := Scenario.directDb 50 7 in
  let out := swaps.put_accept Scenario.Y Scenario.R None db in
  success out.2 = true /\
  itemStatus out.1 Scenario.I = Some itemSchema.swapped /\
  itemStatus out.1 Scenario.J = Some itemSchema.swapped /\
  balance db Scenario.Y = Some 7 /\
  balance out.1 Scenario.Y = Some 27 /\
  ~ (forall u, balance out.1 u = balance db u).
Proof.
  cbv zeta. split_and!; try reflexivity.
  intros H. specialize (H Scenario.Y). vm_compute in H. discriminate.
Qed.

(** C3 (amended). Accepting a pending direct swap that offers item [j]
    for item I, by the item owner: the handler succeeds, I and [j] are
    both stored as swapped, the request is stored as accepted with no
    transfer recorded, and no points move between the two users; the one
    balance that changes is that of the uploader of I, who is paid the
    points of I. *)
Theorem accept_direct_swap (db : Db) (id : ObjectId) (r : swapRequestSchema.t)
    (response : option string) (j : ObjectId) (it itj : itemSchema.t) (up : userSchema.t) :
  swaps db !! id = Some r ->
  swapRequestSchema.status r = swapRequestSchema.pending ->
  swapRequestSchema.swapType r = swapRequestSchema.direct ->
  swapRequestSchema.offeredItem r = Some j ->
  swapRequestSchema.requester r <> swapRequestSchema.itemOwner r ->
  swapRequestSchema.validate r = [] -> maxlength 500 response = true ->
  items db !! swapRequestSchema.item r = Some it -> itemSchema.validate it = [] ->
  items db !! j = Some itj -> itemSchema.validate itj = [] ->
  users db !! itemSchema.uploader it = Some up -> 0 <= userSchema.points up ->
  let out := swaps.put_accept (swapRequestSchema.itemOwner r) id response db in
  out.2 = ok_with 200 "Swap request accepted successfully" /\
  itemStatus out.1 (swapRequestSchema.item r) = Some itemSchema.swapped /\
  itemStatus out.1 j = Some itemSchema.swapped /\
  balance out.1 (itemSchema.uploader it)
  = Some (userSchema.points up + itemSchema.points it) /\
  (forall u, u <> itemSchema.uploader it -> users out.1 !! u = users db !! u) /\
  swaps out.1 !! id = Some (acceptedPlain response r) /\
  swapRequestSchema.pointsTransferred (acceptedPlain response r)
  = swapRequestSchema.pointsTransferred r.
Proof.
  intros Hr Hpend Hty Hj Hne Hv Hresp Hit Hitv Hitj Hitjv Hup Hup0. cbv zeta.
  pose proof (accept_plain_run db id r response (or_introl Hty) Hv Hresp
                (preSave_offering r j Hj Hne)) as Hacc.
  destruct (put_accept_after db (swapRequestSchema.itemOwner r) id response r _ _ it up
              Hresp Hr eq_refl Hpend Hacc Hit Hitv Hup Hup0)
    as (db' & Hrun & Husers & Hswaps & Hitem & Hoff & _).
  { intros j' Hj'. cbn in Hj'. rewrite Hj in Hj'. injection Hj' as <-. eauto. }
  rewrite Hrun. cbn [fst snd]. unfold balance, itemStatus.
  change (swapRequestSchema.item (acceptedPlain response r))
    with (swapRequestSchema.item r) in Hitem.
  rewrite Husers, Hswaps, Hitem. cbn [users swaps set_swaps].
  rewrite !lookup_insert_eq. cbn.
  split_and!; try done.
  - by apply Hoff.
  - intros u Hu. by rewrite lookup_insert_ne.
Qed.

(** Scenario C. *)
Lemma accept_direct_swap_witness :
  let out := swaps.put_accept Scenario.Y Scenario.R None (Scenario.directDb 50 7) in
  itemStatus out.1 Scenario.I = Some itemSchema.swapped /\
  itemStatus out.1 Scenario.J = Some itemSchema.swapped /\
  balance out.1 Scenario.Y = Some (7 + 20) /\
  users out.1 !! Scenario.X = users (Scenario.directDb 50 7) !! Scenario.X.
Proof.
  cbv zeta.
  destruct (accept_direct_swap (Scenario.directDb 50 7) Scenario.R
              (Scenario.request swapRequestSchema.direct swapRequestSchema.pending
                 (Some Scenario.J) None)
              None Scenario.J (Scenario.itemI itemSchema.available) Scenario.itemJ
              (Scenario.user 7))
    as (_ & Hi & Hj & Hy & Hx & _);
    [reflexivity | reflexivity | reflexivity | reflexivity | discriminate
    | reflexivity | reflexivity | reflexivity | reflexivity | reflexivity
    | reflexivity | reflexivity | cbn; lia |].
  split_and!; [exact Hi | exact Hj | exact Hy | apply Hx; discriminate].
Defined.

(** ** Acceptance does not read the status of the item *)

(** [accept] returns under [payable], leaving the items alone, every other
    request alone and every user at a balance of 0 or more. *)
Lemma accept_payable db id r response :
  payable db r ->
  swapRequestSchema.requester r <> swapRequestSchema.itemOwner r ->
  swapRequestSchema.validate r = [] -> maxlength 500 response = true ->
  (forall u d, users db !! u = Some d -> 0 <= userSchema.points d) ->
  exists db1 r1,
    SwapRequest.accept id r response db = (db1, inr r1) /\
    items db1 = items db /\
    swapRequestSchema.item r1 = swapRequestSchema.item r /\
    swapRequestSchema.offeredItem r1 = swapRequestSchema.offeredItem r /\
    swapRequestSchema.status r1 = swapRequestSchema.accepted /\
    swaps db1 = <[id := r1]> (swaps db) /\
    (forall u, is_Some (users db !! u) -> is_Some (users db1 !! u)) /\
    (forall u d, users db1 !! u = Some d -> 0 <= userSchema.points d).
Proof.
  intros [[Hty [j Hj]] | (Hty & p & ru & ou & Hoff & Hpos & Hru & Hfunds & Hou & Hou0)]
    Hne Hv Hresp Hnonneg.
  - eexists _, _. split.
    { apply accept_plain_run; [by left | done | done |].
      by apply (preSave_offering r j). }
    cbn. split_and!; try done.
  - eexists _, _. split.
    { by apply (accept_paid_run db id r response p ru ou). }
    cbn. split_and!; try done.
    + intros u Hu.
      destruct (decide (u = swapRequestSchema.itemOwner r)) as [-> | ?];
        [by rewrite lookup_insert_eq |].
      rewrite lookup_insert_ne by done.
      destruct (decide (u = swapRequestSchema.requester r)) as [-> | ?];
        [by rewrite lookup_insert_eq |].
      by rewrite lookup_insert_ne.
    + intros u d.
      destruct (decide (u = swapRequestSchema.itemOwner r)) as [-> | ?].
      { rewrite lookup_insert_eq. intros [= <-]. cbn. lia. }
      rewrite lookup_insert_ne by done.
      destruct (decide (u = swapRequestSchema.requester r)) as [-> | ?].
      { rewrite lookup_insert_eq. intros [= <-]. cbn. lia. }
      rewrite lookup_insert_ne by done. apply Hnonneg.
Qed.

(** C9. The accept handler checks the caller and the status of the
    request and never the status of the requested item. For every pending
    request accepted by its item owner, whatever the status of the item
    (so also when it is already swapped, or removed), once the model's
    [accept] goes through the handler succeeds, stores the item as swapped
    and pays the item's points to its uploader on top of what the uploader
    held after [accept]; every other request is left as it was, so a
    second pending request for the same item is accepted in the same way. *)
Theorem accept_ignores_item_status (db : Db) (id : ObjectId) (r : swapRequestSchema.t)
    (response : option string) (it : itemSchema.t) :
  swaps db !! id = Some r ->
  swapRequestSchema.status r = swapRequestSchema.pending ->
  swapRequestSchema.requester r <> swapRequestSchema.itemOwner r ->
  swapRequestSchema.validate r = [] -> maxlength 500 response = true ->
  payable db r ->
  (forall u d, users db !! u = Some d -> 0 <= userSchema.points d) ->
  items db !! swapRequestSchema.item r = Some it -> itemSchema.validate it = [] ->
  is_Some (users db !! itemSchema.uploader it) ->
  (forall j, swapRequestSchema.offeredItem r = Some j ->
     exists itj, items db !! j = Some itj /\ itemSchema.validate itj = []) ->
  let out := swaps.put_accept (swapRequestSchema.itemOwner r) id response db in
  out.2 = ok_with 200 "Swap request accepted successfully" /\
  itemStatus out.1 (swapRequestSchema.item r) = Some itemSchema.swapped /\
  swapStatus out.1 id = Some swapRequestSchema.accepted /\
  (exists up1,
     users (SwapRequest.accept id r response db).1 !! itemSchema.uploader it = Some up1 /\
     users out.1 !! itemSchema.uploader it = Some (credited (itemSchema.points it) up1) /\
     balance out.1 (itemSchema.uploader it)
     = Some (userSchema.points up1 + itemSchema.points it)) /\
  (forall id', id' <> id -> swaps out.1 !! id' = swaps db !! id').
Proof.
  intros Hr Hpend Hne Hv Hresp Hpay Hnonneg Hit Hitv Hupl Hoi. cbv zeta.
  destruct (accept_payable db id r response Hpay Hne Hv Hresp Hnonneg)
    as (db1 & r1 & Hacc & Hitems & Hitem & Hoff & Hst & Hswaps & Hkeep & Hnonneg1).
  destruct (Hkeep _ Hupl) as [up1 Hup1].
  destruct (put_accept_after db (swapRequestSchema.itemOwner r) id response r db1 r1
              it up1 Hresp Hr eq_refl Hpend Hacc)
    as (db' & Hrun & Husers & Hswaps' & Hitem' & _ & _).
  { by rewrite Hitems, Hitem. }
  { done. }
  { done. }
  { by apply (Hnonneg1 _ _ Hup1). }
  { intros j Hj. rewrite Hitems. apply Hoi. by rewrite <- Hoff. }
  rewrite Hrun, Hacc. cbn [fst snd]. unfold balance, itemStatus, swapStatus.
  rewrite Husers, Hswaps', Hswaps, <- Hitem, Hitem'.
  rewrite !lookup_insert_eq. cbn. rewrite Hst.
  split_and!; try done.
  - by exists up1.
  - intros id' Hid'. by rewrite lookup_insert_ne.
Qed.

(** Two pending requests for item I, both accepted by its owner Y: the
    second accept finds I already swapped, succeeds all the same and pays
    Y the 20 points of I a second time. *)
Lemma accept_ignores_item_status_witness :
  let out1 := swaps.put_accept Scenario.Y Scenario.R None Scenario.twoDb in
  let out2 := swaps.put_accept Scenario.Y Scenario.R' None out1.1 in
  success out1.2 = true /\
  itemStatus out1.1 Scenario.I = Some itemSchema.swapped /\
  balance out1.1 Scenario.Y = Some 20 /\
  out2.2 = ok_with 200 "Swap request accepted successfully" /\
  swapStatus out2.1 Scenario.R = Some swapRequestSchema.accepted /\
  swapStatus out2.1 Scenario.R' = Some swapRequestSchema.accepted /\
  balance out2.1 Scenario.Y = Some 40.
Proof.
  cbv zeta.
  destruct (accept_ignores_item_status
              (swaps.put_accept Scenario.Y Scenario.R None Scenario.twoDb).1
              Scenario.R'
              (Scenario.requestFrom Scenario.Z3 swapRequestSchema.direct
                 swapRequestSchema.pending (Some Scenario.K) None)
              None (Scenario.itemI itemSchema.swapped))
    as (Hok & _ & Hs' & _ & Hother).
  - vm_compute; reflexivity.
  - reflexivity.
  - discriminate.
  - reflexivity.
  - reflexivity.
  - left. split; [reflexivity | by eexists].
  - change (map_Forall (fun _ d => 0 <= userSchema.points d)
              (users (swaps.put_accept Scenario.Y Scenario.R None Scenario.twoDb).1)).
    apply (bool_decide_unpack _). vm_compute. exact I.
  - vm_compute; reflexivity.
  - reflexivity.
  - vm_compute. by eexists.
  - intros j [= <-]. exists Scenario.itemK. split; [vm_compute; reflexivity | reflexivity].
  - split_and!;
      [vm_compute; reflexivity | vm_compute; reflexivity | vm_compute; reflexivity
      | exact Hok | vm_compute; reflexivity | exact Hs' | vm_compute; reflexivity].
Defined.

(** ** Cancellation after a transfer *)

(** [cancel] on a request that records a transfer of [p] points. *)
Lemma cancel_refund_run db this r who reason p ru ou :
  swapRequestSchema.pointsTransferred r = true ->
  swapRequestSchema.transferAmount r = Some p -> 0 < p ->
  swapRequestSchema.requester r <> swapRequestSchema.itemOwner r ->
  users db !! swapRequestSchema.requester r = Some ru -> 0 <= userSchema.points ru + p ->
  users db !! swapRequestSchema.itemOwner r = Some ou -> p <= userSchema.points ou ->
  swapRequestSchema.validate r = [] -> maxlength 200 reason = true ->
  swapRequestSchema.preSave r = None ->
  SwapRequest.cancel this r who reason db
  = (set_swaps (<[this := cancelledRefunded who reason r]> (swaps db))
       (set_users (<[swapRequestSchema.itemOwner r := debited p ou]>
                     (<[swapRequestSchema.requester r := credited p ru]> (users db))) db),
     inr (cancelledRefunded who reason r)).
Proof.
  intros Hflag Hamt Hpos Hne Hru Hru0 Hou Hfunds Hv Hreason Hpre.
  unfold SwapRequest.cancel. cbn zeta.
  cbn [swapRequestSchema.pointsTransferred swapRequestSchema.transferAmount
       swapRequestSchema.requester swapRequestSchema.itemOwner
       SwapRequest.set_cancelled SwapRequest.set_status].
  rewrite Hflag, Hamt.
  destruct (Z.ltb_spec 0 p) as [_ |]; [| lia].
  unfold bind at 1. unfold bind at 1. unfold User.findById at 1.
  unfold bind at 1. unfold User.findById at 1. rewrite Hru, Hou.
  unfold bind at 1. cbn [deref ret].
  unfold bind at 1. rewrite (addPoints_run _ _ _ _ Hru Hru0).
  unfold bind at 1. cbn [deref ret].
  unfold bind at 1. rewrite spendPoints_run; cycle 1.
  { cbn. by rewrite lookup_insert_ne. }
  { lia. }
  cbn [ret users set_users].
  rewrite save_run_request.
  - unfold cancelledRefunded. by rewrite Hamt.
  - apply validate_nil in Hv. apply validate_nil.
    cbn -[maxlength]. intuition lia.
  - exact Hpre.
Qed.

(** C5 (as stated it fails). Scenario A, then [cancel] on the accepted
    request: the requester is back at 50 points, but the owner, at 7
    before the accept, is left at 27: the 20 points of the item paid on
    accept are not part of [transferAmount] and are not taken back. *)
Lemma cancel_after_accept_keeps_bonus :
  let db := Scenario.pointsDb 50 7 in
  let db1 := (swaps.put_accept Scenario.Y Scenario.R None db).1 in
  let r1 := Scenario.request swapRequestSchema.points swapRequestSchema.accepted
              None (Some 20) in
  let r1 := SwapRequest.set_transfer true (Some 20) r1 in
  let out := SwapRequest.cancel Scenario.R r1 Scenario.X None db1 in
  swaps db1 !! Scenario.R = Some r1 /\
  (exists r2, out.2 = inr r2 /\
     swapRequestSchema.status r2 = swapRequestSchema.cancelled) /\
  balance db Scenario.X = Some 50 /\ balance out.1 Scenario.X = Some 50 /\
  balance db Scenario.Y = Some 7 /\ balance out.1 Scenario.Y = Some 27 /\
  balance out.1 Scenario.Y <> balance db Scenario.Y.
Proof.
  cbv zeta. split_and!; try (vm_compute; reflexivity).
  - eexists. split; vm_compute; reflexivity.
  - vm_compute. discriminate.
Qed.

(** C5 (amended). A points swap accepted by its item owner and then
    cancelled by [cancel] with the requester as caller: the reversal
    credits [transferAmount] to the requester and debits it from the item
    owner, the request is stored as cancelled with [pointsTransferred]
    false, the requester is back at the balance held before the accept,
    and the item owner is at the balance held before the accept plus the
    points of the item, which the accept handler paid and the reversal
    leaves. What the model's [accept] alone moved is undone exactly for
    both users. *)
Theorem cancel_after_accept (db : Db) (id : ObjectId) (r : swapRequestSchema.t)
    (response reason : option string) (p : Z) (ru ou : userSchema.t) (it : itemSchema.t) :
  swaps db !! id = Some r ->
  swapRequestSchema.status r = swapRequestSchema.pending ->
  swapRequestSchema.swapType r = swapRequestSchema.points ->
  swapRequestSchema.offeredPoints r = Some p -> 0 < p ->
  swapRequestSchema.requester r <> swapRequestSchema.itemOwner r ->
  swapRequestSchema.validate r = [] -> maxlength 500 response = true ->
  maxlength 200 reason = true ->
  users db !! swapRequestSchema.requester r = Some ru -> p <= userSchema.points ru ->
  users db !! swapRequestSchema.itemOwner r = Some ou -> 0 <= userSchema.points ou ->
  items db !! swapRequestSchema.item r = Some it -> itemSchema.validate it = [] ->
  itemSchema.uploader it = swapRequestSchema.itemOwner r ->
  (forall j, swapRequestSchema.offeredItem r = Some j ->
     exists itj, items db !! j = Some itj /\ itemSchema.validate itj = []) ->
  let r1 := acceptedPaid response p r in
  let r2 := cancelledRefunded (swapRequestSchema.requester r) reason r1 in
  let db1 := (swaps.put_accept (swapRequestSchema.itemOwner r) id response db).1 in
  let out := SwapRequest.cancel id r1 (swapRequestSchema.requester r) reason db1 in
  let dbm := (SwapRequest.accept id r response db).1 in
  let outm := SwapRequest.cancel id r1 (swapRequestSchema.requester r) reason dbm in
  swaps db1 !! id = Some r1 /\
  out.2 = inr r2 /\
  swaps out.1 !! id = Some r2 /\
  swapRequestSchema.status r2 = swapRequestSchema.cancelled /\
  swapRequestSchema.pointsTransferred r2 = false /\
  balance out.1 (swapRequestSchema.requester r) = Some (userSchema.points ru) /\
  balance out.1 (swapRequestSchema.itemOwner r)
  = Some (userSchema.points ou + itemSchema.points it) /\
  outm.2 = inr r2 /\
  balance outm.1 (swapRequestSchema.requester r) = Some (userSchema.points ru) /\
  balance outm.1 (swapRequestSchema.itemOwner r) = Some (userSchema.points ou).
Proof.
  intros Hr Hpend Hty Hoff Hpos Hne Hv Hresp Hreason Hru Hfunds Hou Hou0 Hit Hitv Hupl Hoi.
  cbv zeta.
  assert (Hpts : 1 <= itemSchema.points it <= 1000) by (by apply item_validate_nil).
  pose proof (accept_paid_run db id r response p ru ou
                Hty Hoff Hpos Hne Hru Hfunds Hou Hou0 Hv Hresp) as Hacc.
  destruct (put_accept_after db (swapRequestSchema.itemOwner r) id response r _ _ it
              (credited p ou) Hresp Hr eq_refl Hpend Hacc)
    as (db' & Hrun & Husers & Hswaps & _).
  { exact Hit. }
  { exact Hitv. }
  { cbn. rewrite Hupl. by rewrite lookup_insert_eq. }
  { cbn. lia. }
  { exact Hoi. }
  rewrite Hrun, Hacc. cbn [fst snd].
  cbn [users swaps set_users set_swaps] in Husers, Hswaps.
  rewrite Hupl, insert_insert_eq in Husers.
  assert (Hv1 : swapRequestSchema.validate (acceptedPaid response p r) = [])
    by (by apply validate_paid).
  assert (Hp1 : swapRequestSchema.preSave (acceptedPaid response p r) = None)
    by (by apply preSave_paid).
  rewrite (cancel_refund_run db' id (acceptedPaid response p r)
             (swapRequestSchema.requester r) reason p (debited p ru)
             (credited (itemSchema.points it) (credited p ou)));
    [| done | done | done | done
     | rewrite Husers; cbn; rewrite lookup_insert_ne by done; by rewrite lookup_insert_eq
     | cbn; lia
     | rewrite Husers; cbn; by rewrite lookup_insert_eq
     | cbn; lia | done | done | done].
  rewrite (cancel_refund_run _ id (acceptedPaid response p r)
             (swapRequestSchema.requester r) reason p (debited p ru) (credited p ou));
    [| done | done | done | done
     | cbn; rewrite lookup_insert_ne by done; by rewrite lookup_insert_eq
     | cbn; lia
     | cbn; by rewrite lookup_insert_eq
     | cbn; lia | done | done | done].
  cbn [fst snd]. unfold balance. rewrite Hswaps.
  cbn [users swaps set_users set_swaps
       swapRequestSchema.requester swapRequestSchema.itemOwner acceptedPaid acceptedPlain
       SwapRequest.set_transfer SwapRequest.set_responseMessage SwapRequest.set_status].
  rewrite !lookup_insert_eq.
  rewrite !(lookup_insert_ne _ (swapRequestSchema.itemOwner r)
              (swapRequestSchema.requester r)) by done.
  rewrite !lookup_insert_eq. cbn.
  split_and!; try done; f_equal; lia.
Qed.

Lemma cancel_after_accept_witness :
  let db := Scenario.pointsDb 50 7 in
  let r1 := acceptedPaid None 20
              (Scenario.request swapRequestSchema.points swapRequestSchema.pending
                 None (Some 20)) in
  let db1 := (swaps.put_accept Scenario.Y Scenario.R None db).1 in
  let out := SwapRequest.cancel Scenario.R r1 Scenario.X None db1 in
  balance out.1 Scenario.X = Some 50 /\
  balance out.1 Scenario.Y = Some (7 + 20).
Proof.
  cbv zeta.
  destruct (cancel_after_accept (Scenario.pointsDb 50 7) Scenario.R
              (Scenario.request swapRequestSchema.points swapRequestSchema.pending
                 None (Some 20))
              None None 20 (Scenario.user 50) (Scenario.user 7)
              (Scenario.itemI itemSchema.available))
    as (_ & _ & _ & _ & _ & Hx & Hy & _);
    [reflexivity | reflexivity | reflexivity | reflexivity | lia | discriminate
    | reflexivity | reflexivity | reflexivity | reflexivity | cbn; lia | reflexivity
    | cbn; lia | reflexivity | reflexivity | reflexivity | discriminate |].
  split; [exact Hx | exact Hy].
Defined.

(** * The handlers as a whole *)

(** ** Rules of the assertions *)

Lemma hoare_ret {A} (P : Db -> Prop) (a : A) (Q : A -> Db -> Prop) E :
  (forall db, P db -> Q a db) -> hoare P (ret a) Q E.
Proof. intros H db HP. by apply H. Qed.

Lemma hoare_throw {A} (P : Db -> Prop) e (Q : A -> Db -> Prop) (E : Exn -> Db -> Prop) :
  (forall db, P db -> E e db) -> hoare P (throw e) Q E.
Proof. intros H db HP. by apply H. Qed.

Lemma hoare_bind {A B} (P : Db -> Prop) (m : M A) (k : A -> M B) Q' Q E :
  hoare P m Q' E -> (forall a, hoare (Q' a) (k a) Q E) -> hoare P (bind m k) Q E.
Proof.
  intros Hm Hk db HP. unfold bind. specialize (Hm db HP).
  destruct (m db) as [db' [e | a]]; [done |]. by apply Hk.
Qed.

Lemma hoare_conseq {A} (P P' : Db -> Prop) (m : M A) (Q Q' : A -> Db -> Prop)
    (E E' : Exn -> Db -> Prop) :
  hoare P' m Q' E' ->
  (forall db, P db -> P' db) ->
  (forall a db, Q' a db -> Q a db) ->
  (forall e db, E' e db -> E e db) ->
  hoare P m Q E.
Proof.
  intros Hm HP HQ HE db Hdb. specialize (Hm db (HP db Hdb)).
  destruct (m db) as [db' [e | a]]; auto.
Qed.

Lemma leads_ret {A} (P T : Db -> Prop) (a : A) :
  (forall db, P db -> T db) -> leads P T (ret a).
Proof. intros H. by apply hoare_ret. Qed.

Lemma leads_throw {A} (P T : Db -> Prop) e :
  (forall db, P db -> T db) -> leads (A := A) P T (throw e).
Proof. intros H. by apply hoare_throw. Qed.

Lemma keeps_bind {A B} (I : Db -> Prop) (m : M A) (k : A -> M B) :
  keeps I m -> (forall a, keeps I (k a)) -> keeps I (bind m k).
Proof. intros Hm Hk. by apply (hoare_bind _ _ _ (fun _ => I)). Qed.

(** A step that keeps [I], then a rest that takes [I] to the result. *)
Lemma hoare_bind_keeps {A B} (I : Db -> Prop) (m : M A) (k : A -> M B) Q :
  keeps I m -> (forall a, hoare I (k a) Q (fun _ => I)) ->
  hoare I (bind m k) Q (fun _ => I).
Proof. intros Hm Hk. by apply (hoare_bind _ _ _ (fun _ => I)). Qed.

Lemma leads_tryCatch (P T : Db -> Prop) failure (h : M Response) db :
  leads P T h -> P db -> T (tryCatch failure h db).1.
Proof.
  intros Hh HP. unfold tryCatch. specialize (Hh db HP).
  by destruct (h db) as [db' [e | r]].
Qed.

Lemma keeps_tryCatch (I : Db -> Prop) failure (h : M Response) db :
  keeps I h -> I db -> I (tryCatch failure h db).1.
Proof. apply leads_tryCatch. Qed.

Lemma keeps_deref {A} (I : Db -> Prop) (o : option A) : keeps I (deref o).
Proof. destruct o; [by apply leads_ret | by apply leads_throw]. Qed.

(** ** Componentwise assertions kept by the models *)

Lemma keeps_read {A} (I : Db -> Prop) (f : Db -> A) :
  keeps I (fun db => (db, inr (f db))).
Proof. intros db HI. exact HI. Qed.

Lemma closedU_any : closedU (fun _ => True).
Proof. by intros m this loaded cur stored _ _ _. Qed.

Lemma closedI_any : closedI (fun _ => True).
Proof. by intros m this cur _ _. Qed.

Lemma closedD_any : closedD (fun _ => True).
Proof. by intros m this _. Qed.

Lemma closedS_any : closedS (fun _ => True).
Proof. by intros m this cur _ _ _. Qed.

Create HintDb closure.
#[export] Hint Resolve closedU_any closedI_any closedD_any closedS_any : closure.

Lemma keeps_User_save Iu Ii Is this loaded cur :
  closedU Iu -> keeps (componentwise Iu Ii Is) (User.save this loaded cur).
Proof.
  intros Hu db (HIu & HIi & HIs). unfold User.save.
  destruct (userSchema.validate cur) eqn:Hv; [| done].
  destruct (users db !! this) as [stored |] eqn:Hs; [| done].
  split_and!; try done. cbn. by apply Hu.
Qed.

Lemma keeps_User_addPoints Iu Ii Is this doc n :
  closedU Iu -> keeps (componentwise Iu Ii Is) (User.addPoints this doc n).
Proof. intros Hu. by apply keeps_User_save. Qed.

Lemma keeps_User_spendPoints Iu Ii Is this doc n :
  closedU Iu -> keeps (componentwise Iu Ii Is) (User.spendPoints this doc n).
Proof.
  intros Hu. unfold User.spendPoints.
  destruct (_ <? _); [by apply leads_throw | by apply keeps_User_save].
Qed.

Lemma keeps_User_addPoints_any Iu Ii Is this doc a :
  closedU Iu -> keeps (componentwise Iu Ii Is) (User.addPoints_any this doc a).
Proof.
  intros Hu. destruct a as [n | s]; cbn [User.addPoints_any].
  - by apply keeps_User_addPoints.
  - unfold User.addPoints_text. cbv zeta.
    destruct (castNumber _) as [p |]; [| by apply leads_throw].
    destruct (castNumber _) as [e |]; [| by apply leads_throw].
    by apply keeps_User_save.
Qed.

Lemma keeps_User_spendPoints_any Iu Ii Is this doc a :
  closedU Iu -> keeps (componentwise Iu Ii Is) (User.spendPoints_any this doc a).
Proof.
  intros Hu. destruct a as [n | s]; cbn [User.spendPoints_any].
  - by apply keeps_User_spendPoints.
  - unfold User.spendPoints_text. cbv zeta.
    destruct (toNumber s) as [v |]; [| by apply leads_throw].
    destruct (_ <? _); [by apply leads_throw |].
    destruct (castNumber _) as [sp |]; [| by apply leads_throw].
    by apply keeps_User_save.
Qed.

Lemma keeps_User_incrementSwapsCompleted Iu Ii Is this doc :
  closedU Iu -> keeps (componentwise Iu Ii Is) (User.incrementSwapsCompleted this doc).
Proof. intros Hu. by apply keeps_User_save. Qed.

Lemma keeps_Item_save Iu Ii Is this cur :
  closedI Ii -> keeps (componentwise Iu Ii Is) (Item.save this cur).
Proof.
  intros Hi db (HIu & HIi & HIs). unfold Item.save.
  destruct (itemSchema.validate cur) eqn:Hv; [| done].
  destruct (items db !! this) as [stored |] eqn:Hs; [| done].
  split_and!; try done. cbn. by apply Hi.
Qed.

Lemma keeps_Item_markAsSwapped Iu Ii Is this doc :
  closedI Ii -> keeps (componentwise Iu Ii Is) (Item.markAsSwapped this doc).
Proof. intros Hi. by apply keeps_Item_save. Qed.

Lemma keeps_findByIdAndDelete Iu Ii Is this :
  closedD Ii -> keeps (componentwise Iu Ii Is) (admin.findByIdAndDelete this).
Proof.
  intros Hd db (HIu & HIi & HIs). unfold admin.findByIdAndDelete.
  split_and!; try done. cbn. by apply Hd.
Qed.

Lemma keeps_SwapRequest_save Iu Ii Is this cur :
  closedS Is -> keeps (componentwise Iu Ii Is) (SwapRequest.save this cur).
Proof.
  intros Hs db (HIu & HIi & HIs). unfold SwapRequest.save.
  destruct (swapRequestSchema.validate cur) eqn:Hv; [| done].
  destruct (swapRequestSchema.preSave cur) eqn:Hp; [done |].
  split_and!; try done. cbn. by apply Hs.
Qed.

(** One step of a proof that a computation keeps an assertion: the
    structure of the computation is followed down to the models. *)
Ltac keeps_step :=
  lazymatch goal with
  | |- keeps _ (bind _ _) => apply keeps_bind; [| intros ?]
  | |- keeps _ (ret _) => by apply leads_ret
  | |- keeps _ (respond _) => by apply leads_ret
  | |- keeps _ (throw _) => by apply leads_throw
  | |- keeps _ (deref _) => apply keeps_deref
  | |- keeps _ (User.findById _) => apply keeps_read
  | |- keeps _ (Item.findById _) => apply keeps_read
  | |- keeps _ (SwapRequest.findById _) => apply keeps_read
  | |- keeps _ (SwapRequest.findOne_pending _ _) => apply keeps_read
  | |- keeps _ (User.addPoints _ _ _) =>
      apply keeps_User_addPoints; eauto with closure
  | |- keeps _ (User.spendPoints _ _ _) =>
      apply keeps_User_spendPoints; eauto with closure
  | |- keeps _ (User.addPoints_any _ _ _) =>
      apply keeps_User_addPoints_any; eauto with closure
  | |- keeps _ (User.spendPoints_any _ _ _) =>
      apply keeps_User_spendPoints_any; eauto with closure
  | |- keeps _ (User.incrementSwapsCompleted _ _) =>
      apply keeps_User_incrementSwapsCompleted; eauto with closure
  | |- keeps _ (Item.save _ _) => apply keeps_Item_save; eauto with closure
  | |- keeps _ (Item.markAsSwapped _ _) =>
      apply keeps_Item_markAsSwapped; eauto with closure
  | |- keeps _ (admin.findByIdAndDelete _) =>
      apply keeps_findByIdAndDelete; eauto with closure
  | |- keeps _ (SwapRequest.save _ _) =>
      apply keeps_SwapRequest_save; eauto with closure
  | |- keeps _ (if ?b then _ else _) => destruct b
  | |- keeps _ (match ?x with _ => _ end) => destruct x
  end.

Ltac keeps_auto := cbv zeta; repeat keeps_step.

Section Componentwise.
Context (Iu : gmap ObjectId userSchema.t -> Prop)
        (Ii : gmap ObjectId itemSchema.t -> Prop)
        (Is : gmap ObjectId swapRequestSchema.t -> Prop).
Context (Hu : closedU Iu) (Hi : closedI Ii) (Hd : closedD Ii) (Hs : closedS Is).

Lemma keeps_accept this doc response :
  keeps (componentwise Iu Ii Is) (SwapRequest.accept this doc response).
Proof. unfold SwapRequest.accept. keeps_auto. Qed.

Lemma keeps_reject this doc response :
  keeps (componentwise Iu Ii Is) (SwapRequest.reject this doc response).
Proof. unfold SwapRequest.reject. keeps_auto. Qed.

Lemma keeps_complete this doc now :
  keeps (componentwise Iu Ii Is) (SwapRequest.complete this doc now).
Proof. unfold SwapRequest.complete. keeps_auto. Qed.

Lemma keeps_cancel this doc who reason :
  keeps (componentwise Iu Ii Is) (SwapRequest.cancel this doc who reason).
Proof. unfold SwapRequest.cancel. keeps_auto. Qed.

Lemma keeps_markAsRead this doc now :
  keeps (componentwise Iu Ii Is) (SwapRequest.markAsRead this doc now).
Proof. unfold SwapRequest.markAsRead. keeps_auto. Qed.

Lemma keeps_create itemId who owner ty offItem offPoints msg now :
  keeps (componentwise Iu Ii Is)
    (SwapRequest.create itemId who owner ty offItem offPoints msg now).
Proof.
  intros db HI. unfold SwapRequest.create. cbv zeta.
  match goal with |- context [SwapRequest.save ?i ?d db] =>
    pose proof (keeps_SwapRequest_save Iu Ii Is i d Hs db HI) as H;
    destruct (SwapRequest.save i d db) as [db' [e | r]]; exact H
  end.
Qed.

(** Every call keeps a componentwise assertion that is closed under the
    writes. *)
Lemma run_keeps c db :
  componentwise Iu Ii Is db -> componentwise Iu Ii Is (run c db).1.
Proof.
  intros HI.
  destruct c; cbn [run];
    [unfold swaps.post | unfold swaps.put_accept | unfold swaps.put_reject
    | unfold swaps.put_complete | unfold swaps.put_cancel | unfold swaps.put_read
    | unfold users.post_points_add | unfold users.post_points_deduct
    | unfold admin.delete_item];
    (apply keeps_tryCatch; [| exact HI]).
  all: repeat first
         [ apply keeps_accept | apply keeps_reject | apply keeps_complete
         | apply keeps_cancel | apply keeps_markAsRead | apply keeps_create
         | keeps_step ].
Qed.

Lemma runAll_keeps cs db :
  componentwise Iu Ii Is db -> componentwise Iu Ii Is (runAll cs db).
Proof.
  revert db. induction cs as [| c cs IH]; intros db HI; [done |].
  cbn [runAll]. apply IH. by apply run_keeps.
Qed.

End Componentwise.

(** ** Invariants of the store over any sequence of calls *)

Lemma closedU_nonneg :
  closedU (map_Forall (fun _ u => 0 <= userSchema.points u)).
Proof.
  intros m this loaded cur stored Hst Hv Hm.
  apply map_Forall_insert_2; [| done].
  pose proof (Hm _ _ Hst) as Hs. cbn in Hs. cbn.
  unfold userSchema.pick.
  destruct (userSchema.points loaded =? userSchema.points cur); [done |].
  unfold userSchema.validate in Hv.
  by destruct (Z.ltb_spec (userSchema.points cur) 0).
Qed.

Lemma closedS_wellFormed :
  closedS (map_Forall (fun _ r => swapRequestSchema.validate r = [] /\
                                  swapRequestSchema.preSave r = None)).
Proof. intros m this cur Hv Hp Hm. by apply map_Forall_insert_2. Qed.

(** X1. No sequence of calls takes a balance below 0: from a store in
    which every user holds 0 points or more, every store reached by
    creating, accepting, rejecting, completing, cancelling and reading
    requests, adding and deducting points and removing items, in any
    order, by any callers and with any inputs, failed calls included, has
    every user at 0 points or more. *)
Theorem balances_never_negative (cs : list Call) (db : Db) :
  balancesNonneg db -> balancesNonneg (runAll cs db).
Proof.
  intros H.
  apply (runAll_keeps (map_Forall (fun _ u => 0 <= userSchema.points u))
           (fun _ => True) (fun _ => True)
           closedU_nonneg closedI_any closedD_any closedS_any cs db).
  by split_and!.
Qed.

Lemma balances_never_negative_witness :
  let cs := [AcceptSwap Scenario.Y Scenario.R None;
             DeductPoints {| users.userId := Scenario.X; users.points := Num 40;
                             users.reason := None |};
             CompleteSwap Scenario.X Scenario.R 5] in
  balancesNonneg (Scenario.pointsDb 50 7) /\
  balancesNonneg (runAll cs (Scenario.pointsDb 50 7)) /\
  balance (runAll cs (Scenario.pointsDb 50 7)) Scenario.X = Some 30.
Proof.
  cbv zeta.
  assert (H : balancesNonneg (Scenario.pointsDb 50 7))
    by (apply (bool_decide_unpack _); vm_compute; exact I).
  split_and!; [exact H | | vm_compute; reflexivity].
  exact (balances_never_negative _ _ H).
Defined.

(** X2. Every stored request keeps passing the schema validators and the
    [pre('save')] hook over any sequence of calls: each request in a store
    reached from a store of such requests has an offered item or a
    non-zero amount of offered points, a requester other than its item
    owner, non-negative amounts and messages within their lengths. *)
Theorem requests_stay_well_formed (cs : list Call) (db : Db) :
  requestsWellFormed db ->
  requestsWellFormed (runAll cs db) /\
  forall id r, swaps (runAll cs db) !! id = Some r ->
    swapRequestSchema.requester r <> swapRequestSchema.itemOwner r /\
    (is_Some (swapRequestSchema.offeredItem r) \/
     exists p, swapRequestSchema.offeredPoints r = Some p /\ p <> 0).
Proof.
  intros H.
  assert (Hwf : requestsWellFormed (runAll cs db)).
  { apply (runAll_keeps (fun _ => True) (fun _ => True)
             (map_Forall (fun _ r => swapRequestSchema.validate r = [] /\
                                     swapRequestSchema.preSave r = None))
             closedU_any closedI_any closedD_any closedS_wellFormed cs db).
    by split_and!. }
  split; [exact Hwf |].
  intros id r Hr. destruct (Hwf _ _ Hr) as [_ Hpre].
  unfold swapRequestSchema.preSave in Hpre.
  destruct (swapRequestSchema.offeredItem r) as [j |] eqn:Hj.
  - rewrite (bool_decide_eq_true_2 (is_Some (Some j))) in Hpre by eauto.
    cbn in Hpre. case_bool_decide; [done |]. split; [done | left; eauto].
  - rewrite (bool_decide_eq_false_2 (is_Some None)) in Hpre
      by (intros [? ?]; done).
    cbn [negb andb] in Hpre.
    destruct (swapRequestSchema.offeredPoints r) as [p |] eqn:Hp; [| done].
    cbn in Hpre. unfold truthy in Hpre.
    destruct (Z.eqb_spec p 0) as [-> | Hne]; [done |]. cbn in Hpre.
    case_bool_decide; [done |]. cbn in Hpre.
    case_bool_decide; [done |]. split; [done | right; eauto].
Qed.

Lemma requests_stay_well_formed_witness :
  let cs := [AcceptSwap Scenario.Y Scenario.R None;
             ReadSwap Scenario.X Scenario.R 3] in
  requestsWellFormed (runAll cs (Scenario.pointsDb 50 7)).
Proof.
  cbv zeta.
  refine (proj1 (requests_stay_well_formed _ (Scenario.pointsDb 50 7) _)).
  apply map_Forall_insert_2; [| apply map_Forall_empty].
  split; reflexivity.
Defined.

(** ** What each handler writes to the requests *)

Lemma swapsAre_iff m0 db : swapsAre m0 db <-> swaps db = m0.
Proof. unfold swapsAre, componentwise. tauto. Qed.

Lemma hoare_pure {A} (P : Db -> Prop) (phi : Prop) (m : M A) Q E :
  (phi -> hoare P m Q E) -> hoare (fun db => P db /\ phi) m Q E.
Proof. intros H db [HP Hphi]. by apply H. Qed.

Lemma findById_hoare m0 id E :
  hoare (swapsAre m0) (SwapRequest.findById id)
    (fun o db => swapsAre m0 db /\ o = m0 !! id) E.
Proof.
  intros db H. cbn. split; [done |]. apply swapsAre_iff in H. by rewrite H.
Qed.

Lemma save_hoare m0 this cur :
  hoare (swapsAre m0) (SwapRequest.save this cur)
    (fun r db => r = cur /\ swaps db = <[this := cur]> m0)
    (fun _ => swapsAre m0).
Proof.
  intros db H. unfold SwapRequest.save.
  destruct (swapRequestSchema.validate cur); [| done].
  destruct (swapRequestSchema.preSave cur); [done |].
  cbn. apply swapsAre_iff in H. by rewrite H.
Qed.

(** One step of a proof about the value a computation returns, all of
    whose steps but the last keep the assertion. *)
Ltac hoare_step :=
  lazymatch goal with
  | |- hoare _ (bind _ _) _ _ =>
      apply hoare_bind_keeps; [unfold swapsAre; keeps_auto | intros ?]
  | |- hoare _ (if ?b then _ else _) _ _ => destruct b eqn:?
  | |- hoare _ (match ?x with _ => _ end) _ _ => destruct x eqn:?
  | |- hoare _ (ret _) _ _ => apply hoare_ret; intros ? ?
  | |- hoare _ (throw _) _ _ => by apply hoare_throw
  end.

Lemma accept_hoare m0 this doc response :
  hoare (swapsAre m0) (SwapRequest.accept this doc response)
    (fun r1 db =>
       swaps db = <[this := r1]> m0 /\
       (r1 = acceptedPlain response doc \/
        exists p, swapRequestSchema.offeredPoints doc = Some p /\
                  r1 = acceptedPaid response p doc))
    (fun _ => swapsAre m0).
Proof.
  unfold SwapRequest.accept. cbv zeta.
  apply (hoare_bind _ _ _
           (fun d2 db => swapsAre m0 db /\
              (d2 = acceptedPlain response doc \/
               exists p, swapRequestSchema.offeredPoints doc = Some p /\
                         d2 = acceptedPaid response p doc))).
  - cbn [swapRequestSchema.swapType swapRequestSchema.offeredPoints
         swapRequestSchema.requester swapRequestSchema.itemOwner
         SwapRequest.set_responseMessage SwapRequest.set_status].
    repeat hoare_step; (split; [done |]); try (by left).
    right. by eexists.
  - intros d2. apply hoare_pure. intros Hd2.
    eapply hoare_conseq; [apply save_hoare | done | | done].
    intros r db [-> Hsw]. done.
Qed.

Lemma cancel_hoare m0 this doc who reason :
  hoare (swapsAre m0) (SwapRequest.cancel this doc who reason)
    (fun r1 db =>
       swaps db = <[this := r1]> m0 /\
       (r1 = SwapRequest.set_cancelled (Some who) reason
               (SwapRequest.set_status swapRequestSchema.cancelled doc) \/
        (swapRequestSchema.pointsTransferred doc = true /\
         r1 = cancelledRefunded who reason doc)))
    (fun _ => swapsAre m0).
Proof.
  unfold SwapRequest.cancel. cbv zeta.
  apply (hoare_bind _ _ _
           (fun d2 db => swapsAre m0 db /\
              (d2 = SwapRequest.set_cancelled (Some who) reason
                      (SwapRequest.set_status swapRequestSchema.cancelled doc) \/
               (swapRequestSchema.pointsTransferred doc = true /\
                d2 = cancelledRefunded who reason doc)))).
  - cbn [swapRequestSchema.pointsTransferred swapRequestSchema.transferAmount
         swapRequestSchema.requester swapRequestSchema.itemOwner
         SwapRequest.set_cancelled SwapRequest.set_status].
    repeat hoare_step; (split; [done |]); try (by left).
    right. split; [done |]. unfold cancelledRefunded.
    match goal with
    | H : swapRequestSchema.transferAmount doc = Some _ |- _ => by rewrite H
    end.
  - intros d2. apply hoare_pure. intros Hd2.
    eapply hoare_conseq; [apply save_hoare | done | | done].
    intros r db [-> Hsw]. done.
Qed.

Lemma complete_hoare m0 this doc now :
  hoare (swapsAre m0) (SwapRequest.complete this doc now)
    (fun r1 db =>
       swaps db = <[this := r1]> m0 /\
       r1 = SwapRequest.set_completedAt (Some now)
              (SwapRequest.set_status swapRequestSchema.completed doc))
    (fun _ => swapsAre m0).
Proof.
  unfold SwapRequest.complete. cbv zeta.
  repeat hoare_step.
  eapply hoare_conseq; [apply save_hoare | done | | done].
  intros r db [-> Hsw]. done.
Qed.

(** After the write of a request, a rest that writes no request. *)
Lemma leads_rest {A} m1 (T : Db -> Prop) (rest : M A) :
  keeps (swapsAre m1) rest -> (forall db, swaps db = m1 -> T db) ->
  leads (fun db => swaps db = m1) T rest.
Proof.
  intros Hk HT.
  eapply hoare_conseq; [exact Hk | | |].
  - intros db H. by apply swapsAre_iff.
  - intros a db H. apply HT. exact (proj1 (swapsAre_iff m1 db) H).
  - intros e db H. apply HT. exact (proj1 (swapsAre_iff m1 db) H).
Qed.

Ltac unchanged :=
  apply leads_ret; intros ? Hsw; left; exact (proj1 (swapsAre_iff _ _) Hsw).

Lemma put_accept_writes db user id response :
  writes id (swaps db)
    (fun r r' =>
       swapRequestSchema.itemOwner r = user /\
       swapRequestSchema.status r = swapRequestSchema.pending /\
       (r' = acceptedPlain response r \/
        exists p, swapRequestSchema.offeredPoints r = Some p /\
                  r' = acceptedPaid response p r))
    (swaps.put_accept user id response db).1.
Proof.
  unfold swaps.put_accept.
  apply (leads_tryCatch (swapsAre (swaps db)));
    [| exact (proj2 (swapsAre_iff _ _) eq_refl)].
  generalize (swaps db) as m0. intros m0.
  destruct (negb (maxlength 500 response)); [unchanged |].
  eapply hoare_bind; [apply findById_hoare |]. intros o. apply hoare_pure; intros ->.
  destruct (m0 !! id) as [r |] eqn:Hr; [| unchanged].
  case_bool_decide as Ho; cbn [negb]; [| unchanged].
  case_bool_decide as Hp; cbn [negb]; [| unchanged].
  eapply hoare_bind.
  { eapply hoare_conseq; [apply accept_hoare | done | intros r1 db' H; exact H |].
    intros e db' H. left. exact (proj1 (swapsAre_iff _ _) H). }
  intros r1. cbn beta. apply hoare_pure. intros Hshape.
  apply leads_rest; [unfold swapsAre; keeps_auto |].
  intros db' Hsw. right. by exists r, r1.
Qed.

Lemma put_reject_writes db user id response :
  writes id (swaps db)
    (fun r r' =>
       swapRequestSchema.itemOwner r = user /\
       swapRequestSchema.status r = swapRequestSchema.pending /\
       r' = SwapRequest.set_responseMessage response
              (SwapRequest.set_status swapRequestSchema.rejected r))
    (swaps.put_reject user id response db).1.
Proof.
  unfold swaps.put_reject.
  apply (leads_tryCatch (swapsAre (swaps db)));
    [| exact (proj2 (swapsAre_iff _ _) eq_refl)].
  generalize (swaps db) as m0. intros m0.
  destruct (negb (maxlength 500 response)); [unchanged |].
  eapply hoare_bind; [apply findById_hoare |]. intros o. apply hoare_pure; intros ->.
  destruct (m0 !! id) as [r |] eqn:Hr; [| unchanged].
  case_bool_decide as Ho; cbn [negb]; [| unchanged].
  case_bool_decide as Hp; cbn [negb]; [| unchanged].
  eapply hoare_bind.
  { unfold SwapRequest.reject.
    eapply hoare_conseq; [apply save_hoare | done | intros r1 db' H; exact H |].
    intros e db' H. left. exact (proj1 (swapsAre_iff _ _) H). }
  intros r1. cbn beta.
  apply hoare_ret. intros db' [-> Hsw]. right. by eexists r, _.
Qed.

Lemma put_complete_writes db user id now :
  writes id (swaps db)
    (fun r r' =>
       (swapRequestSchema.requester r = user \/ swapRequestSchema.itemOwner r = user) /\
       swapRequestSchema.status r = swapRequestSchema.accepted /\
       r' = SwapRequest.set_completedAt (Some now)
              (SwapRequest.set_status swapRequestSchema.completed r))
    (swaps.put_complete user id now db).1.
Proof.
  unfold swaps.put_complete.
  apply (leads_tryCatch (swapsAre (swaps db)));
    [| exact (proj2 (swapsAre_iff _ _) eq_refl)].
  generalize (swaps db) as m0. intros m0.
  eapply hoare_bind; [apply findById_hoare |]. intros o. apply hoare_pure; intros ->.
  destruct (m0 !! id) as [r |] eqn:Hr; [| unchanged].
  assert (Hparty :
    negb (bool_decide (swapRequestSchema.requester r = user)) &&
    negb (bool_decide (swapRequestSchema.itemOwner r = user)) = false ->
    swapRequestSchema.requester r = user \/ swapRequestSchema.itemOwner r = user).
  { repeat case_bool_decide; cbn; eauto; done. }
  destruct (_ && _); [unchanged |]. specialize (Hparty eq_refl).
  case_bool_decide as Hp; cbn [negb]; [| unchanged].
  eapply hoare_bind.
  { eapply hoare_conseq; [apply complete_hoare | done | intros r1 db' H; exact H |].
    intros e db' H. left. exact (proj1 (swapsAre_iff _ _) H). }
  intros r1. cbn beta.
  apply hoare_ret. intros db' [Hsw ->]. right. by eexists r, _.
Qed.

Lemma put_cancel_writes db user id reason now :
  writes id (swaps db)
    (fun r r' =>
       swapRequestSchema.requester r = user /\
       swapRequestSchema.canBeCancelled now r = true /\
       (r' = SwapRequest.set_cancelled (Some user) reason
               (SwapRequest.set_status swapRequestSchema.cancelled r) \/
        (swapRequestSchema.pointsTransferred r = true /\
         r' = cancelledRefunded user reason r)))
    (swaps.put_cancel user id reason now db).1.
Proof.
  unfold swaps.put_cancel.
  apply (leads_tryCatch (swapsAre (swaps db)));
    [| exact (proj2 (swapsAre_iff _ _) eq_refl)].
  generalize (swaps db) as m0. intros m0.
  destruct (negb (maxlength 200 reason)); [unchanged |].
  eapply hoare_bind; [apply findById_hoare |]. intros o. apply hoare_pure; intros ->.
  destruct (m0 !! id) as [r |] eqn:Hr; [| unchanged].
  case_bool_decide as Ho; cbn [negb]; [| unchanged].
  destruct (swapRequestSchema.canBeCancelled now r) eqn:Hc; cbn [negb]; [| unchanged].
  eapply hoare_bind.
  { eapply hoare_conseq; [apply cancel_hoare | done | intros r1 db' H; exact H |].
    intros e db' H. left. exact (proj1 (swapsAre_iff _ _) H). }
  intros r1. cbn beta.
  apply hoare_ret. intros db' [Hsw Hshape]. right. by exists r, r1.
Qed.

Lemma put_read_writes db user id now :
  writes id (swaps db)
    (fun r r' =>
       (swapRequestSchema.requester r = user \/ swapRequestSchema.itemOwner r = user) /\
       r' = SwapRequest.set_read (Some now) r)
    (swaps.put_read user id now db).1.
Proof.
  unfold swaps.put_read.
  apply (leads_tryCatch (swapsAre (swaps db)));
    [| exact (proj2 (swapsAre_iff _ _) eq_refl)].
  generalize (swaps db) as m0. intros m0.
  eapply hoare_bind; [apply findById_hoare |]. intros o. apply hoare_pure; intros ->.
  destruct (m0 !! id) as [r |] eqn:Hr; [| unchanged].
  assert (Hparty :
    negb (bool_decide (swapRequestSchema.requester r = user)) &&
    negb (bool_decide (swapRequestSchema.itemOwner r = user)) = false ->
    swapRequestSchema.requester r = user \/ swapRequestSchema.itemOwner r = user).
  { repeat case_bool_decide; cbn; eauto; done. }
  destruct (_ && _); [unchanged |]. specialize (Hparty eq_refl).
  eapply hoare_bind.
  { unfold SwapRequest.markAsRead.
    eapply hoare_conseq; [apply save_hoare | done | intros r1 db' H; exact H |].
    intros e db' H. left. exact (proj1 (swapsAre_iff _ _) H). }
  intros r1. cbn beta.
  apply hoare_ret. intros db' [-> Hsw]. right. by eexists r, _.
Qed.

Lemma leads_bind_keeps {A B} (I T : Db -> Prop) (m : M A) (k : A -> M B) :
  keeps I m -> (forall a, leads I T (k a)) -> (forall db, I db -> T db) ->
  leads I T (bind m k).
Proof.
  intros Hm Hk HT.
  apply (hoare_bind _ _ _ (fun _ => I)); [| exact Hk].
  eapply hoare_conseq; [exact Hm | done | done |]. intros e db. apply HT.
Qed.

Lemma create_hoare m0 itemId who owner ty offItem offPoints msg now :
  hoare (swapsAre m0)
    (SwapRequest.create itemId who owner ty offItem offPoints msg now)
    (fun res db =>
       res.1 = fresh (dom m0) /\
       swaps db = <[res.1 := res.2]> m0 /\
       swapRequestSchema.status res.2 = swapRequestSchema.pending /\
       swapRequestSchema.pointsTransferred res.2 = false /\
       swapRequestSchema.item res.2 = itemId /\
       swapRequestSchema.requester res.2 = who /\
       swapRequestSchema.itemOwner res.2 = owner)
    (fun _ => swapsAre m0).
Proof.
  intros db H. unfold SwapRequest.create. cbv zeta.
  pose proof (proj1 (swapsAre_iff _ _) H) as Hsw. rewrite Hsw.
  match goal with |- context [SwapRequest.save ?i ?d db] =>
    pose proof (save_hoare m0 i d db H) as Hs;
    destruct (SwapRequest.save i d db) as [db' [e | r]]
  end; [exact Hs |].
  destruct Hs as [-> Hs]. cbn. by rewrite Hs.
Qed.

(** The creation handler adds at most one request, pending and with no
    transfer recorded, under an id that was not in use. *)
Lemma post_writes db user body now :
  let db' := (swaps.post user body now db).1 in
  swaps db' = swaps db \/
  exists new,
    swaps db !! fresh (dom (swaps db)) = None /\
    swaps db' = <[fresh (dom (swaps db)) := new]> (swaps db) /\
    swapRequestSchema.status new = swapRequestSchema.pending /\
    swapRequestSchema.pointsTransferred new = false /\
    swapRequestSchema.item new = swaps.itemId body /\
    swapRequestSchema.requester new = swaps._id user.
Proof.
  cbv zeta. unfold swaps.post.
  apply (leads_tryCatch (swapsAre (swaps db)));
    [| exact (proj2 (swapsAre_iff _ _) eq_refl)].
  generalize (swaps db) as m0. intros m0.
  repeat lazymatch goal with
    | |- leads _ _ (bind (SwapRequest.create _ _ _ _ _ _ _ _) _) => fail
    | |- leads _ _ (bind _ _) =>
        apply leads_bind_keeps;
        [unfold swapsAre; keeps_auto | intros ?
        | intros ? Hsw; left; exact (proj1 (swapsAre_iff _ _) Hsw)]
    | |- leads _ _ (if ?b then _ else _) => destruct b
    | |- leads _ _ (match ?x with _ => _ end) => destruct x
    | |- leads _ _ (respond _) => unchanged
    end.
  eapply hoare_bind.
  { eapply hoare_conseq; [apply create_hoare | done | intros res db' H; exact H |].
    intros e db' H. left. exact (proj1 (swapsAre_iff _ _) H). }
  intros [newId new]. cbn [fst snd].
  intros db1 (-> & Hsw & Hst & Hpt & Hitem & Hreq & _). revert db1 Hsw.
  apply leads_rest; [unfold swapsAre; keeps_auto |].
  intros db' Hsw. right. exists new. split_and!; try done.
  apply not_elem_of_dom. apply is_fresh.
Qed.

Lemma points_add_swaps db body : swaps (users.post_points_add body db).1 = swaps db.
Proof.
  apply (proj1 (swapsAre_iff (swaps db) _)). unfold users.post_points_add.
  apply (keeps_tryCatch (swapsAre (swaps db))); [unfold swapsAre; keeps_auto |].
  exact (proj2 (swapsAre_iff _ _) eq_refl).
Qed.

Lemma points_deduct_swaps db body : swaps (users.post_points_deduct body db).1 = swaps db.
Proof.
  apply (proj1 (swapsAre_iff (swaps db) _)). unfold users.post_points_deduct.
  apply (keeps_tryCatch (swapsAre (swaps db))); [unfold swapsAre; keeps_auto |].
  exact (proj2 (swapsAre_iff _ _) eq_refl).
Qed.

Lemma delete_item_swaps db id : swaps (admin.delete_item id db).1 = swaps db.
Proof.
  apply (proj1 (swapsAre_iff (swaps db) _)). unfold admin.delete_item.
  apply (keeps_tryCatch (swapsAre (swaps db))); [unfold swapsAre; keeps_auto |].
  exact (proj2 (swapsAre_iff _ _) eq_refl).
Qed.

Lemma writes_lookup id0 m0 shape db' id r :
  writes id0 m0 shape db' -> m0 !! id = Some r ->
  swaps db' !! id = Some r \/
  (id0 = id /\ exists r', shape r r' /\ swaps db' !! id = Some r').
Proof.
  intros [-> | (r0 & r' & Hr0 & Hshape & ->)] Hr; [by left |].
  destruct (decide (id0 = id)) as [-> | Hne].
  - right. split; [done |]. exists r'. rewrite lookup_insert_eq.
    rewrite Hr in Hr0. by injection Hr0 as ->.
  - left. by rewrite lookup_insert_ne.
Qed.

Lemma sameExchange_refl r : sameExchange r r.
Proof. by unfold sameExchange. Qed.

Lemma sameExchange_trans r1 r2 r3 :
  sameExchange r1 r2 -> sameExchange r2 r3 -> sameExchange r1 r3.
Proof. unfold sameExchange. intros (?&?&?&?&?&?&?) (?&?&?&?&?&?&?). split_and!; congruence. Qed.

(** ** The life cycle *)

(** What one call does to one stored request. *)
Lemma step_edge (c : Call) (db : Db) (id : ObjectId) (r : swapRequestSchema.t) :
  swaps db !! id = Some r ->
  exists r',
    swaps (run c db).1 !! id = Some r' /\
    sameExchange r r' /\
    (swapRequestSchema.status r' = swapRequestSchema.status r \/
     target c id r = Some (swapRequestSchema.status r')).
Proof.
  intros Hr.
  assert (Hsame : forall db', swaps db' !! id = Some r ->
            exists r', swaps db' !! id = Some r' /\ sameExchange r r' /\
              (swapRequestSchema.status r' = swapRequestSchema.status r \/
               target c id r = Some (swapRequestSchema.status r'))).
  { intros db' H. exists r. split_and!; [done | apply sameExchange_refl | by left]. }
  destruct c as [user body now | user id0 response | user id0 response | user id0 now
                | user id0 reason now | user id0 now | body | body | id0]; cbn [run].
  - destruct (post_writes db user body now) as [Hsw | (new & Hfresh & Hsw & _)].
    + apply Hsame. by rewrite Hsw.
    + apply Hsame. rewrite Hsw, lookup_insert_ne; [done |]. congruence.
  - destruct (writes_lookup _ _ _ _ id r (put_accept_writes db user id0 response) Hr)
      as [H | (-> & r' & (Ho & Hp & Hshape) & H)]; [by apply Hsame |].
    exists r'. split; [done |]. cbn [target].
    rewrite !bool_decide_eq_true_2 by done. cbn [andb].
    destruct Hshape as [-> | (p & _ & ->)]; (split; [done | by right]).
  - destruct (writes_lookup _ _ _ _ id r (put_reject_writes db user id0 response) Hr)
      as [H | (-> & r' & (Ho & Hp & ->) & H)]; [by apply Hsame |].
    eexists. split; [exact H |]. cbn [target].
    rewrite !bool_decide_eq_true_2 by done. cbn [andb]. split; [done | by right].
  - destruct (writes_lookup _ _ _ _ id r (put_complete_writes db user id0 now) Hr)
      as [H | (-> & r' & (Ho & Hp & ->) & H)]; [by apply Hsame |].
    eexists. split; [exact H |]. cbn [target].
    rewrite (bool_decide_eq_true_2 (id = id)) by done.
    rewrite (bool_decide_eq_true_2 _ Hp).
    assert (bool_decide (swapRequestSchema.requester r = user)
            || bool_decide (swapRequestSchema.itemOwner r = user) = true) as ->.
    { destruct Ho as [Ho | Ho]; rewrite (bool_decide_eq_true_2 _ Ho);
        [done | by rewrite orb_true_r]. }
    cbn [andb]. split; [done | by right].
  - destruct (writes_lookup _ _ _ _ id r (put_cancel_writes db user id0 reason now) Hr)
      as [H | (-> & r' & (Ho & Hc & Hshape) & H)]; [by apply Hsame |].
    exists r'. split; [done |]. cbn [target].
    rewrite !bool_decide_eq_true_2 by done. rewrite Hc. cbn [andb].
    destruct Hshape as [-> | [_ ->]]; (split; [done | by right]).
  - destruct (writes_lookup _ _ _ _ id r (put_read_writes db user id0 now) Hr)
      as [H | (-> & r' & (Ho & ->) & H)]; [by apply Hsame |].
    eexists. split; [exact H |]. split; [done | by left].
  - apply Hsame. by rewrite points_add_swaps.
  - apply Hsame. by rewrite points_deduct_swaps.
  - apply Hsame. by rewrite delete_item_swaps.
Qed.

(** X3. One call, one edge at most. For every call of the API, on every
    path through its handler, a stored request is still stored
    afterwards with the same item, requester, item owner, swap type,
    offer and creation date, and its status is either what it was or the
    target of the one edge the call can take: accepted or rejected for an
    accept or a reject of this request by its item owner while pending,
    completed for a complete by either party while accepted, cancelled for
    a cancel by its requester while pending and within seven days of its
    creation. Creating a request, reading one, moving points and removing
    items change no status. *)
Theorem lifecycle_step (c : Call) (db : Db) (id : ObjectId) (r : swapRequestSchema.t) :
  swaps db !! id = Some r ->
  exists r',
    swaps (run c db).1 !! id = Some r' /\
    sameExchange r r' /\
    (swapRequestSchema.status r' = swapRequestSchema.status r \/
     target c id r = Some (swapRequestSchema.status r')).
Proof. apply step_edge. Qed.

Lemma lifecycle_step_witness :
  let db := Scenario.pointsDb 50 7 in
  let c := AcceptSwap Scenario.Y Scenario.R None in
  exists r',
    swaps (run c db).1 !! Scenario.R = Some r' /\
    (swapRequestSchema.status r' = swapRequestSchema.pending \/
     Some swapRequestSchema.accepted = Some (swapRequestSchema.status r')).
Proof.
  cbv zeta.
  destruct (lifecycle_step (AcceptSwap Scenario.Y Scenario.R None)
              (Scenario.pointsDb 50 7) Scenario.R
              (Scenario.request swapRequestSchema.points swapRequestSchema.pending
                 None (Some 20)) eq_refl)
    as (r' & Hr' & _ & Hst).
  exists r'. split; [exact Hr' | exact Hst].
Defined.

Lemma target_edge c id r s :
  target c id r = Some s -> edge (swapRequestSchema.status r) s.
Proof.
  destruct c; cbn [target]; try done.
  - destruct (bool_decide (swapRequestSchema.status r = _)) eqn:Hs;
      [| by rewrite andb_false_r].
    apply bool_decide_eq_true in Hs. destruct (_ && _); [| done].
    intros [= <-]. rewrite Hs. constructor.
  - destruct (bool_decide (swapRequestSchema.status r = _)) eqn:Hs;
      [| by rewrite andb_false_r].
    apply bool_decide_eq_true in Hs. destruct (_ && _); [| done].
    intros [= <-]. rewrite Hs. constructor.
  - destruct (bool_decide (swapRequestSchema.status r = _)) eqn:Hs;
      [| by rewrite andb_false_r].
    apply bool_decide_eq_true in Hs. destruct (_ && _); [| done].
    intros [= <-]. rewrite Hs. constructor.
  - unfold swapRequestSchema.canBeCancelled.
    repeat case_bool_decide; cbn; try done.
    destruct (swapRequestSchema.status r); try done.
    destruct (negb _); [| done]. intros [= <-]. constructor.
Qed.

Lemma edge_from_terminal s s' : edge s s' -> terminal s = false.
Proof. by intros []. Qed.

(** X4. Over any sequence of calls a request is never lost, never changes
    what is exchanged between whom, and its status only moves along the
    edges pending to accepted, rejected or cancelled and accepted to
    completed. So a request that is rejected, completed or cancelled keeps
    that status whatever is called afterwards, and an accepted request is
    never pending again. *)
Theorem lifecycle_run (cs : list Call) (db : Db) (id : ObjectId)
    (r : swapRequestSchema.t) :
  swaps db !! id = Some r ->
  exists r',
    swaps (runAll cs db) !! id = Some r' /\
    sameExchange r r' /\
    rtc edge (swapRequestSchema.status r) (swapRequestSchema.status r') /\
    (terminal (swapRequestSchema.status r) = true ->
     swapRequestSchema.status r' = swapRequestSchema.status r) /\
    (swapRequestSchema.status r = swapRequestSchema.accepted ->
     swapRequestSchema.status r' <> swapRequestSchema.pending).
Proof.
  revert db r. induction cs as [| c cs IH]; intros db r Hr.
  - exists r. cbn.
    split_and!; [done | apply sameExchange_refl | done | done | by intros ->].
  - destruct (step_edge c db id r Hr) as (r1 & Hr1 & Hsame1 & Hst1).
    destruct (IH _ _ Hr1) as (r' & Hr' & Hsame & Hrtc & Hterm & Hacc).
    assert (Hstep : rtc edge (swapRequestSchema.status r) (swapRequestSchema.status r1)).
    { destruct Hst1 as [-> | Ht]; [done |]. apply rtc_once. by apply (target_edge c id). }
    exists r'. cbn [runAll]. split_and!.
    + exact Hr'.
    + by apply (sameExchange_trans _ r1).
    + by etrans.
    + intros Ht. destruct Hst1 as [E | Htar].
      * rewrite <- E. apply Hterm. by rewrite E.
      * apply (target_edge c id) in Htar. apply edge_from_terminal in Htar. congruence.
    + intros Ha. destruct Hst1 as [E | Htar].
      * apply Hacc. by rewrite E.
      * apply (target_edge c id) in Htar. rewrite Ha in Htar.
        inversion Htar as [| | | Esrc Etgt].
        rewrite Hterm; [by rewrite <- Etgt | by rewrite <- Etgt].
Qed.

Lemma lifecycle_run_witness :
  let db := Scenario.settledDb swapRequestSchema.rejected in
  let cs := [AcceptSwap Scenario.Y Scenario.R None;
             CancelSwap Scenario.X Scenario.R None 0;
             CompleteSwap Scenario.X Scenario.R 1] in
  swapStatus (runAll cs db) Scenario.R = Some swapRequestSchema.rejected.
Proof.
  cbv zeta.
  destruct (lifecycle_run
              [AcceptSwap Scenario.Y Scenario.R None;
               CancelSwap Scenario.X Scenario.R None 0;
               CompleteSwap Scenario.X Scenario.R 1]
              (Scenario.settledDb swapRequestSchema.rejected) Scenario.R
              (Scenario.request swapRequestSchema.points swapRequestSchema.rejected
                 None (Some 20)) eq_refl)
    as (r' & Hr' & _ & _ & Hterm & _).
  unfold swapStatus. rewrite Hr'. cbn. f_equal. by apply Hterm.
Defined.

(** ** A pending request records no transfer *)

Lemma writes_forall (P : swapRequestSchema.t -> Prop) id m0 shape db' :
  writes id m0 shape db' ->
  (forall r r', shape r r' -> P r -> P r') ->
  map_Forall (fun _ => P) m0 -> map_Forall (fun _ => P) (swaps db').
Proof.
  intros [-> | (r & r' & Hr & Hshape & ->)] Hstep Hm; [done |].
  apply map_Forall_insert_2; [| done].
  apply (Hstep r r' Hshape). exact (Hm _ _ Hr).
Qed.

Lemma run_pendingUnpaid c db : pendingUnpaid db -> pendingUnpaid (run c db).1.
Proof.
  unfold pendingUnpaid. intros H.
  destruct c as [user body now | user id0 response | user id0 response | user id0 now
                | user id0 reason now | user id0 now | body | body | id0]; cbn [run].
  - destruct (post_writes db user body now) as [-> | (new & _ & -> & Hst & Hpt & _)];
      [done |].
    by apply map_Forall_insert_2.
  - eapply writes_forall; [apply put_accept_writes | | exact H].
    intros r r' (_ & _ & [-> | (p & _ & ->)]) _; done.
  - eapply writes_forall; [apply put_reject_writes | | exact H].
    intros r r' (_ & _ & ->) _; done.
  - eapply writes_forall; [apply put_complete_writes | | exact H].
    intros r r' (_ & _ & ->) _; done.
  - eapply writes_forall; [apply put_cancel_writes | | exact H].
    intros r r' (_ & _ & [-> | [_ ->]]) _; done.
  - eapply writes_forall; [apply put_read_writes | | exact H].
    intros r r' (_ & ->) Hr. exact Hr.
  - by rewrite points_add_swaps.
  - by rewrite points_deduct_swaps.
  - by rewrite delete_item_swaps.
Qed.

(** X5. Over any sequence of calls, no pending request records a
    transfer: from a store whose pending requests all have
    [pointsTransferred] false, every store reached has the same
    property. A transfer is recorded only together with the move to
    accepted. *)
Theorem pending_never_paid (cs : list Call) (db : Db) :
  pendingUnpaid db -> pendingUnpaid (runAll cs db).
Proof.
  revert db. induction cs as [| c cs IH]; intros db H; [done |].
  cbn [runAll]. apply IH. by apply run_pendingUnpaid.
Qed.

Lemma pending_never_paid_witness :
  let cs := [AcceptSwap Scenario.Y Scenario.R None;
             CancelSwap Scenario.X Scenario.R None 1] in
  pendingUnpaid (runAll cs (Scenario.pointsDb 50 7)).
Proof.
  cbv zeta. apply pending_never_paid.
  apply map_Forall_insert_2; [reflexivity | apply map_Forall_empty].
Defined.

(** [cancel] on a request that records no transfer is one [save]. *)
Lemma cancel_unpaid this doc who reason db :
  swapRequestSchema.pointsTransferred doc = false ->
  SwapRequest.cancel this doc who reason db
  = SwapRequest.save this
      (SwapRequest.set_cancelled (Some who) reason
         (SwapRequest.set_status swapRequestSchema.cancelled doc)) db.
Proof.
  intros Hf. unfold SwapRequest.cancel. cbv zeta.
  cbn [swapRequestSchema.pointsTransferred SwapRequest.set_cancelled
       SwapRequest.set_status].
  rewrite Hf. reflexivity.
Qed.

Lemma save_frame this cur db :
  users (SwapRequest.save this cur db).1 = users db /\
  items (SwapRequest.save this cur db).1 = items db.
Proof.
  unfold SwapRequest.save.
  destruct (swapRequestSchema.validate cur); [| done].
  by destruct (swapRequestSchema.preSave cur).
Qed.

Lemma canBeCancelled_pending now r :
  swapRequestSchema.canBeCancelled now r = true ->
  swapRequestSchema.status r = swapRequestSchema.pending.
Proof. unfold swapRequestSchema.canBeCancelled. by destruct (swapRequestSchema.status r). Qed.

(** X6. The cancel handler never reaches the reversal of a transfer: in
    a store whose pending requests record no transfer, a cancel by any
    caller on any request, with any reason and at any time, leaves every
    user and every item as they were. *)
Theorem cancel_moves_no_points (db : Db) (user id : ObjectId) (reason : option string)
    (now : Z) :
  pendingUnpaid db ->
  users (swaps.put_cancel user id reason now db).1 = users db /\
  items (swaps.put_cancel user id reason now db).1 = items db.
Proof.
  intros Hinv.
  assert (Hcases :
    (swaps.put_cancel user id reason now db).1 = db \/
    exists cur, (swaps.put_cancel user id reason now db).1
                = (SwapRequest.save id cur db).1).
  { remember (swaps.put_cancel user id reason now db) as out eqn:Hout.
    unfold swaps.put_cancel, tryCatch in Hout.
    destruct (negb (maxlength 200 reason)); [left; by subst out |].
    unfold bind at 1 in Hout. unfold SwapRequest.findById at 1 in Hout.
    destruct (swaps db !! id) as [r |] eqn:Hr; [| left; by subst out].
    destruct (negb (bool_decide _)); [left; by subst out |].
    destruct (swapRequestSchema.canBeCancelled now r) eqn:Hc; [| left; by subst out].
    cbn [negb] in Hout. unfold bind at 1 in Hout.
    rewrite cancel_unpaid in Hout
      by (apply (Hinv _ _ Hr); by apply (canBeCancelled_pending now)).
    right.
    exists (SwapRequest.set_cancelled (Some user) reason
              (SwapRequest.set_status swapRequestSchema.cancelled r)).
    destruct (SwapRequest.save _ _ db) as [db' [e | r1]]; by subst out. }
  destruct Hcases as [-> | [cur ->]]; [done | apply save_frame].
Qed.

Lemma cancel_moves_no_points_witness :
  let db := Scenario.pointsDb 50 7 in
  users (swaps.put_cancel Scenario.X Scenario.R None 1 db).1 = users db /\
  swapStatus (swaps.put_cancel Scenario.X Scenario.R None 1 db).1 Scenario.R
  = Some swapRequestSchema.cancelled.
Proof.
  cbv zeta. split; [| vm_compute; reflexivity].
  apply cancel_moves_no_points.
  apply map_Forall_insert_2; [reflexivity | apply map_Forall_empty].
Defined.

(** The cancel handler on a pending request that records no transfer,
    called by the requester: one [save] within the window, a refusal
    after it. *)
Lemma put_cancel_run db id r reason now :
  swaps db !! id = Some r ->
  swapRequestSchema.status r = swapRequestSchema.pending ->
  swapRequestSchema.pointsTransferred r = false ->
  swapRequestSchema.validate r = [] -> swapRequestSchema.preSave r = None ->
  maxlength 200 reason = true ->
  swaps.put_cancel (swapRequestSchema.requester r) id reason now db
  = if bool_decide (now <= swapRequestSchema.createdAt r + 604800000)
    then (set_swaps
            (<[id := SwapRequest.set_cancelled (Some (swapRequestSchema.requester r))
                       reason
                       (SwapRequest.set_status swapRequestSchema.cancelled r)]>
               (swaps db)) db,
          ok_with 200 "Swap request cancelled successfully")
    else (db, fail_with 400 "Swap request cannot be cancelled").
Proof.
  intros Hr Hpend Hflag Hv Hpre Hreason.
  assert (Hc : swapRequestSchema.canBeCancelled now r
               = bool_decide (now <= swapRequestSchema.createdAt r + 604800000)).
  { unfold swapRequestSchema.canBeCancelled, swapRequestSchema.isExpired,
      swapRequestSchema.sevenDays. rewrite Hpend.
    destruct (Z.ltb_spec (swapRequestSchema.createdAt r)
                (now - 7 * 24 * 60 * 60 * 1000)); case_bool_decide; (done || lia). }
  unfold swaps.put_cancel, tryCatch. rewrite Hreason. cbn [negb].
  unfold bind at 1. unfold SwapRequest.findById at 1. rewrite Hr.
  rewrite (bool_decide_eq_true_2 _ (eq_refl (swapRequestSchema.requester r))).
  cbn [negb]. rewrite Hc. case_bool_decide; cbn [negb]; [| reflexivity].
  unfold bind at 1. rewrite cancel_unpaid by done.
  rewrite save_run_request; [reflexivity | | exact Hpre].
  apply validate_nil in Hv. apply validate_nil. cbn -[maxlength]. tauto.
Qed.

(** X7. The window of a cancel. A stored pending request that passes the
    schema and records no transfer, cancelled by its requester with a
    reason of at most 200 characters: up to and including seven days
    (604800000 ms) after its creation the handler succeeds and replaces
    the stored request by one with status cancelled, [cancelledBy] the
    caller and [cancelledReason] the reason given, every other field as it
    was, and nothing else in the store changes; later than that it answers
    400 [Swap request cannot be cancelled] and changes nothing. *)
Theorem cancel_window (db : Db) (id : ObjectId) (r : swapRequestSchema.t)
    (reason : option string) (now : Z) :
  swaps db !! id = Some r ->
  swapRequestSchema.status r = swapRequestSchema.pending ->
  swapRequestSchema.pointsTransferred r = false ->
  swapRequestSchema.validate r = [] -> swapRequestSchema.preSave r = None ->
  maxlength 200 reason = true ->
  let out := swaps.put_cancel (swapRequestSchema.requester r) id reason now db in
  (now <= swapRequestSchema.createdAt r + 604800000 ->
     exists r',
       out = (set_swaps (<[id := r']> (swaps db)) db,
              ok_with 200 "Swap request cancelled successfully") /\
       swapRequestSchema.status r' = swapRequestSchema.cancelled /\
       swapRequestSchema.cancelledBy r' = Some (swapRequestSchema.requester r) /\
       swapRequestSchema.cancelledReason r' = reason /\
       swapRequestSchema.pointsTransferred r' = false /\
       swapRequestSchema.transferAmount r' = swapRequestSchema.transferAmount r /\
       sameExchange r r' /\
       swapRequestSchema.message r' = swapRequestSchema.message r /\
       swapRequestSchema.responseMessage r' = swapRequestSchema.responseMessage r /\
       swapRequestSchema.completedAt r' = swapRequestSchema.completedAt r /\
       swapRequestSchema.isRead r' = swapRequestSchema.isRead r /\
       swapRequestSchema.readAt r' = swapRequestSchema.readAt r) /\
  (swapRequestSchema.createdAt r + 604800000 < now ->
     out = (db, fail_with 400 "Swap request cannot be cancelled") /\
     errorKind out.2 = Some InvalidTransition).
Proof.
  intros Hr Hpend Hflag Hv Hpre Hreason. cbv zeta.
  rewrite (put_cancel_run db id r reason now Hr Hpend Hflag Hv Hpre Hreason).
  split; intros Hnow.
  - rewrite bool_decide_eq_true_2 by done.
    eexists. split; [reflexivity |]. cbn. unfold sameExchange. cbn.
    split_and!; done.
  - rewrite bool_decide_eq_false_2 by lia. done.
Qed.

Lemma cancel_window_witness :
  let db := Scenario.pointsDb 50 7 in
  (exists r',
     swaps (swaps.put_cancel Scenario.X Scenario.R (Some "changed my mind"%string)
              604800000 db).1 !! Scenario.R = Some r' /\
     swapRequestSchema.status r' = swapRequestSchema.cancelled /\
     swapRequestSchema.cancelledBy r' = Some Scenario.X /\
     swapRequestSchema.cancelledReason r' = Some "changed my mind"%string) /\
  swaps.put_cancel Scenario.X Scenario.R None 604800001 db
  = (db, fail_with 400 "Swap request cannot be cancelled").
Proof.
  cbv zeta.
  destruct (cancel_window (Scenario.pointsDb 50 7) Scenario.R
              (Scenario.request swapRequestSchema.points swapRequestSchema.pending
                 None (Some 20))
              (Some "changed my mind"%string) 604800000
              eq_refl eq_refl eq_refl eq_refl eq_refl eq_refl)
    as [Hin _].
  destruct (cancel_window (Scenario.pointsDb 50 7) Scenario.R
              (Scenario.request swapRequestSchema.points swapRequestSchema.pending
                 None (Some 20))
              None 604800001 eq_refl eq_refl eq_refl eq_refl eq_refl eq_refl)
    as [_ Hout].
  split.
  - destruct (Hin ltac:(cbn; lia)) as (r' & Hrun & Hs & Hby & Hwhy & _).
    exists r'. split_and!; [| exact Hs | exact Hby | exact Hwhy].
    etrans; [exact (f_equal (fun o => swaps o.1 !! Scenario.R) Hrun) |].
    cbn [fst swaps set_swaps]. apply lookup_insert_eq.
  - exact (proj1 (Hout ltac:(cbn; lia))).
Defined.

(** ** Refusals write nothing *)

Lemma hoare_any {A} (P : Db -> Prop) (m : M A) :
  hoare P m (fun _ _ => True) (fun _ _ => True).
Proof. intros db _. by destruct (m db) as [db' [e | a]]. Qed.

(** A step that does not write, in front of a rest. *)
Lemma hoare_bind_read {A B} db0 (m : M A) (k : A -> M B) Q :
  keeps (eq db0) m ->
  (forall a, hoare (eq db0) (k a) Q (fun _ _ => True)) ->
  hoare (eq db0) (bind m k) Q (fun _ _ => True).
Proof.
  intros Hm Hk. apply (hoare_bind _ _ _ (fun _ => eq db0)); [| exact Hk].
  eapply hoare_conseq; [exact Hm | done | done | done].
Qed.

(** A step that may write, in front of a rest that can only succeed or
    throw. *)
Lemma hoare_bind_write {A B} (P : Db -> Prop) (m : M A) (k : A -> M B)
    (Q : B -> Db -> Prop) :
  (forall a, hoare (fun _ => True) (k a) Q (fun _ _ => True)) ->
  hoare P (bind m k) Q (fun _ _ => True).
Proof.
  intros Hk. apply (hoare_bind _ _ _ (fun _ _ => True)); [apply hoare_any | exact Hk].
Qed.

Ltac quiet_step :=
  lazymatch goal with
  | |- hoare (eq _) (bind _ _) _ _ =>
      first [ apply hoare_bind_read; [solve [keeps_auto] | intros ?]
            | apply hoare_bind_write; intros ? ]
  | |- hoare (fun _ => True) (bind _ _) _ _ => apply hoare_bind_write; intros ?
  | |- hoare _ (if ?b then _ else _) _ _ => destruct b
  | |- hoare _ (match ?x with _ => _ end) _ _ => destruct x
  | |- hoare (eq _) (respond _) _ _ => apply hoare_ret; intros ? <-; by left
  | |- hoare (fun _ => True) (respond _) _ _ =>
      apply hoare_ret; intros ? _; right; reflexivity
  end.

(** X8. A failure that is not a 500 has written nothing. For every call
    of the API and every store: the store is left as it was, or the call
    succeeded, or it was answered 500 by the [catch] of its handler. So
    every 400, 403 and 404 of the API is free of side effects, and
    whatever a failed call has written is reported as a 500. *)
Theorem refusal_writes_nothing (c : Call) (db : Db) :
  success (run c db).2 = false -> code (run c db).2 <> 500 -> (run c db).1 = db.
Proof.
  assert (Hq : forall failure (h : M Response),
            hoare (eq db) h (fun r db' => db' = db \/ success r = true)
              (fun _ _ => True) ->
            success (tryCatch failure h db).2 = false ->
            code (tryCatch failure h db).2 <> 500 ->
            (tryCatch failure h db).1 = db).
  { intros failure h Hh. unfold tryCatch. specialize (Hh db eq_refl).
    destruct (h db) as [db' [e | r]]; cbn; [done |].
    destruct Hh as [-> | ->]; done. }
  destruct c; cbn [run];
    [unfold swaps.post | unfold swaps.put_accept | unfold swaps.put_reject
    | unfold swaps.put_complete | unfold swaps.put_cancel | unfold swaps.put_read
    | unfold users.post_points_add | unfold users.post_points_deduct
    | unfold admin.delete_item];
    apply Hq; repeat quiet_step.
Qed.

Lemma refusal_writes_nothing_witness :
  let c := AcceptSwap Scenario.Z3 Scenario.R None in
  code (run c (Scenario.pointsDb 50 7)).2 = 403 /\
  (run c (Scenario.pointsDb 50 7)).1 = Scenario.pointsDb 50 7.
Proof.
  cbv zeta. split; [reflexivity |].
  apply (refusal_writes_nothing (AcceptSwap Scenario.Z3 Scenario.R None)
           (Scenario.pointsDb 50 7)); [reflexivity | vm_compute; discriminate].
Defined.

(** ** Rejecting, reading and completing *)

Lemma incrementSwapsCompleted_run db this u :
  users db !! this = Some u -> 0 <= userSchema.points u ->
  User.incrementSwapsCompleted this u db
  = (set_users (<[this := swapCounted u]> (users db)) db, inr (swapCounted u)).
Proof. intros Hu Hp. unfold User.incrementSwapsCompleted. by apply save_run. Qed.

(** Reject and read leave the users and the items alone on every path. *)
Lemma reject_read_frame db user id response now :
  (users (swaps.put_reject user id response db).1 = users db /\
   items (swaps.put_reject user id response db).1 = items db) /\
  (users (swaps.put_read user id now db).1 = users db /\
   items (swaps.put_read user id now db).1 = items db).
Proof.
  pose (I := componentwise (fun m => m = users db) (fun m => m = items db)
               (fun _ : gmap ObjectId swapRequestSchema.t => True)).
  assert (HI : I db) by done.
  assert (Hs : closedS (fun _ => True)) by apply closedS_any.
  split.
  - enough (I (swaps.put_reject user id response db).1) as (? & ? & _) by done.
    unfold swaps.put_reject. apply keeps_tryCatch; [| exact HI].
    unfold I, SwapRequest.reject. keeps_auto.
  - enough (I (swaps.put_read user id now db).1) as (? & ? & _) by done.
    unfold swaps.put_read. apply keeps_tryCatch; [| exact HI].
    unfold I, SwapRequest.markAsRead. keeps_auto.
Qed.

(** X9. Rejecting moves nothing but the request. On every path the
    reject handler leaves every user and every item as they were; and a
    stored pending request that passes the schema and the hook, rejected
    by its item owner with a response of at most 500 characters, is
    replaced by one with status rejected and [responseMessage] the
    response given, every other field as it was, everything else in the
    store unchanged. *)
Theorem reject_only_request (db : Db) (id : ObjectId) (r : swapRequestSchema.t)
    (response : option string) :
  swaps db !! id = Some r ->
  swapRequestSchema.status r = swapRequestSchema.pending ->
  swapRequestSchema.validate r = [] -> swapRequestSchema.preSave r = None ->
  maxlength 500 response = true ->
  (exists r',
     swaps.put_reject (swapRequestSchema.itemOwner r) id response db
     = (set_swaps (<[id := r']> (swaps db)) db,
        ok_with 200 "Swap request rejected successfully") /\
     swapRequestSchema.status r' = swapRequestSchema.rejected /\
     swapRequestSchema.responseMessage r' = response /\
     sameExchange r r' /\
     swapRequestSchema.message r' = swapRequestSchema.message r /\
     swapRequestSchema.completedAt r' = swapRequestSchema.completedAt r /\
     swapRequestSchema.cancelledBy r' = swapRequestSchema.cancelledBy r /\
     swapRequestSchema.cancelledReason r' = swapRequestSchema.cancelledReason r /\
     swapRequestSchema.pointsTransferred r' = swapRequestSchema.pointsTransferred r /\
     swapRequestSchema.transferAmount r' = swapRequestSchema.transferAmount r /\
     swapRequestSchema.isRead r' = swapRequestSchema.isRead r /\
     swapRequestSchema.readAt r' = swapRequestSchema.readAt r) /\
  forall user id' response',
    users (swaps.put_reject user id' response' db).1 = users db /\
    items (swaps.put_reject user id' response' db).1 = items db.
Proof.
  intros Hr Hpend Hv Hpre Hresp. split.
  - exists (SwapRequest.set_responseMessage response
              (SwapRequest.set_status swapRequestSchema.rejected r)).
    split; [| unfold sameExchange; cbn; split_and!; done].
    unfold swaps.put_reject, tryCatch. rewrite Hresp. cbn [negb].
    unfold bind at 1. unfold SwapRequest.findById at 1. rewrite Hr.
    rewrite (bool_decide_eq_true_2 _ (eq_refl (swapRequestSchema.itemOwner r))),
      (bool_decide_eq_true_2 _ Hpend). cbn [negb].
    unfold bind at 1. unfold SwapRequest.reject.
    rewrite save_run_request; [reflexivity | | exact Hpre].
    apply validate_nil in Hv. apply validate_nil. cbn -[maxlength]. tauto.
  - intros user id' response'. exact (proj1 (reject_read_frame db user id' response' 0)).
Qed.

Lemma reject_only_request_witness :
  let db := Scenario.pointsDb 50 7 in
  (exists r',
     swaps (swaps.put_reject Scenario.Y Scenario.R (Some "no thanks"%string) db).1
       !! Scenario.R = Some r' /\
     swapRequestSchema.status r' = swapRequestSchema.rejected /\
     swapRequestSchema.responseMessage r' = Some "no thanks"%string) /\
  users (swaps.put_reject Scenario.Y Scenario.R None db).1 = users db.
Proof.
  cbv zeta.
  destruct (reject_only_request (Scenario.pointsDb 50 7) Scenario.R
              (Scenario.request swapRequestSchema.points swapRequestSchema.pending
                 None (Some 20))
              (Some "no thanks"%string) eq_refl eq_refl eq_refl eq_refl eq_refl)
    as [(r' & Hrun & Hs & Hm & _) Hframe].
  split; [| exact (proj1 (Hframe Scenario.Y Scenario.R None))].
  exists r'. split_and!; [| exact Hs | exact Hm].
  etrans; [exact (f_equal (fun o => swaps o.1 !! Scenario.R) Hrun) |].
  cbn [fst swaps set_swaps]. apply lookup_insert_eq.
Defined.

(** X10. Reading is independent of the life cycle. A stored request that
    passes the schema and the hook, in whatever status, read by its
    requester or its item owner, is replaced by one with [isRead] true and
    [readAt] the time of the call, its status and every other field as
    they were, and nothing else in the store changes; a caller who is
    neither party is answered 403 and nothing is written. *)
Theorem read_marks_only (db : Db) (id : ObjectId) (r : swapRequestSchema.t)
    (user : ObjectId) (now : Z) :
  swaps db !! id = Some r ->
  swapRequestSchema.validate r = [] -> swapRequestSchema.preSave r = None ->
  (user = swapRequestSchema.requester r \/ user = swapRequestSchema.itemOwner r ->
     exists r',
       swaps.put_read user id now db
       = (set_swaps (<[id := r']> (swaps db)) db,
          ok_with 200 "Swap request marked as read") /\
       swapRequestSchema.isRead r' = true /\
       swapRequestSchema.readAt r' = Some now /\
       swapRequestSchema.status r' = swapRequestSchema.status r /\
       sameExchange r r' /\
       swapRequestSchema.message r' = swapRequestSchema.message r /\
       swapRequestSchema.responseMessage r' = swapRequestSchema.responseMessage r /\
       swapRequestSchema.completedAt r' = swapRequestSchema.completedAt r /\
       swapRequestSchema.cancelledBy r' = swapRequestSchema.cancelledBy r /\
       swapRequestSchema.cancelledReason r' = swapRequestSchema.cancelledReason r /\
       swapRequestSchema.pointsTransferred r' = swapRequestSchema.pointsTransferred r /\
       swapRequestSchema.transferAmount r' = swapRequestSchema.transferAmount r) /\
  (user <> swapRequestSchema.requester r -> user <> swapRequestSchema.itemOwner r ->
     swaps.put_read user id now db
     = (db, fail_with 403 "Not authorized to mark this swap request as read")).
Proof.
  intros Hr Hv Hpre. split.
  - intros Hparty. exists (SwapRequest.set_read (Some now) r).
    split; [| unfold sameExchange; cbn; split_and!; done].
    unfold swaps.put_read, tryCatch.
    unfold bind at 1. unfold SwapRequest.findById at 1. rewrite Hr.
    assert (negb (bool_decide (swapRequestSchema.requester r = user)) &&
            negb (bool_decide (swapRequestSchema.itemOwner r = user)) = false) as ->.
    { destruct Hparty as [-> | ->].
      - by rewrite (bool_decide_eq_true_2
                      (swapRequestSchema.requester r = swapRequestSchema.requester r)).
      - rewrite (bool_decide_eq_true_2
                   (swapRequestSchema.itemOwner r = swapRequestSchema.itemOwner r))
          by done.
        by rewrite andb_false_r. }
    unfold bind at 1. unfold SwapRequest.markAsRead.
    rewrite save_run_request; [reflexivity | | exact Hpre].
    apply validate_nil in Hv. apply validate_nil. cbn -[maxlength]. tauto.
  - intros Hn1 Hn2. unfold swaps.put_read, tryCatch.
    unfold bind at 1. unfold SwapRequest.findById at 1. rewrite Hr.
    by rewrite !bool_decide_eq_false_2 by congruence.
Qed.

Lemma read_marks_only_witness :
  let db := Scenario.settledDb swapRequestSchema.completed in
  (exists r',
     swaps (swaps.put_read Scenario.X Scenario.R 9 db).1 !! Scenario.R = Some r' /\
     swapRequestSchema.isRead r' = true /\
     swapRequestSchema.readAt r' = Some 9 /\
     swapRequestSchema.status r' = swapRequestSchema.completed) /\
  swaps.put_read Scenario.Z3 Scenario.R 9 db
  = (db, fail_with 403 "Not authorized to mark this swap request as read").
Proof.
  cbv zeta.
  destruct (read_marks_only (Scenario.settledDb swapRequestSchema.completed) Scenario.R
              (Scenario.request swapRequestSchema.points swapRequestSchema.completed
                 None (Some 20))
              Scenario.X 9 eq_refl eq_refl eq_refl) as [Hyes _].
  destruct (read_marks_only (Scenario.settledDb swapRequestSchema.completed) Scenario.R
              (Scenario.request swapRequestSchema.points swapRequestSchema.completed
                 None (Some 20))
              Scenario.Z3 9 eq_refl eq_refl eq_refl) as [_ Hno].
  split; [| apply Hno; discriminate].
  destruct (Hyes (or_introl eq_refl)) as (r' & Hrun & Hread & Hat & Hs & _).
  exists r'. split_and!; [| exact Hread | exact Hat | exact Hs].
  etrans; [exact (f_equal (fun o => swaps o.1 !! Scenario.R) Hrun) |].
  cbn [fst swaps set_swaps]. apply lookup_insert_eq.
Defined.

(** The complete handler on an accepted request whose parties and items
    are stored. *)
Lemma put_complete_run db id r user now ru ou it :
  swaps db !! id = Some r ->
  swapRequestSchema.status r = swapRequestSchema.accepted ->
  user = swapRequestSchema.requester r \/ user = swapRequestSchema.itemOwner r ->
  swapRequestSchema.validate r = [] -> swapRequestSchema.preSave r = None ->
  users db !! swapRequestSchema.requester r = Some ru -> 0 <= userSchema.points ru ->
  users db !! swapRequestSchema.itemOwner r = Some ou -> 0 <= userSchema.points ou ->
  items db !! swapRequestSchema.item r = Some it -> itemSchema.validate it = [] ->
  (forall j, swapRequestSchema.offeredItem r = Some j ->
     exists itj, items db !! j = Some itj /\ itemSchema.validate itj = []) ->
  let out := swaps.put_complete user id now db in
  out.2 = ok_with 200 "Swap completed successfully" /\
  swaps out.1
  = <[id := SwapRequest.set_completedAt (Some now)
              (SwapRequest.set_status swapRequestSchema.completed r)]> (swaps db) /\
  users out.1
  = <[swapRequestSchema.itemOwner r := swapCounted ou]>
      (<[swapRequestSchema.requester r := swapCounted ru]> (users db)) /\
  userSchema.points (swapCounted ru) = userSchema.points ru /\
  userSchema.points (swapCounted ou) = userSchema.points ou /\
  itemStatus out.1 (swapRequestSchema.item r) = Some itemSchema.swapped /\
  (forall j, swapRequestSchema.offeredItem r = Some j ->
     itemStatus out.1 j = Some itemSchema.swapped) /\
  (forall k, k <> swapRequestSchema.item r -> swapRequestSchema.offeredItem r <> Some k ->
     items out.1 !! k = items db !! k).
Proof.
  intros Hr Hacc Hparty Hv Hpre Hru Hru0 Hou Hou0 Hit Hitv Hoi. cbv zeta.
  assert (Hne : swapRequestSchema.requester r <> swapRequestSchema.itemOwner r).
  { unfold swapRequestSchema.preSave in Hpre. destruct (_ && _); [done |].
    by case_bool_decide. }
  assert (Hguard :
    negb (bool_decide (swapRequestSchema.requester r = user)) &&
    negb (bool_decide (swapRequestSchema.itemOwner r = user)) = false).
  { destruct Hparty as [-> | ->].
    - by rewrite (bool_decide_eq_true_2
                    (swapRequestSchema.requester r = swapRequestSchema.requester r)).
    - rewrite (bool_decide_eq_true_2
                 (swapRequestSchema.itemOwner r = swapRequestSchema.itemOwner r))
        by done.
      by rewrite andb_false_r. }
  assert (Hsave : forall db1,
    swaps db1 = swaps db ->
    SwapRequest.save id
      (SwapRequest.set_completedAt (Some now)
         (SwapRequest.set_status swapRequestSchema.completed r)) db1
    = (set_swaps
         (<[id := SwapRequest.set_completedAt (Some now)
                    (SwapRequest.set_status swapRequestSchema.completed r)]> (swaps db))
         db1,
       inr (SwapRequest.set_completedAt (Some now)
              (SwapRequest.set_status swapRequestSchema.completed r)))).
  { intros db1 Hsw. rewrite save_run_request; [by rewrite Hsw | | exact Hpre].
    apply validate_nil in Hv. apply validate_nil. cbn -[maxlength]. tauto. }
  remember (swaps.put_complete user id now db) as out eqn:Hout.
  unfold swaps.put_complete, tryCatch in Hout.
  unfold bind at 1 in Hout. unfold SwapRequest.findById at 1 in Hout.
  rewrite Hr, Hguard, (bool_decide_eq_true_2 _ Hacc) in Hout. cbn [negb] in Hout.
  unfold bind at 1 in Hout. unfold SwapRequest.complete in Hout. cbv zeta in Hout.
  cbn [swapRequestSchema.requester swapRequestSchema.itemOwner swapRequestSchema.item
       swapRequestSchema.offeredItem SwapRequest.set_completedAt
       SwapRequest.set_status] in Hout.
  unfold bind at 1 in Hout. unfold User.findById at 1 in Hout.
  unfold bind at 1 in Hout. unfold User.findById at 1 in Hout.
  rewrite Hru, Hou in Hout.
  unfold bind at 1 in Hout. cbn [deref ret] in Hout.
  unfold bind at 1 in Hout.
  rewrite (incrementSwapsCompleted_run _ _ _ Hru Hru0) in Hout.
  unfold bind at 1 in Hout. cbn [deref ret] in Hout.
  unfold bind at 1 in Hout.
  rewrite incrementSwapsCompleted_run in Hout;
    [| cbn; by rewrite lookup_insert_ne | done].
  unfold bind at 1 in Hout. unfold Item.findById at 1 in Hout.
  cbn [items set_users] in Hout. rewrite Hit in Hout.
  unfold bind at 1 in Hout. cbn [deref ret] in Hout.
  unfold bind at 1 in Hout.
  rewrite (markAsSwapped_run _ _ _ it) in Hout; [| exact Hit | exact Hitv].
  cbn [items users swaps set_users set_items] in Hout.
  destruct (swapRequestSchema.offeredItem r) as [j |] eqn:Hj.
  - destruct (Hoi j eq_refl) as (itj & Hitj & Hitjv).
    unfold bind at 1 in Hout. unfold bind at 1 in Hout.
    unfold Item.findById at 1 in Hout.
    cbn [items set_items] in Hout.
    assert (Hlook : exists itj',
              <[swapRequestSchema.item r := itemSchema.set_status itemSchema.swapped it]>
                (items db) !! j = Some itj' /\ itemSchema.validate itj' = []).
    { destruct (decide (j = swapRequestSchema.item r)) as [-> | Hnj].
      - rewrite lookup_insert_eq. eauto.
      - rewrite lookup_insert_ne by done. eauto. }
    destruct Hlook as (itj' & Hlook & Hitjv'). rewrite Hlook in Hout.
    unfold bind at 1 in Hout. cbn [deref ret] in Hout.
    unfold bind at 1 in Hout.
    rewrite (markAsSwapped_run _ _ _ itj') in Hout; [| exact Hlook | exact Hitjv'].
    cbn [ret] in Hout. rewrite Hsave in Hout by done.
    cbn [respond ret] in Hout. subst out. cbn [fst snd].
    unfold itemStatus.
    cbn [users items swaps set_users set_items set_swaps]. split_and!; try done.
    + destruct (decide (j = swapRequestSchema.item r)) as [-> | Hnj].
      * by rewrite lookup_insert_eq.
      * rewrite lookup_insert_ne by done. by rewrite lookup_insert_eq.
    + intros j' [= <-]. by rewrite lookup_insert_eq.
    + intros k Hk Hk'. rewrite lookup_insert_ne by congruence.
      by rewrite lookup_insert_ne.
  - unfold bind at 1 in Hout. cbn [ret] in Hout. rewrite Hsave in Hout by done.
    cbn [respond ret] in Hout. subst out. cbn [fst snd].
    unfold itemStatus.
    cbn [users items swaps set_users set_items set_swaps]. split_and!; try done.
    + by rewrite lookup_insert_eq.
    + intros k Hk _. by rewrite lookup_insert_ne.
Qed.

(** X11. Completing an accepted swap. A stored accepted request that
    passes the schema and the hook, completed by its requester or its item
    owner while both users, the item and the offered item (if any) are in
    the store and pass their schemas: the handler succeeds; the request is
    replaced by one with status completed and [completedAt] the time of
    the call, every other field as it was; both users are replaced by
    users whose [swapsCompleted] is one higher, their balance and their
    other counters as they were, and no other user is touched; the item
    and the offered item are stored as swapped, whatever their status
    was. *)
Theorem complete_accepted_swap (db : Db) (id : ObjectId) (r : swapRequestSchema.t)
    (user : ObjectId) (now : Z) (ru ou : userSchema.t) (it : itemSchema.t) :
  swaps db !! id = Some r ->
  swapRequestSchema.status r = swapRequestSchema.accepted ->
  user = swapRequestSchema.requester r \/ user = swapRequestSchema.itemOwner r ->
  swapRequestSchema.validate r = [] -> swapRequestSchema.preSave r = None ->
  users db !! swapRequestSchema.requester r = Some ru -> 0 <= userSchema.points ru ->
  users db !! swapRequestSchema.itemOwner r = Some ou -> 0 <= userSchema.points ou ->
  items db !! swapRequestSchema.item r = Some it -> itemSchema.validate it = [] ->
  (forall j, swapRequestSchema.offeredItem r = Some j ->
     exists itj, items db !! j = Some itj /\ itemSchema.validate itj = []) ->
  let out := swaps.put_complete user id now db in
  out.2 = ok_with 200 "Swap completed successfully" /\
  (exists r',
     swaps out.1 = <[id := r']> (swaps db) /\
     swapRequestSchema.status r' = swapRequestSchema.completed /\
     swapRequestSchema.completedAt r' = Some now /\
     sameExchange r r' /\
     swapRequestSchema.message r' = swapRequestSchema.message r /\
     swapRequestSchema.responseMessage r' = swapRequestSchema.responseMessage r /\
     swapRequestSchema.cancelledBy r' = swapRequestSchema.cancelledBy r /\
     swapRequestSchema.cancelledReason r' = swapRequestSchema.cancelledReason r /\
     swapRequestSchema.pointsTransferred r' = swapRequestSchema.pointsTransferred r /\
     swapRequestSchema.transferAmount r' = swapRequestSchema.transferAmount r /\
     swapRequestSchema.isRead r' = swapRequestSchema.isRead r /\
     swapRequestSchema.readAt r' = swapRequestSchema.readAt r) /\
  (exists ru' ou',
     users out.1
     = <[swapRequestSchema.itemOwner r := ou']>
         (<[swapRequestSchema.requester r := ru']> (users db)) /\
     countedOnce ru ru' /\ countedOnce ou ou') /\
  itemStatus out.1 (swapRequestSchema.item r) = Some itemSchema.swapped /\
  (forall j, swapRequestSchema.offeredItem r = Some j ->
     itemStatus out.1 j = Some itemSchema.swapped) /\
  (forall k, k <> swapRequestSchema.item r -> swapRequestSchema.offeredItem r <> Some k ->
     items out.1 !! k = items db !! k).
Proof.
  intros Hr Hacc Hparty Hv Hpre Hru Hru0 Hou Hou0 Hit Hitv Hoi.
  destruct (put_complete_run db id r user now ru ou it
              Hr Hacc Hparty Hv Hpre Hru Hru0 Hou Hou0 Hit Hitv Hoi)
    as (Hok & Hsw & Hus & _ & _ & Hi & Hj & Hk).
  cbv zeta. split_and!; [exact Hok | | | exact Hi | exact Hj | exact Hk].
  - eexists. split; [exact Hsw |]. unfold sameExchange. cbn. split_and!; done.
  - exists (swapCounted ru), (swapCounted ou). split; [exact Hus |].
    unfold countedOnce. cbn. split_and!; done.
Qed.

Lemma complete_accepted_swap_witness :
  let db1 := (swaps.put_accept Scenario.Y Scenario.R None (Scenario.pointsDb 50 7)).1 in
  let out := swaps.put_complete Scenario.X Scenario.R 5 db1 in
  out.2 = ok_with 200 "Swap completed successfully" /\
  itemStatus out.1 Scenario.I = Some itemSchema.swapped /\
  (exists r', swaps out.1 !! Scenario.R = Some r' /\
              swapRequestSchema.status r' = swapRequestSchema.completed /\
              swapRequestSchema.completedAt r' = Some 5) /\
  (exists ru', users out.1 !! Scenario.X = Some ru' /\
               userSchema.swapsCompleted (userSchema.stats ru') = 1 /\
               userSchema.points ru' = 30).
Proof.
  cbv zeta.
  destruct (complete_accepted_swap
              (swaps.put_accept Scenario.Y Scenario.R None (Scenario.pointsDb 50 7)).1
              Scenario.R
              (acceptedPaid None 20
                 (Scenario.request swapRequestSchema.points swapRequestSchema.pending
                    None (Some 20)))
              Scenario.X 5
              (debited 20 (Scenario.user 50))
              (credited 20 (credited 20 (Scenario.user 7)))
              (Scenario.itemI itemSchema.swapped))
    as (Hok & (r' & Hsw & Hs & Hat & _) & (ru' & ou' & Hus & Hcx & _) & Hi & _);
    [vm_compute; reflexivity | reflexivity | by left | reflexivity | reflexivity
    | vm_compute; reflexivity | cbn; lia | vm_compute; reflexivity | cbn; lia
    | vm_compute; reflexivity | reflexivity | discriminate |].
  split_and!; [exact Hok | exact Hi | |].
  - exists r'. split_and!; [| exact Hs | exact Hat].
    etrans; [exact (f_equal (fun m => m !! Scenario.R) Hsw) |].
    apply lookup_insert_eq.
  - exists ru'. destruct Hcx as (Hc & Hp & _). split_and!; [| exact Hc | exact Hp].
    etrans; [exact (f_equal (fun m => m !! Scenario.X) Hus) |].
    etrans; [apply lookup_insert_ne; discriminate |]. apply lookup_insert_eq.
Defined.

(** ** Creating a request *)














(** ** A settlement cut short *)



(** ** The points handlers *)

(** *** The text of a number followed by digits *)

Lemma digit_char x : (x < 10)%N -> digit (pretty_N_char x) = Some (Z.of_N x).
Proof.
  intros Hx.
  assert (x = 0 \/ x = 1 \/ x = 2 \/ x = 3 \/ x = 4 \/ x = 5 \/ x = 6 \/ x = 7
          \/ x = 8 \/ x = 9)%N as Hc by lia.
  destruct Hc as [-> | [-> | [-> | [-> | [-> | [-> | [-> | [-> | [-> | ->]]]]]]]]];
    reflexivity.
Qed.

Lemma digits_pretty_N_go x s : digits 0 (pretty_N_go x s) = digits (Z.of_N x) s.
Proof.
  revert s. induction (N.lt_wf_0 x) as [x _ IH]. intros s.
  destruct (decide (x = 0)%N) as [-> | Hx].
  - by rewrite pretty_N_go_0.
  - rewrite pretty_N_go_step by lia.
    rewrite IH by (apply N.div_lt; lia).
    cbn [digits]. rewrite digit_char by (apply N.mod_lt; lia).
    f_equal. pose proof (N.div_mod x 10 ltac:(lia)). lia.
Qed.

Lemma pretty_N_go_app x s1 s2 :
  pretty_N_go x s1 +:+ s2 = pretty_N_go x (s1 +:+ s2).
Proof.
  revert s1. induction (N.lt_wf_0 x) as [x _ IH]. intros s1.
  destruct (decide (x = 0)%N) as [-> | Hx].
  - by rewrite !pretty_N_go_0.
  - rewrite (pretty_N_go_step x s1), (pretty_N_go_step x (s1 +:+ s2)) by lia.
    by rewrite IH by (apply N.div_lt; lia).
Qed.

Lemma pretty_N_go_head x s :
  x <> 0%N \/ (exists c t d, s = String c t /\ digit c = Some d) ->
  exists c t d, pretty_N_go x s = String c t /\ digit c = Some d.
Proof.
  revert s. induction (N.lt_wf_0 x) as [x _ IH]. intros s Hs.
  destruct (decide (x = 0)%N) as [-> | Hx].
  - rewrite pretty_N_go_0. by destruct Hs.
  - rewrite pretty_N_go_step by lia. apply IH; [apply N.div_lt; lia |].
    right. eexists _, _, _. split; [reflexivity |].
    apply digit_char. apply N.mod_lt. lia.
Qed.

(** The numeral of a number that is not negative starts with a digit. *)
Lemma pretty_head (p : Z) :
  0 <= p -> exists c t d, pretty p = String c t /\ digit c = Some d.
Proof.
  intros Hp. destruct p as [| q |]; [| | lia].
  - by exists "0"%char, EmptyString, 0.
  - unfold pretty, pretty_Z, pretty, pretty_positive, pretty, pretty_N.
    rewrite decide_False by done. apply pretty_N_go_head. by left.
Qed.

Lemma digits_pretty (p : Z) s :
  0 <= p -> digits 0 (pretty p +:+ s) = digits p s.
Proof.
  intros Hp. destruct p as [| q |]; [| | lia].
  - reflexivity.
  - unfold pretty, pretty_Z, pretty, pretty_positive, pretty, pretty_N.
    rewrite decide_False by done.
    rewrite pretty_N_go_app. cbn [String.app].
    by rewrite digits_pretty_N_go.
Qed.

Lemma digits_nonneg s : forall acc v, 0 <= acc -> digits acc s = Some v -> 0 <= v.
Proof.
  induction s as [| c s IH]; intros acc v Hacc Hd; cbn in Hd.
  - by injection Hd as <-.
  - unfold digit in Hd. cbv zeta in Hd.
    destruct ((48 <=? Z.of_N (N_of_ascii c)) && (Z.of_N (N_of_ascii c) <=? 57)) eqn:Hc;
      [| done].
    apply andb_prop in Hc as [Hlo _]. apply IH in Hd; [done | lia].
Qed.

Lemma digits_from s : forall acc a,
  digits (acc + a) s
  = (fun v => acc * 10 ^ Z.of_nat (String.length s) + v) <$> digits a s.
Proof.
  induction s as [| c s IH]; intros acc a; cbn.
  - f_equal. lia.
  - destruct (digit c) as [d |]; [| done].
    replace (10 * (acc + a) + d) with (10 * acc + (10 * a + d)) by lia.
    rewrite IH. destruct (digits (10 * a + d) s); [| done]. cbn. f_equal.
    rewrite Nat2Z.inj_succ, Z.pow_succ_r by lia. lia.
Qed.

Lemma intText_head c t d :
  digit c = Some d -> intText (String c t) = digits 0 (String c t).
Proof.
  intros Hc. unfold intText.
  rewrite !bool_decide_eq_false_2; [done | |]; intros ->; discriminate Hc.
Qed.

Lemma intText_plus s : intText (String "+" s) = numeral s.
Proof. reflexivity. Qed.

Lemma intText_numeral s v : numeral s = Some v -> intText s = Some v.
Proof.
  destruct s as [| c t]; [done |]. intros Hn.
  change (digits 0 (String c t) = Some v) in Hn.
  destruct (digit c) as [d |] eqn:Hc; [| cbn in Hn; by rewrite Hc in Hn].
  by rewrite (intText_head c t d Hc).
Qed.

Lemma numeral_digits s v : numeral s = Some v -> digits 0 s = Some v /\ 0 <= v.
Proof.
  destruct s as [| c t]; [done |]. intros Hn.
  change (digits 0 (String c t) = Some v) in Hn.
  split; [exact Hn | by apply (digits_nonneg _ _ _ (Z.le_refl 0) Hn)].
Qed.

(** What the cast makes of the text of a number followed by [s]: the
    digits of [s] are appended to those of the number, and the cast fails
    when [s] holds anything but digits. *)
Lemma castNumber_append (p : Z) s :
  0 <= p -> castNumber (pretty p +:+ s) = (fun v => followedBy s v p) <$> digits 0 s.
Proof.
  intros Hp. destruct (pretty_head p Hp) as (c & t & d & Hpt & Hc).
  unfold castNumber, followedBy.
  pose proof (digits_from s p 0) as Hs. rewrite Z.add_0_r in Hs. rewrite <- Hs.
  rewrite <- (digits_pretty p s Hp), Hpt. cbn [String.app].
  by apply (intText_head c _ d).
Qed.

Lemma followedBy_ge s v n : 0 <= n -> 0 <= v -> n <= followedBy s v n.
Proof.
  intros Hn Hv. unfold followedBy.
  assert (1 <= 10 ^ Z.of_nat (String.length s)) by (apply Z.pow_le_mono_r with (b := 0); lia).
  nia.
Qed.

Lemma followedBy_value s v n : 0 <= n -> v <= followedBy s v n.
Proof.
  intros Hn. unfold followedBy.
  assert (0 <= 10 ^ Z.of_nat (String.length s)) by (apply Z.pow_nonneg; lia).
  nia.
Qed.

(** *** The handlers *)

Lemma addPoints_text_run db this u s v :
  users db !! this = Some u ->
  0 <= userSchema.points u ->
  0 <= userSchema.totalPointsEarned (userSchema.stats u) ->
  digits 0 s = Some v ->
  User.addPoints_text this u s db
  = (set_users
       (<[this := userSchema.set_totalPointsEarned
                    (followedBy s v (userSchema.totalPointsEarned (userSchema.stats u)))
                    (userSchema.set_points (followedBy s v (userSchema.points u)) u)]>
          (users db)) db,
     inr (userSchema.set_totalPointsEarned
            (followedBy s v (userSchema.totalPointsEarned (userSchema.stats u)))
            (userSchema.set_points (followedBy s v (userSchema.points u)) u))).
Proof.
  intros Hu Hp He Hd. unfold User.addPoints_text. cbv zeta.
  rewrite !castNumber_append by done. rewrite Hd. cbn [fmap option_fmap option_map].
  apply save_run; [done |]. cbn.
  pose proof (digits_nonneg _ _ _ (Z.le_refl 0) Hd).
  pose proof (followedBy_ge s v (userSchema.points u)). lia.
Qed.

Lemma addPoints_text_fail db this u s :
  0 <= userSchema.points u ->
  0 <= userSchema.totalPointsEarned (userSchema.stats u) ->
  digits 0 s = None ->
  exists msgs, User.addPoints_text this u s db = (db, inl (ValidationError msgs)).
Proof.
  intros Hp He Hd. unfold User.addPoints_text. cbv zeta.
  rewrite !castNumber_append by done. rewrite Hd. cbn [fmap option_fmap option_map].
  eexists. reflexivity.
Qed.

(** Past the validators and the lookup of the user, each handler is one
    call of the model. *)
Lemma points_add_step db body u :
  users db !! users.userId body = Some u -> users.validBody body = true ->
  users.post_points_add body db
  = tryCatch "Failed to add points"
      (let* _ := User.addPoints_any (users.userId body) u (users.points body) in
       respond (ok_with 200
                  ("Added " +:+ text (users.points body) +:+ " points to user"))) db.
Proof.
  intros Hu Hvb. unfold users.post_points_add, tryCatch. rewrite Hvb. cbn [negb].
  unfold bind at 1. unfold User.findById at 1. by rewrite Hu.
Qed.

Lemma points_deduct_step db body u :
  users db !! users.userId body = Some u -> users.validBody body = true ->
  users.post_points_deduct body db
  = tryCatch "Failed to deduct points"
      (let* _ := User.spendPoints_any (users.userId body) u (users.points body) in
       respond (ok_with 200
                  ("Deducted " +:+ text (users.points body) +:+ " points from user"))) db.
Proof.
  intros Hu Hvb. unfold users.post_points_deduct, tryCatch. rewrite Hvb. cbn [negb].
  unfold bind at 1. unfold User.findById at 1. by rewrite Hu.
Qed.

(** The add handler on a stored user. *)
Lemma points_add_run db body u :
  users db !! users.userId body = Some u ->
  0 <= userSchema.points u ->
  0 <= userSchema.totalPointsEarned (userSchema.stats u) ->
  (users.validBody body = false /\
   users.post_points_add body db = (db, fail_with 400 "Validation errors")) \/
  (users.validBody body = true /\
   ((exists n, users.points body = Num n /\ 1 <= n /\
       users.post_points_add body db
       = (set_users (<[users.userId body := credited n u]> (users db)) db,
          ok_with 200 ("Added " +:+ pretty n +:+ " points to user"))) \/
    (exists s v, users.points body = Str s /\ digits 0 s = Some v /\ 0 <= v /\
       users.post_points_add body db
       = (set_users
            (<[users.userId body :=
                 userSchema.set_totalPointsEarned
                   (followedBy s v (userSchema.totalPointsEarned (userSchema.stats u)))
                   (userSchema.set_points (followedBy s v (userSchema.points u)) u)]>
               (users db)) db,
          ok_with 200 ("Added " +:+ s +:+ " points to user"))) \/
    (exists s msgs, users.points body = Str s /\ digits 0 s = None /\
       users.post_points_add body db
       = (db, {| code := 500; success := false; message := "Failed to add points";
                 error := Some (ValidationError msgs) |})))).
Proof.
  intros Hu Hp He.
  destruct (users.validBody body) eqn:Hvb; [right | left].
  2: { split; [done |]. unfold users.post_points_add, tryCatch. by rewrite Hvb. }
  split; [done |]. rewrite (points_add_step db body u Hu Hvb). unfold tryCatch.
  unfold users.validBody in Hvb. apply andb_prop in Hvb as [Hint _].
  destruct (users.points body) as [n | s] eqn:Hamount; cbn [User.addPoints_any text].
  - left. exists n. cbn in Hint. apply andb_prop in Hint as [Hn _].
    apply Z.leb_le in Hn. split_and!; [done | done |].
    unfold bind at 1. by rewrite (addPoints_run _ _ _ _ Hu) by lia.
  - right. destruct (digits 0 s) as [v |] eqn:Hd.
    + left. exists s, v. split_and!; [done | done | |].
      * by apply (digits_nonneg _ _ _ (Z.le_refl 0) Hd).
      * unfold bind at 1. by rewrite (addPoints_text_run _ _ _ _ _ Hu Hp He Hd).
    + right. destruct (addPoints_text_fail db (users.userId body) u s Hp He Hd)
        as [msgs Hfail].
      exists s, msgs. split_and!; [done | done |].
      unfold bind at 1. by rewrite Hfail.
Qed.

Lemma isInt_number n : 1 <= n -> n < 10 ^ 21 -> users.isInt_min1 (Num n) = true.
Proof.
  intros H1 H2. cbn [users.isInt_min1].
  apply andb_true_intro. split; [by apply Z.leb_le | by apply Z.ltb_lt].
Qed.

Lemma isInt_numeral s v : numeral s = Some v -> 1 <= v -> users.isInt_min1 (Str s) = true.
Proof.
  intros Hs Hv. cbn [users.isInt_min1]. rewrite (intText_numeral _ _ Hs).
  by apply Z.leb_le.
Qed.

Lemma safeInteger_below n : safeInteger n -> n < 10 ^ 21.
Proof. unfold safeInteger. change (10 ^ 21) with 1000000000000000000000. lia. Qed.

(** X16. The add handler, by the shape of the amount in the body. For a
    stored user whose balance and [totalPointsEarned] are 0 or more and a
    reason of at most 200 characters:
    - with a JSON number of 1 or more the handler succeeds and stores the
      balance plus the amount and [totalPointsEarned] plus the amount
      (the sums being safe integers);
    - with a JSON string of digits the string is not added but appended:
      the balance stored is the number spelled by the digits of the old
      balance followed by the string, and so is [totalPointsEarned] (10
      points and the string 5 give 105);
    - with a JSON string of digits after a plus sign, which the validator
      lets through, the handler answers 500 and writes nothing;
    - with an amount that the validator refuses it answers 400 and writes
      nothing; a number of 1e21 or more is refused;
    - with any body whatever the user is stored afterwards with a balance
      not below the one before, and no other user, no item and no request
      is touched. *)
Theorem points_add_raises (db : Db) (body : users.PointsBody) (u : userSchema.t) :
  users db !! users.userId body = Some u ->
  0 <= userSchema.points u ->
  0 <= userSchema.totalPointsEarned (userSchema.stats u) ->
  maxlength 200 (users.reason body) = true ->
  let out := users.post_points_add body db in
  (forall n, users.points body = Num n -> 1 <= n ->
     safeInteger (userSchema.points u + n) ->
     safeInteger (userSchema.totalPointsEarned (userSchema.stats u) + n) ->
     exists u',
       out = (set_users (<[users.userId body := u']> (users db)) db,
              ok_with 200 ("Added " +:+ pretty n +:+ " points to user")) /\
       userSchema.points u' = userSchema.points u + n /\
       userSchema.totalPointsEarned (userSchema.stats u')
       = userSchema.totalPointsEarned (userSchema.stats u) + n /\
       userSchema.totalPointsSpent (userSchema.stats u')
       = userSchema.totalPointsSpent (userSchema.stats u) /\
       sameActivity u u') /\
  (forall s v, users.points body = Str s -> numeral s = Some v -> 1 <= v ->
     safeInteger (followedBy s v (userSchema.points u)) ->
     safeInteger (followedBy s v (userSchema.totalPointsEarned (userSchema.stats u))) ->
     exists u',
       out = (set_users (<[users.userId body := u']> (users db)) db,
              ok_with 200 ("Added " +:+ s +:+ " points to user")) /\
       userSchema.points u' = followedBy s v (userSchema.points u) /\
       userSchema.totalPointsEarned (userSchema.stats u')
       = followedBy s v (userSchema.totalPointsEarned (userSchema.stats u)) /\
       userSchema.totalPointsSpent (userSchema.stats u')
       = userSchema.totalPointsSpent (userSchema.stats u) /\
       sameActivity u u') /\
  (forall s' v, users.points body = Str (String "+" s') -> numeral s' = Some v -> 1 <= v ->
     exists msgs,
       out = (db, {| code := 500; success := false; message := "Failed to add points";
                     error := Some (ValidationError msgs) |})) /\
  (users.isInt_min1 (users.points body) = false ->
     out = (db, fail_with 400 "Validation errors")) /\
  (forall n, users.points body = Num n -> n < 1 \/ 10 ^ 21 <= n ->
     out = (db, fail_with 400 "Validation errors")) /\
  (exists u', users out.1 !! users.userId body = Some u' /\
              userSchema.points u <= userSchema.points u') /\
  (forall w, w <> users.userId body -> users out.1 !! w = users db !! w) /\
  items out.1 = items db /\ swaps out.1 = swaps db.
Proof.
  intros Hu Hp He Hreason. cbv zeta.
  assert (Hvalid : users.validBody body = users.isInt_min1 (users.points body)).
  { unfold users.validBody. by rewrite Hreason, andb_true_r. }
  assert (H400 : users.isInt_min1 (users.points body) = false ->
            users.post_points_add body db = (db, fail_with 400 "Validation errors")).
  { intros Hint. unfold users.post_points_add, tryCatch. by rewrite Hvalid, Hint. }
  destruct (points_add_run db body u Hu Hp He)
    as [[Hvb Hrun] | [Hvb [(n & Hn & Hn1 & Hrun) | [(s & v & Hs & Hd & Hv & Hrun)
                                                  | (s & msgs & Hs & Hd & Hrun)]]]];
    rewrite Hvalid in Hvb; rewrite Hrun; cbn [fst snd users items swaps set_users].
  - (* refused *)
    split_and!.
    + intros n Hn Hn1 Hs1 _. rewrite Hn, isInt_number in Hvb;
        [done | done | apply safeInteger_below in Hs1; lia].
    + intros s v Hs Hnum Hv _ _. by rewrite Hs, (isInt_numeral _ _ Hnum Hv) in Hvb.
    + intros s' v Hs Hnum Hv. rewrite Hs in Hvb. cbn [users.isInt_min1] in Hvb.
      rewrite intText_plus, Hnum in Hvb. apply Z.leb_gt in Hvb. lia.
    + done.
    + done.
    + by exists u.
    + done.
    + done.
    + done.
  - (* a number *)
    rewrite Hn in Hvb |- *. split_and!.
    + intros n' [= <-] _ _ _. eexists. split; [reflexivity |]. by cbn.
    + intros s v [=].
    + intros s' v [=].
    + intros Hint. congruence.
    + intros n' [= <-] Hbad. cbn in Hvb.
      apply andb_prop in Hvb as [_ Hlt]. apply Z.ltb_lt in Hlt. lia.
    + eexists. rewrite lookup_insert_eq. split; [reflexivity | cbn; lia].
    + intros w Hw. by rewrite lookup_insert_ne.
    + done.
    + done.
  - (* a string of digits *)
    rewrite Hs in Hvb |- *. split_and!.
    + intros n' [=].
    + intros s0 v0 [= <-] Hnum _ _ _.
      destruct (numeral_digits _ _ Hnum) as [Hd' _].
      rewrite Hd in Hd'. injection Hd' as <-.
      eexists. split; [reflexivity |]. by cbn.
    + intros s' v' [= ->]. discriminate Hd.
    + intros Hint. congruence.
    + intros n' [=].
    + eexists. rewrite lookup_insert_eq.
      split; [reflexivity |]. cbn. by apply followedBy_ge.
    + intros w Hw. by rewrite lookup_insert_ne.
    + done.
    + done.
  - (* a string that the cast refuses *)
    rewrite Hs in Hvb |- *. split_and!.
    + intros n' [=].
    + intros s0 v0 [= <-] Hnum _ _ _.
      destruct (numeral_digits _ _ Hnum) as [Hd' _]. congruence.
    + intros s' v' _ _ _. by exists msgs.
    + intros Hint. congruence.
    + intros n' [=].
    + by exists u.
    + done.
    + done.
    + done.
Qed.

Lemma points_add_raises_witness :
  let number := {| users.userId := Scenario.X; users.points := Num 5;
                   users.reason := None |} in
  let digits5 := {| users.userId := Scenario.X; users.points := Str "5";
                    users.reason := None |} in
  let plus5 := {| users.userId := Scenario.X; users.points := Str "+5";
                  users.reason := None |} in
  balance (users.post_points_add number (Scenario.pointsDb 10 7)).1 Scenario.X = Some 15 /\
  balance (users.post_points_add digits5 (Scenario.pointsDb 10 7)).1 Scenario.X
  = Some 105 /\
  code (users.post_points_add plus5 (Scenario.pointsDb 10 7)).2 = 500 /\
  (users.post_points_add plus5 (Scenario.pointsDb 10 7)).1 = Scenario.pointsDb 10 7.
Proof.
  cbv zeta.
  destruct (points_add_raises (Scenario.pointsDb 10 7)
              {| users.userId := Scenario.X; users.points := Num 5;
                 users.reason := None |}
              (Scenario.user 10) eq_refl ltac:(cbn; lia) ltac:(cbn; lia) eq_refl)
    as (Hnum & _).
  destruct (points_add_raises (Scenario.pointsDb 10 7)
              {| users.userId := Scenario.X; users.points := Str "5";
                 users.reason := None |}
              (Scenario.user 10) eq_refl ltac:(cbn; lia) ltac:(cbn; lia) eq_refl)
    as (_ & Hstr & _).
  destruct (points_add_raises (Scenario.pointsDb 10 7)
              {| users.userId := Scenario.X; users.points := Str "+5";
                 users.reason := None |}
              (Scenario.user 10) eq_refl ltac:(cbn; lia) ltac:(cbn; lia) eq_refl)
    as (_ & _ & Hplus & _).
  destruct (Hnum 5 eq_refl ltac:(lia) ltac:(unfold safeInteger; cbn; lia)
              ltac:(unfold safeInteger; cbn; lia)) as (u1 & Hrun1 & Hp1 & _).
  destruct (Hstr "5"%string 5 eq_refl eq_refl ltac:(lia)
              ltac:(unfold safeInteger; vm_compute; split; reflexivity)
              ltac:(unfold safeInteger; vm_compute; split; reflexivity))
    as (u2 & Hrun2 & Hp2 & _).
  destruct (Hplus "5"%string 5 eq_refl eq_refl ltac:(lia)) as (msgs & Hrun3).
  split_and!.
  - etrans; [exact (f_equal (fun o => balance o.1 Scenario.X) Hrun1) |].
    unfold balance. cbn [fst users set_users].
    etrans; [exact (f_equal (fmap userSchema.points) (lookup_insert_eq _ _ _)) |].
    exact (f_equal Some Hp1).
  - etrans; [exact (f_equal (fun o => balance o.1 Scenario.X) Hrun2) |].
    unfold balance. cbn [fst users set_users].
    etrans; [exact (f_equal (fmap userSchema.points) (lookup_insert_eq _ _ _)) |].
    exact (f_equal Some Hp2).
  - exact (f_equal (fun o => code o.2) Hrun3).
  - exact (f_equal fst Hrun3).
Defined.

(** The deduct handler on a stored user and a body that passes the
    validators. *)
Lemma toNumber_intText s v : intText s = Some v -> toNumber s = Some v.
Proof. by destruct s. Qed.

Lemma points_deduct_insufficient db body u v :
  users db !! users.userId body = Some u -> users.validBody body = true ->
  amountValue (users.points body) = Some v -> userSchema.points u < v ->
  users.post_points_deduct body db
  = (db, {| code := 500; success := false; message := "Failed to deduct points";
            error := Some (Error "Insufficient points") |}).
Proof.
  intros Hu Hvb Hv Hlt. rewrite (points_deduct_step db body u Hu Hvb). unfold tryCatch.
  destruct (users.points body) as [n | s]; cbn [User.spendPoints_any amountValue] in *.
  - injection Hv as ->. unfold bind at 1. unfold User.spendPoints.
    by destruct (Z.ltb_spec (userSchema.points u) v); [| lia].
  - unfold bind at 1. unfold User.spendPoints_text. cbv zeta.
    rewrite (toNumber_intText _ _ Hv).
    by destruct (Z.ltb_spec (userSchema.points u) v); [| lia].
Qed.

Lemma points_deduct_number db body u n :
  users db !! users.userId body = Some u -> users.validBody body = true ->
  users.points body = Num n -> n <= userSchema.points u ->
  users.post_points_deduct body db
  = (set_users (<[users.userId body := debited n u]> (users db)) db,
     ok_with 200 ("Deducted " +:+ pretty n +:+ " points from user")).
Proof.
  intros Hu Hvb Hn Hle. rewrite (points_deduct_step db body u Hu Hvb). unfold tryCatch.
  rewrite Hn. cbn [User.spendPoints_any text].
  unfold bind at 1. by rewrite (spendPoints_run _ _ _ _ Hu Hle).
Qed.

Lemma points_deduct_digits db body u s v :
  users db !! users.userId body = Some u -> users.validBody body = true ->
  users.points body = Str s -> numeral s = Some v ->
  v <= userSchema.points u ->
  0 <= userSchema.totalPointsSpent (userSchema.stats u) ->
  users.post_points_deduct body db
  = (set_users
       (<[users.userId body :=
            userSchema.set_totalPointsSpent
              (followedBy s v (userSchema.totalPointsSpent (userSchema.stats u)))
              (userSchema.set_points (userSchema.points u - v) u)]> (users db)) db,
     ok_with 200 ("Deducted " +:+ s +:+ " points from user")).
Proof.
  intros Hu Hvb Hs Hnum Hle Hsp. rewrite (points_deduct_step db body u Hu Hvb).
  unfold tryCatch. rewrite Hs. cbn [User.spendPoints_any text].
  destruct (numeral_digits _ _ Hnum) as [Hd Hv].
  unfold bind at 1. unfold User.spendPoints_text. cbv zeta.
  rewrite (toNumber_intText _ _ (intText_numeral _ _ Hnum)).
  destruct (Z.ltb_spec (userSchema.points u) v); [lia |].
  cbn [userSchema.stats userSchema.set_points].
  rewrite castNumber_append by done. rewrite Hd. cbn [fmap option_fmap option_map].
  rewrite save_run; [reflexivity | done | cbn; lia].
Qed.

Lemma points_deduct_plus db body u s' v :
  users db !! users.userId body = Some u -> users.validBody body = true ->
  users.points body = Str (String "+" s') -> numeral s' = Some v ->
  v <= userSchema.points u ->
  0 <= userSchema.totalPointsSpent (userSchema.stats u) ->
  exists msgs,
    users.post_points_deduct body db
    = (db, {| code := 500; success := false; message := "Failed to deduct points";
              error := Some (ValidationError msgs) |}).
Proof.
  intros Hu Hvb Hs Hnum Hle Hsp. rewrite (points_deduct_step db body u Hu Hvb).
  unfold tryCatch. rewrite Hs. cbn [User.spendPoints_any text].
  unfold bind at 1. unfold User.spendPoints_text. cbv zeta.
  assert (toNumber (String "+" s') = Some v) as -> by (by rewrite <- Hnum).
  destruct (Z.ltb_spec (userSchema.points u) v); [lia |].
  cbn [userSchema.stats userSchema.set_points].
  rewrite castNumber_append by done.
  change (digits 0 (String "+" s')) with (@None Z). cbn [fmap option_fmap option_map].
  eexists. reflexivity.
Qed.

(** X17. The deduct handler, by the shape of the amount in the body. For
    a stored user whose balance is a safe integer and a body that passes
    the validators:
    - whenever the balance is below the number the amount stands for,
      the handler answers 500 reporting [Insufficient points] (kind
      [InsufficientFunds]) and writes nothing;
    - otherwise, with a JSON number, it succeeds and stores the balance
      less the amount, which is 0 or more, and [totalPointsSpent] plus the
      amount;
    - otherwise, with a JSON string of digits, it succeeds and stores the
      balance less the number the string spells, while the string is
      appended to the digits of [totalPointsSpent] instead of being added
      (a counter of 20 and the string 5 give 205);
    - otherwise, with a JSON string of digits after a plus sign, it
      answers 500 and writes nothing. *)
Theorem points_deduct_guarded (db : Db) (body : users.PointsBody) (u : userSchema.t) :
  users db !! users.userId body = Some u ->
  safeInteger (userSchema.points u) ->
  users.validBody body = true ->
  let out := users.post_points_deduct body db in
  (forall v, amountValue (users.points body) = Some v -> userSchema.points u < v ->
     out = (db, {| code := 500; success := false; message := "Failed to deduct points";
                   error := Some (Error "Insufficient points") |}) /\
     errorKind out.2 = Some InsufficientFunds) /\
  (forall n, users.points body = Num n -> n <= userSchema.points u ->
     safeInteger (userSchema.totalPointsSpent (userSchema.stats u) + n) ->
     exists u',
       out = (set_users (<[users.userId body := u']> (users db)) db,
              ok_with 200 ("Deducted " +:+ pretty n +:+ " points from user")) /\
       userSchema.points u' = userSchema.points u - n /\
       0 <= userSchema.points u' /\
       userSchema.totalPointsSpent (userSchema.stats u')
       = userSchema.totalPointsSpent (userSchema.stats u) + n /\
       userSchema.totalPointsEarned (userSchema.stats u')
       = userSchema.totalPointsEarned (userSchema.stats u) /\
       sameActivity u u') /\
  (forall s v, users.points body = Str s -> numeral s = Some v ->
     v <= userSchema.points u ->
     0 <= userSchema.totalPointsSpent (userSchema.stats u) ->
     safeInteger (followedBy s v (userSchema.totalPointsSpent (userSchema.stats u))) ->
     exists u',
       out = (set_users (<[users.userId body := u']> (users db)) db,
              ok_with 200 ("Deducted " +:+ s +:+ " points from user")) /\
       userSchema.points u' = userSchema.points u - v /\
       0 <= userSchema.points u' /\
       userSchema.totalPointsSpent (userSchema.stats u')
       = followedBy s v (userSchema.totalPointsSpent (userSchema.stats u)) /\
       userSchema.totalPointsEarned (userSchema.stats u')
       = userSchema.totalPointsEarned (userSchema.stats u) /\
       sameActivity u u') /\
  (forall s' v, users.points body = Str (String "+" s') -> numeral s' = Some v ->
     v <= userSchema.points u ->
     0 <= userSchema.totalPointsSpent (userSchema.stats u) ->
     exists msgs,
       out = (db, {| code := 500; success := false; message := "Failed to deduct points";
                     error := Some (ValidationError msgs) |})).
Proof.
  intros Hu _ Hvb. cbv zeta. split_and!.
  - intros v Hv Hlt. by rewrite (points_deduct_insufficient db body u v Hu Hvb Hv Hlt).
  - intros n Hn Hle _. rewrite (points_deduct_number db body u n Hu Hvb Hn Hle).
    eexists. split; [reflexivity |]. cbn. split_and!; (done || lia).
  - intros s v Hs Hnum Hle Hsp _.
    rewrite (points_deduct_digits db body u s v Hu Hvb Hs Hnum Hle Hsp).
    eexists. split; [reflexivity |]. cbn. split_and!; (done || lia).
  - intros s' v Hs Hnum Hle Hsp.
    exact (points_deduct_plus db body u s' v Hu Hvb Hs Hnum Hle Hsp).
Qed.

Lemma points_deduct_guarded_witness :
  let short := {| users.userId := Scenario.X; users.points := Num 60;
                  users.reason := None |} in
  let digits5 := {| users.userId := Scenario.X; users.points := Str "5";
                    users.reason := None |} in
  ((users.post_points_deduct short (Scenario.pointsDb 50 7)).1 = Scenario.pointsDb 50 7 /\
   errorKind (users.post_points_deduct short (Scenario.pointsDb 50 7)).2
   = Some InsufficientFunds) /\
  balance (users.post_points_deduct digits5 (Scenario.pointsDb 50 7)).1 Scenario.X
  = Some 45.
Proof.
  cbv zeta.
  destruct (points_deduct_guarded (Scenario.pointsDb 50 7)
              {| users.userId := Scenario.X; users.points := Num 60;
                 users.reason := None |}
              (Scenario.user 50) eq_refl ltac:(unfold safeInteger; cbn; lia) eq_refl)
    as [Hlow _].
  destruct (points_deduct_guarded (Scenario.pointsDb 50 7)
              {| users.userId := Scenario.X; users.points := Str "5";
                 users.reason := None |}
              (Scenario.user 50) eq_refl ltac:(unfold safeInteger; cbn; lia) eq_refl)
    as (_ & _ & Hstr & _).
  destruct (Hlow 60 eq_refl ltac:(cbn; lia)) as [Hrun Hk].
  destruct (Hstr "5"%string 5 eq_refl eq_refl ltac:(cbn; lia) ltac:(cbn; lia)
              ltac:(unfold safeInteger; vm_compute; split; reflexivity))
    as (u' & Hrun' & Hp & _).
  split; [split; [exact (f_equal fst Hrun) | exact Hk] |].
  etrans; [exact (f_equal (fun o => balance o.1 Scenario.X) Hrun') |].
  unfold balance. cbn [fst users set_users].
  etrans; [exact (f_equal (fmap userSchema.points) (lookup_insert_eq _ _ _)) |].
  exact (f_equal Some Hp).
Defined.

Lemma points_add_number db body u n :
  users db !! users.userId body = Some u -> users.validBody body = true ->
  users.points body = Num n -> 0 <= userSchema.points u + n ->
  users.post_points_add body db
  = (set_users (<[users.userId body := credited n u]> (users db)) db,
     ok_with 200 ("Added " +:+ pretty n +:+ " points to user")).
Proof.
  intros Hu Hvb Hn Hle. rewrite (points_add_step db body u Hu Hvb). unfold tryCatch.
  rewrite Hn. cbn [User.addPoints_any text].
  unfold bind at 1. by rewrite (addPoints_run _ _ _ _ Hu Hle).
Qed.

Lemma points_add_digits db body u s v :
  users db !! users.userId body = Some u -> users.validBody body = true ->
  users.points body = Str s -> numeral s = Some v ->
  0 <= userSchema.points u ->
  0 <= userSchema.totalPointsEarned (userSchema.stats u) ->
  users.post_points_add body db
  = (set_users
       (<[users.userId body :=
            userSchema.set_totalPointsEarned
              (followedBy s v (userSchema.totalPointsEarned (userSchema.stats u)))
              (userSchema.set_points (followedBy s v (userSchema.points u)) u)]>
          (users db)) db,
     ok_with 200 ("Added " +:+ s +:+ " points to user")).
Proof.
  intros Hu Hvb Hs Hnum Hp He. rewrite (points_add_step db body u Hu Hvb).
  unfold tryCatch. rewrite Hs. cbn [User.addPoints_any text].
  destruct (numeral_digits _ _ Hnum) as [Hd Hv].
  unfold bind at 1. by rewrite (addPoints_text_run _ _ _ _ _ Hu Hp He Hd).
Qed.

(** X18. Adding and then deducting the same amount. For a stored user
    whose balance and two points counters are 0 or more and a reason of
    at most 200 characters, the add handler followed by the deduct
    handler with the same body both succeed, and:
    - with a JSON number of 1 or more (the three sums being safe
      integers) the balance is back where it was, while the two counters
      do not cancel: [totalPointsEarned] and [totalPointsSpent] are each
      the amount higher;
    - with a JSON string of [k] digits that spells 1 or more the balance
      is not back where it was but at 10^k times its value (10 points and
      the string 5 give 105 and then 100), the string being appended to
      the digits of both counters. *)
Theorem points_add_then_deduct (db : Db) (body : users.PointsBody) (u : userSchema.t) :
  users db !! users.userId body = Some u ->
  0 <= userSchema.points u ->
  0 <= userSchema.totalPointsEarned (userSchema.stats u) ->
  0 <= userSchema.totalPointsSpent (userSchema.stats u) ->
  maxlength 200 (users.reason body) = true ->
  let out1 := users.post_points_add body db in
  let out2 := users.post_points_deduct body out1.1 in
  (forall n, users.points body = Num n -> 1 <= n ->
     safeInteger (userSchema.points u + n) ->
     safeInteger (userSchema.totalPointsEarned (userSchema.stats u) + n) ->
     safeInteger (userSchema.totalPointsSpent (userSchema.stats u) + n) ->
     success out1.2 = true /\ success out2.2 = true /\
     exists u',
       users out2.1 = <[users.userId body := u']> (users db) /\
       userSchema.points u' = userSchema.points u /\
       userSchema.totalPointsEarned (userSchema.stats u')
       = userSchema.totalPointsEarned (userSchema.stats u) + n /\
       userSchema.totalPointsSpent (userSchema.stats u')
       = userSchema.totalPointsSpent (userSchema.stats u) + n /\
       sameActivity u u') /\
  (forall s v, users.points body = Str s -> numeral s = Some v -> 1 <= v ->
     safeInteger (followedBy s v (userSchema.points u)) ->
     safeInteger (followedBy s v (userSchema.totalPointsEarned (userSchema.stats u))) ->
     safeInteger (followedBy s v (userSchema.totalPointsSpent (userSchema.stats u))) ->
     success out1.2 = true /\ success out2.2 = true /\
     exists u',
       users out2.1 = <[users.userId body := u']> (users db) /\
       userSchema.points u' = userSchema.points u * 10 ^ Z.of_nat (String.length s) /\
       userSchema.totalPointsEarned (userSchema.stats u')
       = followedBy s v (userSchema.totalPointsEarned (userSchema.stats u)) /\
       userSchema.totalPointsSpent (userSchema.stats u')
       = followedBy s v (userSchema.totalPointsSpent (userSchema.stats u)) /\
       sameActivity u u').
Proof.
  intros Hu Hp He Hsp Hreason. cbv zeta.
  assert (Hvalid : users.validBody body = users.isInt_min1 (users.points body)).
  { unfold users.validBody. by rewrite Hreason, andb_true_r. }
  split.
  - intros n Hn Hn1 Hs1 _ _.
    assert (Hvb : users.validBody body = true).
    { rewrite Hvalid, Hn. apply isInt_number; [done |].
      apply safeInteger_below in Hs1. lia. }
    rewrite (points_add_number db body u n Hu Hvb Hn) by lia. cbn [fst snd].
    rewrite (points_deduct_number _ body (credited n u) n);
      [| cbn; by rewrite lookup_insert_eq | exact Hvb | exact Hn | cbn; lia].
    cbn [fst snd success ok_with users set_users].
    split_and!; try done.
    eexists. split; [by rewrite insert_insert_eq |]. cbn. split_and!; (done || lia).
  - intros s v Hs Hnum Hv _ _ _.
    assert (Hvb : users.validBody body = true).
    { rewrite Hvalid, Hs. by apply (isInt_numeral s v). }
    destruct (numeral_digits _ _ Hnum) as [Hd Hv0].
    rewrite (points_add_digits db body u s v Hu Hvb Hs Hnum Hp He). cbn [fst snd].
    erewrite (points_deduct_digits _ body _ s v);
      [| cbn; by rewrite lookup_insert_eq | exact Hvb | exact Hs | exact Hnum
       | cbn -[followedBy]; by apply followedBy_value
       | cbn -[followedBy]; exact Hsp].
    cbn [fst snd success ok_with users set_users].
    split_and!; try done.
    eexists. split; [by rewrite insert_insert_eq |]. cbn.
    split_and!; try done. unfold followedBy. lia.
Qed.

Lemma points_add_then_deduct_witness :
  let number := {| users.userId := Scenario.X; users.points := Num 5;
                   users.reason := None |} in
  let digits5 := {| users.userId := Scenario.X; users.points := Str "5";
                    users.reason := None |} in
  let after body :=
    (users.post_points_deduct body
       (users.post_points_add body (Scenario.pointsDb 10 7)).1).1 in
  balance (after number) Scenario.X = Some 10 /\
  balance (after digits5) Scenario.X = Some 100.
Proof.
  cbv zeta.
  destruct (points_add_then_deduct (Scenario.pointsDb 10 7)
              {| users.userId := Scenario.X; users.points := Num 5;
                 users.reason := None |}
              (Scenario.user 10) eq_refl ltac:(cbn; lia) ltac:(cbn; lia)
              ltac:(cbn; lia) eq_refl) as [Hnum _].
  destruct (points_add_then_deduct (Scenario.pointsDb 10 7)
              {| users.userId := Scenario.X; users.points := Str "5";
                 users.reason := None |}
              (Scenario.user 10) eq_refl ltac:(cbn; lia) ltac:(cbn; lia)
              ltac:(cbn; lia) eq_refl) as [_ Hstr].
  destruct (Hnum 5 eq_refl ltac:(lia) ltac:(unfold safeInteger; cbn; lia)
              ltac:(unfold safeInteger; cbn; lia) ltac:(unfold safeInteger; cbn; lia))
    as (_ & _ & u1 & Hus1 & Hp1 & _).
  destruct (Hstr "5"%string 5 eq_refl eq_refl ltac:(lia)
              ltac:(unfold safeInteger; vm_compute; split; reflexivity)
              ltac:(unfold safeInteger; vm_compute; split; reflexivity)
              ltac:(unfold safeInteger; vm_compute; split; reflexivity))
    as (_ & _ & u2 & Hus2 & Hp2 & _).
  split.
  - unfold balance.
    etrans; [exact (f_equal (fun m => userSchema.points <$> m !! Scenario.X) Hus1) |].
    etrans; [exact (f_equal (fmap userSchema.points) (lookup_insert_eq _ _ _)) |].
    exact (f_equal Some Hp1).
  - unfold balance.
    etrans; [exact (f_equal (fun m => userSchema.points <$> m !! Scenario.X) Hus2) |].
    etrans; [exact (f_equal (fmap userSchema.points) (lookup_insert_eq _ _ _)) |].
    exact (f_equal Some Hp2).
Defined.

(** ** Which calls move points *)

Lemma pick_unmodified a s : userSchema.pick a a s = s.
Proof. unfold userSchema.pick. by rewrite Z.eqb_refl. Qed.

Lemma keeps_increment_balances (m0 : gmap ObjectId userSchema.t) Ii Is this doc :
  keeps (componentwise
           (fun m => forall u, userSchema.points <$> m !! u = userSchema.points <$> m0 !! u)
           Ii Is)
    (User.incrementSwapsCompleted this doc).
Proof.
  intros db (HIu & HIi & HIs). unfold User.incrementSwapsCompleted, User.save.
  destruct (userSchema.validate _); [| done].
  destruct (users db !! this) as [stored |] eqn:Hs; [| done].
  split_and!; try done. cbn [users set_users]. intros u.
  destruct (decide (u = this)) as [-> | Hne].
  - rewrite lookup_insert_eq, <- HIu, Hs. cbn. by rewrite pick_unmodified.
  - rewrite lookup_insert_ne by done. apply HIu.
Qed.

(** X19. Which calls move points. Creating, rejecting, completing and
    reading a request and removing an item leave the balance of every user
    as it was, on every path and for every caller and input; completing
    only counts the swap for both parties. Points move only through
    accept and the two points handlers (and through cancel only in a store
    in which a pending request records a transfer). *)
Theorem balances_moved_only_by (c : Call) (db : Db) (u : ObjectId) :
  movesNoPoints c = true -> balance (run c db).1 u = balance db u.
Proof.
  intros Hc.
  pose (I := componentwise
               (fun m => forall u, userSchema.points <$> m !! u
                                   = userSchema.points <$> users db !! u)
               (fun _ : gmap ObjectId itemSchema.t => True)
               (fun _ : gmap ObjectId swapRequestSchema.t => True)).
  assert (HI : I db) by done.
  enough (I (run c db).1) as (Hu & _ & _) by apply Hu.
  destruct c; try discriminate Hc; cbn [run];
    [unfold swaps.post | unfold swaps.put_reject | unfold swaps.put_complete
    | unfold swaps.put_read | unfold admin.delete_item];
    (apply keeps_tryCatch; [| exact HI]); unfold I.
  - repeat first [ apply keeps_create; apply closedS_any | keeps_step ].
  - unfold SwapRequest.reject. keeps_auto.
  - unfold SwapRequest.complete.
    cbv zeta. repeat first [ apply keeps_increment_balances | keeps_step ].
  - unfold SwapRequest.markAsRead. keeps_auto.
  - keeps_auto.
Qed.

Lemma balances_moved_only_by_witness :
  let db := (swaps.put_accept Scenario.Y Scenario.R None (Scenario.pointsDb 50 7)).1 in
  balance (run (CompleteSwap Scenario.X Scenario.R 5) db).1 Scenario.Y = Some 47.
Proof.
  cbv zeta.
  etrans; [exact (balances_moved_only_by (CompleteSwap Scenario.X Scenario.R 5)
                    (swaps.put_accept Scenario.Y Scenario.R None
                       (Scenario.pointsDb 50 7)).1 Scenario.Y eq_refl) |].
  vm_compute. reflexivity.
Defined.
